(** * FeedbackApp (src/pages/Index.tsx): state, handlers and derived values

    A shallow embedding of the state-carrying part of the [FeedbackApp]
    component: the hooks' state as one record, every event handler as a
    function on that record, the memoised derivations as functions of it.
    The markup is left out; what it contributes to behaviour (which
    control is rendered in which view, which values a control can send)
    is kept as the [enabled] predicate of the transition system. *)

From stdpp Require Import base strings gmap list.
From Stdlib Require Import ZArith Lia Ascii String.
From Stdlib Require Import Decimal DecimalString DecimalPos DecimalN DecimalZ.
From Stdlib Require Import Sorting.Sorted Sorting.Permutation.

Local Open Scope string_scope.
Local Open Scope Z_scope.

(** ** The runtime's strings

    A JavaScript string is a sequence of UTF-16 code units.  The model
    uses [string], whose characters are the code units below 256
    (ASCII and the Latin-1 supplement); on such strings the functions
    below are those of ECMAScript. *)

Module JSString.

Definition code (c : ascii) : Z := Z.of_N (N_of_ascii c).

(** WhiteSpace and LineTerminator code points below 256: TAB, LF, VT,
    FF, CR, SP and NBSP. *)
Definition isWhiteSpace (c : ascii) : bool :=
  let n := code c in
  ((9 <=? n) && (n <=? 13)) || (n =? 32) || (n =? 160).

Fixpoint trimStart (s : string) : string :=
  match s with
  | String c s' => if isWhiteSpace c then trimStart s' else s
  | EmptyString => EmptyString
  end.

Definition trimEnd (s : string) : string :=
  String.rev (trimStart (String.rev s)).

(** [String.prototype.trim] *)
Definition trim (s : string) : string := trimEnd (trimStart s).

(** ToBoolean on a string: the empty string is the only falsy one. *)
Definition truthy (s : string) : bool :=
  match s with EmptyString => false | String _ _ => true end.

(** Lower-case mapping of one code unit: A-Z, and in the Latin-1
    supplement U+00C0-U+00DE without the multiplication sign U+00D7. *)
Definition lowerChar (c : ascii) : ascii :=
  let n := code c in
  if ((65 <=? n) && (n <=? 90))
     || ((192 <=? n) && (n <=? 222) && negb (n =? 215))
  then ascii_of_N (Z.to_N (n + 32)) else c.

(** [String.prototype.toLowerCase] *)
Fixpoint toLowerCase (s : string) : string :=
  match s with
  | EmptyString => EmptyString
  | String c s' => String (lowerChar c) (toLowerCase s')
  end.

Fixpoint startsWith (s p : string) : bool :=
  match p, s with
  | EmptyString, _ => true
  | String _ _, EmptyString => false
  | String a p', String b s' => Ascii.eqb a b && startsWith s' p'
  end.

(** [String.prototype.includes], searching from position 0. *)
Fixpoint includes (s q : string) : bool :=
  startsWith s q ||
  match s with
  | EmptyString => false
  | String _ s' => includes s' q
  end.

(** Number::toString of an integral Number (below 10^21 in
    magnitude): its decimal digits, with a minus sign when negative. *)
Definition ofInteger (z : Z) : string :=
  NilZero.string_of_int (Z.to_int z).

End JSString.

(** ** The runtime's numbers

    Every Number the component computes with is either an integer (an
    exact double below 2^53 in magnitude) or one quotient of two such
    integers.  A quotient is kept as the dyadic rational [mant / 2^shift]
    that IEEE 754 round-to-nearest-even division returns. *)

Module Float64.

Record dyadic := Dyadic { mant : Z; shift : Z }.

(** Nearest double to [a / b] for [0 < a < 2^53] and [0 < b < 2^53]:
    the shift puts the quotient's mantissa in [2^52, 2^53), the
    mantissa is rounded to nearest, ties to even. *)
Definition div_pos (a b : Z) : dyadic :=
  let s0 := 52 + Z.log2 b - Z.log2 a in
  let s := if a * 2 ^ s0 <? 2 ^ 52 * b then s0 + 1 else s0 in
  let num := a * 2 ^ s in
  let m0 := num / b in
  let r := num mod b in
  let m :=
    if (b <? 2 * r) || ((2 * r =? b) && Z.odd m0) then m0 + 1 else m0 in
  Dyadic m s.

(** [a / b] for an integer [a] and a positive integer [b]. *)
Definition div (a b : Z) : dyadic :=
  if a =? 0 then Dyadic 0 0
  else if a <? 0 then
    let d := div_pos (- a) b in Dyadic (- mant d) (shift d)
  else div_pos a b.

(** [a - b] for two integers whose difference is below 2^54 in
    magnitude (two time values are): the difference itself below 2^53;
    from there on the doubles are the even integers, an odd difference
    lies midway between two of them and goes to the one with the even
    mantissa, the multiple of 4. *)
Definition sub (a b : Z) : Z :=
  let d := a - b in
  if Z.abs d <? 2 ^ 53 then d
  else if Z.even d then d
  else if (d + 1) mod 4 =? 0 then d + 1 else d - 1.

(** [Math.floor] *)
Definition floor (x : dyadic) : Z := mant x / 2 ^ shift x.

(** The integer [n] of Number.prototype.toFixed(1) for [x >= 0]: the
    one for which [n / 10 - x] is closest to zero, the larger of two. *)
Definition tenths_pos (x : dyadic) : Z :=
  (20 * mant x + 2 ^ shift x) / 2 ^ (shift x + 1).

(** Digits of toFixed(1) for the integer [n >= 0] chosen above. *)
Definition fixed1_digits (n : Z) : string :=
  JSString.ofInteger (n / 10) ++ "." ++ JSString.ofInteger (n mod 10).

(** [Number.prototype.toFixed(1)]: a negative [x] is written as a
    minus sign followed by the digits of [-x]. *)
Definition toFixed1 (x : dyadic) : string :=
  if mant x <? 0
  then "-" ++ fixed1_digits (tenths_pos (Dyadic (- mant x) (shift x)))
  else fixed1_digits (tenths_pos x).

End Float64.

(** [Number(s)] on a numeral written by toFixed(1) (digits, a point,
    one digit, possibly after a minus sign), given as its count of
    tenths; [None] stands for NaN.  Two such numerals denote doubles
    that compare as their tenths do, so the sign of a difference of
    doubles is the sign of the difference of tenths. *)
Definition Number_tenths (s : string) : option Z :=
  let neg := match s with String "-" _ => true | _ => false end in
  let body := match s with String "-" r => r | _ => s end in
  let k := String.length body in
  let int_part := substring 0 (k - 2) body in
  let frac_part := substring (k - 1) 1 body in
  if String.eqb (substring (k - 2) 1 body) "." then
    match NilZero.uint_of_string int_part, NilZero.uint_of_string frac_part with
    | Some i, Some f =>
        let n := 10 * Z.of_N (N.of_uint i) + Z.of_N (N.of_uint f) in
        Some (if neg then - n else n)
    | _, _ => None
    end
  else None.

(** ** The runtime's dates

    A Date is its time value: milliseconds since the epoch, within
    8.64e15 of it.  [toISOString] writes it in the date-time string
    format.  The constructor [new Date(string)] is [construct]: a
    complete instance of that format with the UTC designator (what
    [toISOString] writes) is read by [parse], the same in every engine;
    any other string (a shorter form of the format, an offset, a time
    of the local zone, a field out of range, a format of the engine's
    own) is read as the host reads it, the interface [Host]. *)

Module JSDate.

Definition msPerDay : Z := 86400000.

(** Year, month (1-12) and day of month of a day number. *)
Definition civil (day : Z) : Z * Z * Z :=
  let z := day + 719468 in
  let era := z / 146097 in
  let doe := z - era * 146097 in
  let yoe := (doe - doe / 1460 + doe / 36524 - doe / 146096) / 365 in
  let doy := doe - (365 * yoe + yoe / 4 - yoe / 100) in
  let mp := (5 * doy + 2) / 153 in
  let d := doy - (153 * mp + 2) / 5 + 1 in
  let m := if mp <? 10 then mp + 3 else mp - 9 in
  let y := yoe + era * 400 + (if m <=? 2 then 1 else 0) in
  (y, m, d).

(** Day number of a year, month and day of month. *)
Definition dayFromCivil (y m d : Z) : Z :=
  let y' := if m <=? 2 then y - 1 else y in
  let era := y' / 400 in
  let yoe := y' - era * 400 in
  let doy := (153 * (if 2 <? m then m - 3 else m + 9) + 2) / 5 + d - 1 in
  let doe := yoe * 365 + yoe / 4 - yoe / 100 + doy in
  era * 146097 + doe - 719468.

Definition isLeap (y : Z) : bool :=
  (y mod 4 =? 0) && (negb (y mod 100 =? 0) || (y mod 400 =? 0)).

Definition daysInMonth (y m : Z) : Z :=
  if m =? 2 then (if isLeap y then 29 else 28)
  else if (m =? 4) || (m =? 6) || (m =? 9) || (m =? 11) then 30
  else 31.

Definition digit (n : Z) : ascii := ascii_of_N (Z.to_N (48 + n)).

(** [n] in decimal, padded with zeros to [w] digits. *)
Fixpoint pad (w : nat) (n : Z) : string :=
  match w with
  | O => ""
  | S w' => pad w' (n / 10) ++ String (digit (n mod 10)) ""
  end.

Definition yearString (y : Z) : string :=
  if (0 <=? y) && (y <=? 9999) then pad 4 y
  else (if y <? 0 then "-" else "+") ++ pad 6 (Z.abs y).

(** [Date.prototype.toISOString] *)
Definition toISOString (t : Z) : string :=
  let '(y, mo, d) := civil (t / msPerDay) in
  let ms := t mod msPerDay in
  yearString y ++ "-" ++ pad 2 mo ++ "-" ++ pad 2 d ++ "T"
    ++ pad 2 (ms / 3600000) ++ ":" ++ pad 2 (ms / 60000 mod 60) ++ ":"
    ++ pad 2 (ms / 1000 mod 60) ++ "." ++ pad 3 (ms mod 1000) ++ "Z".

Definition digitValue (c : ascii) : option Z :=
  let n := JSString.code c in
  if (48 <=? n) && (n <=? 57) then Some (n - 48) else None.

(** Read exactly [w] decimal digits from the front of [s]. *)
Fixpoint digits (w : nat) (acc : Z) (s : string) : option (Z * string) :=
  match w with
  | O => Some (acc, s)
  | S w' =>
      match s with
      | String c s' =>
          match digitValue c with
          | Some v => digits w' (10 * acc + v) s'
          | None => None
          end
      | EmptyString => None
      end
  end.

Definition expect (c : ascii) (s : string) : option string :=
  match s with
  | String c' s' => if Ascii.eqb c c' then Some s' else None
  | EmptyString => None
  end.

Definition year (s : string) : option (Z * string) :=
  match s with
  | String "+" s' => digits 6 0 s'
  | String "-" s' =>
      match digits 6 0 s' with
      | Some (y, r) => if y =? 0 then None else Some (- y, r)
      | None => None
      end
  | _ => digits 4 0 s
  end.

(** The largest magnitude of a time value. *)
Definition maxTime : Z := 8640000000000000.

(** TimeClip: a time beyond [maxTime] is no time value. *)
Definition timeClip (t : Z) : option Z :=
  if Z.abs t <=? maxTime then Some t else None.

(** The time value of [YYYY-MM-DDTHH:mm:ss.sssZ] (or the same with an
    expanded year) when every field is in range and the instant is a
    time value; [None] otherwise. *)
Definition parse (s : string) : option Z :=
  '(y, s) ← year s; s ← expect "-" s;
  '(mo, s) ← digits 2 0 s; s ← expect "-" s;
  '(d, s) ← digits 2 0 s; s ← expect "T" s;
  '(h, s) ← digits 2 0 s; s ← expect ":" s;
  '(mi, s) ← digits 2 0 s; s ← expect ":" s;
  '(sec, s) ← digits 2 0 s; s ← expect "." s;
  '(ms, s) ← digits 3 0 s; s ← expect "Z" s;
  if String.eqb s ""
     && (1 <=? mo) && (mo <=? 12) && (1 <=? d) && (d <=? daysInMonth y mo)
     && ((h <=? 23) || ((h =? 24) && (mi =? 0) && (sec =? 0) && (ms =? 0)))
     && (mi <=? 59) && (sec <=? 59)
  then timeClip (dayFromCivil y mo d * msPerDay
                 + h * 3600000 + mi * 60000 + sec * 1000 + ms)
  else None.

(** What the host's constructor makes of a string that [parse] does not
    read: its time value, or [None] for an invalid Date. *)
Class Host := parseOther : string → option Z.

(** [new Date(string)], as its time value; [None] is the NaN of an
    invalid Date. *)
Definition construct `{Host} (s : string) : option Z :=
  match parse s with
  | Some t => Some t
  | None => parseOther s
  end.

(** A stand-in host that reads no other string, for evaluating
    [construct] on the strings [parse] reads, where the host is not
    consulted.  An engine reads more (date-only forms, offsets, dates
    in its own formats); what it makes of those is not fixed here. *)
Definition strictHost : Host := λ _, None.

End JSDate.

(** ** The runtime's arrays: [Array.prototype.sort]

    The sort is stable and orders by the sign of the comparator.  For a
    consistent comparator every stable sort returns the same array; the
    model is the insertion sort that puts each element before the first
    later one it does not follow. *)

Section Sort.
Context {A : Type} (cmp : A → A → Z).

Fixpoint insert_sorted (x : A) (l : list A) : list A :=
  match l with
  | [] => [x]
  | y :: l' => if cmp x y <=? 0 then x :: l else y :: insert_sorted x l'
  end.

Fixpoint sort (l : list A) : list A :=
  match l with
  | [] => []
  | x :: l' => insert_sorted x (sort l')
  end.
End Sort.

(** [String.prototype.localeCompare] follows the collation of the
    host's locale, which the component does not choose: an interface. *)
Class Locale := localeCompare : string → string → Z.

(** Comparison of code units, first difference decides: the collation
    used when the derivations are evaluated on the sample roster, whose
    names are told apart at an upper-case ASCII letter. *)
Fixpoint compareCodeUnits (a b : string) : Z :=
  match a, b with
  | EmptyString, EmptyString => 0
  | EmptyString, String _ _ => -1
  | String _ _, EmptyString => 1
  | String x a', String y b' =>
      if JSString.code x <? JSString.code y then -1
      else if JSString.code y <? JSString.code x then 1
      else compareCodeUnits a' b'
  end.

Definition codeUnitLocale : Locale := compareCodeUnits.

(** ** Data model (interfaces [Teacher] and [Feedback]) *)

Module Teacher.
Record t := mk { id : Z; name : string; department : string; subject : string }.
#[global] Instance eq_dec : EqDecision t.
Proof. solve_decision. Defined.
End Teacher.

Module Feedback.
Record t := mk {
  id : Z;
  anonymousId : string;
  comment : string;
  rating : Z;
  timestamp : string
}.
#[global] Instance eq_dec : EqDecision t.
Proof. solve_decision. Defined.
End Feedback.

(** The hooks of [FeedbackApp].  [teachers] is the array held by the
    first [useState]: the component never replaces it, but an in-place
    array method called on it changes its contents, so the record holds
    the array's current contents.  [feedbackData] is the
    [Record<number, Feedback[]>]. *)
Record State := mkState {
  teachers : list Teacher.t;
  currentView : string;
  selectedTeacher : option Teacher.t;
  anonymousId : string;
  feedbackData : gmap Z (list Feedback.t);
  filterDepartment : string;
  sortBy : string;
  searchQuery : string;
  showSearch : bool;
  activeStatsCard : option string;
  feedbackText : string;
  feedbackRating : Z
}.

Definition setTeachers (v : list Teacher.t) (s : State) : State :=
  mkState v (currentView s) (selectedTeacher s) (anonymousId s)
    (feedbackData s) (filterDepartment s) (sortBy s) (searchQuery s)
    (showSearch s) (activeStatsCard s) (feedbackText s) (feedbackRating s).

Definition setCurrentView (v : string) (s : State) : State :=
  mkState (teachers s) v (selectedTeacher s) (anonymousId s)
    (feedbackData s) (filterDepartment s) (sortBy s) (searchQuery s)
    (showSearch s) (activeStatsCard s) (feedbackText s) (feedbackRating s).

Definition setSelectedTeacher (v : option Teacher.t) (s : State) : State :=
  mkState (teachers s) (currentView s) v (anonymousId s)
    (feedbackData s) (filterDepartment s) (sortBy s) (searchQuery s)
    (showSearch s) (activeStatsCard s) (feedbackText s) (feedbackRating s).

Definition setAnonymousId (v : string) (s : State) : State :=
  mkState (teachers s) (currentView s) (selectedTeacher s) v
    (feedbackData s) (filterDepartment s) (sortBy s) (searchQuery s)
    (showSearch s) (activeStatsCard s) (feedbackText s) (feedbackRating s).

(** [setFeedbackData] is only ever called with an updater function. *)
Definition setFeedbackData
    (f : gmap Z (list Feedback.t) → gmap Z (list Feedback.t)) (s : State) : State :=
  mkState (teachers s) (currentView s) (selectedTeacher s) (anonymousId s)
    (f (feedbackData s)) (filterDepartment s) (sortBy s) (searchQuery s)
    (showSearch s) (activeStatsCard s) (feedbackText s) (feedbackRating s).

Definition setFilterDepartment (v : string) (s : State) : State :=
  mkState (teachers s) (currentView s) (selectedTeacher s) (anonymousId s)
    (feedbackData s) v (sortBy s) (searchQuery s)
    (showSearch s) (activeStatsCard s) (feedbackText s) (feedbackRating s).

Definition setSortBy (v : string) (s : State) : State :=
  mkState (teachers s) (currentView s) (selectedTeacher s) (anonymousId s)
    (feedbackData s) (filterDepartment s) v (searchQuery s)
    (showSearch s) (activeStatsCard s) (feedbackText s) (feedbackRating s).

Definition setSearchQuery (v : string) (s : State) : State :=
  mkState (teachers s) (currentView s) (selectedTeacher s) (anonymousId s)
    (feedbackData s) (filterDepartment s) (sortBy s) v
    (showSearch s) (activeStatsCard s) (feedbackText s) (feedbackRating s).

Definition setShowSearch (v : bool) (s : State) : State :=
  mkState (teachers s) (currentView s) (selectedTeacher s) (anonymousId s)
    (feedbackData s) (filterDepartment s) (sortBy s) (searchQuery s)
    v (activeStatsCard s) (feedbackText s) (feedbackRating s).

Definition setActiveStatsCard (v : option string) (s : State) : State :=
  mkState (teachers s) (currentView s) (selectedTeacher s) (anonymousId s)
    (feedbackData s) (filterDepartment s) (sortBy s) (searchQuery s)
    (showSearch s) v (feedbackText s) (feedbackRating s).

Definition setFeedbackText (v : string) (s : State) : State :=
  mkState (teachers s) (currentView s) (selectedTeacher s) (anonymousId s)
    (feedbackData s) (filterDepartment s) (sortBy s) (searchQuery s)
    (showSearch s) (activeStatsCard s) v (feedbackRating s).

Definition setFeedbackRating (v : Z) (s : State) : State :=
  mkState (teachers s) (currentView s) (selectedTeacher s) (anonymousId s)
    (feedbackData s) (filterDepartment s) (sortBy s) (searchQuery s)
    (showSearch s) (activeStatsCard s) (feedbackText s) v.

(** The sample roster (lines 28-35). *)
Definition sampleTeachers : list Teacher.t :=
  [ Teacher.mk 1 "Dr. Rajesh Kumar" "Computer Science" "Data Structures";
    Teacher.mk 2 "Prof. Priya Sharma" "Mathematics" "Linear Algebra";
    Teacher.mk 3 "Dr. Arjun Menon" "Physics" "Quantum Mechanics";
    Teacher.mk 4 "Prof. Kavitha Nair" "Chemistry" "Organic Chemistry";
    Teacher.mk 5 "Dr. Suresh Babu" "Computer Science" "Machine Learning";
    Teacher.mk 6 "Prof. Meera Das" "English" "Technical Writing" ].

(** The initial values of the hooks. *)
Definition initialState : State :=
  {| teachers := sampleTeachers;
     currentView := "home";
     selectedTeacher := None;
     anonymousId := "";
     feedbackData := ∅;
     filterDepartment := "all";
     sortBy := "name";
     searchQuery := "";
     showSearch := false;
     activeStatsCard := None;
     feedbackText := "";
     feedbackRating := 0 |}.

(** ** Derived values *)

(** [feedbackData[teacherId] || []] *)
Definition feedbacksOf (data : gmap Z (list Feedback.t)) (teacherId : Z)
    : list Feedback.t :=
  default [] (data !! teacherId).

(** [teacherFeedbacks.reduce((acc, fb) => acc + fb.rating, 0)] *)
Definition sumRatings (fbs : list Feedback.t) : Z :=
  fold_left (λ acc fb, acc + Feedback.rating fb) fbs 0.

Definition calculateAverageRating (s : State) (teacherId : Z) : string :=
  let teacherFeedbacks := feedbacksOf (feedbackData s) teacherId in
  if Z.of_nat (List.length teacherFeedbacks) =? 0 then "0.0"
  else Float64.toFixed1
         (Float64.div (sumRatings teacherFeedbacks)
                      (Z.of_nat (List.length teacherFeedbacks))).

Definition getFeedbackCount (s : State) (teacherId : Z) : Z :=
  Z.of_nat (List.length (feedbacksOf (feedbackData s) teacherId)).

(** [[...new Set(array.map(teacher => teacher.department))]]: a Set
    lists its members in the order of their first insertion. *)
Definition distinctDepartments (roster : list Teacher.t) : list string :=
  fold_left (λ (acc : list string) d,
               if bool_decide (d ∈ acc) then acc else (acc ++ [d])%list)
            (map Teacher.department roster) [].

(** The memo of lines 120-122.  Its one dependency is the [teachers]
    array, which the component never replaces: the memo is computed
    once, in the first render, where the array still has the order it
    was initialised with (the sort of line 140 comes later in that
    render). *)
Definition departments : list string :=
  distinctDepartments (teachers initialState).

(** The callback of the search filter (lines 133-137). *)
Definition matchesSearch (query : string) (teacher : Teacher.t) : bool :=
  let q := JSString.toLowerCase query in
  JSString.includes (JSString.toLowerCase (Teacher.name teacher)) q
  || JSString.includes (JSString.toLowerCase (Teacher.department teacher)) q
  || JSString.includes (JSString.toLowerCase (Teacher.subject teacher)) q.

(** The comparator of the sort (lines 140-149).  In the ["rating"] case
    the result has the sign of the difference of the two Numbers; a NaN
    operand gives NaN, which the sort takes for 0. *)
Definition compareTeachers `{Locale} (s : State) (a b : Teacher.t) : Z :=
  if String.eqb (sortBy s) "rating" then
    match Number_tenths (calculateAverageRating s (Teacher.id b)),
          Number_tenths (calculateAverageRating s (Teacher.id a)) with
    | Some nb, Some na => nb - na
    | _, _ => 0
    end
  else if String.eqb (sortBy s) "feedbacks" then
    getFeedbackCount s (Teacher.id b) - getFeedbackCount s (Teacher.id a)
  else localeCompare (Teacher.name a) (Teacher.name b).

(** Whether [filtered] is a new array when the sort is reached: each
    [filter] call makes one, otherwise [filtered] is [teachers] itself. *)
Definition filteredIsCopy (s : State) : bool :=
  negb (String.eqb (filterDepartment s) "all")
  || JSString.truthy (JSString.trim (searchQuery s)).

(** The body of the [useMemo] of lines 125-150.  The first component is
    the value returned; the second is the state afterwards: [sort]
    orders its receiver in place, and the receiver is the [teachers]
    array whenever no [filter] call came before. *)
Definition filteredAndSortedTeachers `{Locale} (s : State)
    : list Teacher.t * State :=
  let filtered := teachers s in
  let filtered :=
    if negb (String.eqb (filterDepartment s) "all")
    then List.filter
           (λ teacher, String.eqb (Teacher.department teacher) (filterDepartment s))
           (teachers s)
    else filtered in
  let filtered :=
    if JSString.truthy (JSString.trim (searchQuery s))
    then List.filter (matchesSearch (searchQuery s)) filtered
    else filtered in
  let sorted := sort (compareTeachers s) filtered in
  (sorted, if filteredIsCopy s then s else setTeachers sorted s).

(** [timeAgo] (lines 153-162); [now] is the time value of the
    [new Date()] of line 154, a reading of the clock.  With an invalid
    Date every comparison with NaN is false and the last line is
    reached. *)
Definition timeAgo `{JSDate.Host} (now : Z) (timestamp : string) : string :=
  match JSDate.construct timestamp with
  | None => "NaNd ago"
  | Some time =>
      let diffMs := Float64.sub now time in
      let diffInMinutes := Float64.floor (Float64.div diffMs (1000 * 60)) in
      if diffInMinutes <? 1 then "Just now"
      else if diffInMinutes <? 60 then JSString.ofInteger diffInMinutes ++ "m ago"
      else if diffInMinutes <? 1440
      then JSString.ofInteger (Float64.floor (Float64.div diffInMinutes 60)) ++ "h ago"
      else JSString.ofInteger (Float64.floor (Float64.div diffInMinutes 1440)) ++ "d ago"
  end.

(** ** Event handlers *)

(** [submitFeedback] (lines 84-117).  [date_now] is the value of
    [Date.now()] and [new_date] the time value of [new Date()], two
    readings of the clock.  The first component is the text passed to
    [alert], if any. *)
Definition submitFeedback (date_now new_date : Z) (s : State)
    : option string * State :=
  match selectedTeacher s with
  | None => (Some "Please select a teacher", s)
  | Some teacher =>
      if negb (JSString.truthy (JSString.trim (feedbackText s)))
      then (Some "Please enter your feedback", s)
      else if feedbackRating s =? 0
      then (Some "Please provide a rating", s)
      else
        let newFeedback :=
          {| Feedback.id := date_now;
             Feedback.anonymousId := anonymousId s;
             Feedback.comment := JSString.trim (feedbackText s);
             Feedback.rating := feedbackRating s;
             Feedback.timestamp := JSDate.toISOString new_date |} in
        (None,
         setCurrentView "success"
           (setFeedbackRating 0
              (setFeedbackText ""
                 (setFeedbackData
                    (λ prev, <[Teacher.id teacher :=
                                 (feedbacksOf prev (Teacher.id teacher)
                                    ++ [newFeedback])%list]> prev)
                    s))))
  end.

(** [handleStatsCardClick] (lines 170-183) *)
Definition handleStatsCardClick (cardType : string) (s : State) : State :=
  let s := setActiveStatsCard (Some cardType) s in
  if String.eqb cardType "faculty" then
    setSearchQuery "" (setFilterDepartment "all" (setShowSearch true s))
  else if String.eqb cardType "departments" then
    setShowSearch false s
  else if String.eqb cardType "reviews" then
    setSortBy "feedbacks" (setShowSearch false s)
  else s.

(** [clearSearch] (lines 186-190) *)
Definition clearSearch (s : State) : State :=
  setActiveStatsCard None (setShowSearch false (setSearchQuery "" s)).

(** [clearAllFilters] (lines 193-199) *)
Definition clearAllFilters (s : State) : State :=
  setShowSearch false
    (setActiveStatsCard None
       (setSortBy "name" (setFilterDepartment "all" (setSearchQuery "" s)))).

(** The [onClick] of a roster card (lines 758-761). *)
Definition selectTeacher (teacher : Teacher.t) (s : State) : State :=
  setCurrentView "feedback" (setSelectedTeacher (Some teacher) s).

(** What the user can do; the payloads are the values the controls
    send. *)
Inductive Event :=
  | StatsCardClick (cardType : string)
  | SearchChange (value : string)
  | ClearSearch
  | DepartmentChange (value : string)
  | SortChange (value : string)
  | ClearAllFilters
  | RemoveSearchFilter
  | RemoveDepartmentFilter
  | RemoveActiveStatsFilter
  | SelectTeacher (teacher : Teacher.t)
  | BackToFaculty
  | FeedbackTextChange (value : string)
  | RatingClick (star : Z)
  | SubmitClick (date_now new_date : Z)
  | SubmitMore.

(** The handler each event runs. *)
Definition handle (e : Event) (s : State) : State :=
  match e with
  | StatsCardClick cardType => handleStatsCardClick cardType s
  | SearchChange value => setSearchQuery value s
  | ClearSearch => clearSearch s
  | DepartmentChange value => setFilterDepartment value s
  | SortChange value => setSortBy value s
  | ClearAllFilters => clearAllFilters s
  | RemoveSearchFilter => setSearchQuery "" s
  | RemoveDepartmentFilter => setFilterDepartment "all" s
  | RemoveActiveStatsFilter => setActiveStatsCard None s
  | SelectTeacher teacher => selectTeacher teacher s
  | BackToFaculty => setCurrentView "home" s
  | FeedbackTextChange value => setFeedbackText value s
  | RatingClick star => setFeedbackRating star s
  | SubmitClick date_now new_date => snd (submitFeedback date_now new_date s)
  | SubmitMore => setCurrentView "home" s
  end.

(** ** The view router and the transition system *)

Inductive View := HomeView | FeedbackView | SuccessView.

(** [renderView] (lines 989-998) *)
Definition renderView (s : State) : View :=
  if String.eqb (currentView s) "feedback" then FeedbackView
  else if String.eqb (currentView s) "success" then SuccessView
  else HomeView.

Definition viewIs (v : View) (s : State) : bool :=
  match renderView s, v with
  | HomeView, HomeView | FeedbackView, FeedbackView
  | SuccessView, SuccessView => true
  | _, _ => false
  end.

(** ToBoolean of [activeStatsCard]. *)
Definition cardTruthy (c : option string) : bool :=
  match c with Some c => JSString.truthy c | None => false end.

(** The condition under which the filter chips and "Clear All" are
    rendered (lines 701 and 712). *)
Definition filtersShown (s : State) : bool :=
  JSString.truthy (searchQuery s)
  || negb (String.eqb (filterDepartment s) "all")
  || cardTruthy (activeStatsCard s).

(** Whether the control of an event is on screen, not disabled, and can
    send the event's payload. *)
Definition enabled `{Locale} (s : State) (e : Event) : bool :=
  match e with
  | StatsCardClick cardType =>
      viewIs HomeView s
      && (String.eqb cardType "faculty" || String.eqb cardType "reviews"
          || String.eqb cardType "departments")
  | SearchChange _ => viewIs HomeView s && showSearch s
  | ClearSearch =>
      viewIs HomeView s && showSearch s && JSString.truthy (searchQuery s)
  | DepartmentChange value =>
      viewIs HomeView s
      && (String.eqb value "all" || bool_decide (value ∈ departments))
  | SortChange value =>
      viewIs HomeView s
      && (String.eqb value "name" || String.eqb value "rating"
          || String.eqb value "feedbacks")
  | ClearAllFilters => viewIs HomeView s && filtersShown s
  | RemoveSearchFilter => viewIs HomeView s && JSString.truthy (searchQuery s)
  | RemoveDepartmentFilter =>
      viewIs HomeView s && negb (String.eqb (filterDepartment s) "all")
  | RemoveActiveStatsFilter =>
      viewIs HomeView s && cardTruthy (activeStatsCard s)
  | SelectTeacher teacher =>
      viewIs HomeView s
      && bool_decide (teacher ∈ fst (filteredAndSortedTeachers s))
  | BackToFaculty => viewIs FeedbackView s
  | FeedbackTextChange _ => viewIs FeedbackView s
  | RatingClick star => viewIs FeedbackView s && (1 <=? star) && (star <=? 10)
  | SubmitClick _ _ =>
      viewIs FeedbackView s
      && negb (negb (JSString.truthy (JSString.trim (feedbackText s)))
               || (feedbackRating s =? 0))
  | SubmitMore => viewIs SuccessView s
  end.

(** The state the memo of [filteredAndSortedTeachers] depends on: the
    two filters, the sort key and, through the two callbacks, the
    feedback record (replaced by a longer one at each submission). *)
Definition memoDeps (s : State)
    : string * string * string * gmap Z (list Feedback.t) :=
  (filterDepartment s, sortBy s, searchQuery s, feedbackData s).

(** The render that follows a state update: the memo is computed again
    when one of its dependencies changed. *)
Definition render `{Locale} (prev next : State) : State :=
  if bool_decide (memoDeps next = memoDeps prev) then next
  else snd (filteredAndSortedTeachers next).

Definition step `{Locale} (s : State) (e : Event) : State :=
  render s (handle e s).

(** After mounting: the first render has computed the memo, then the
    effect of lines 56-59 has named the session with its random number. *)
Definition mounted `{Locale} (randomId : Z) : State :=
  setAnonymousId ("Anonymous " ++ JSString.ofInteger randomId)
    (snd (filteredAndSortedTeachers initialState)).

Inductive reachable `{Locale} : State → Prop :=
  | reachable_mounted (randomId : Z) :
      1 <= randomId <= 1000 → reachable (mounted randomId)
  | reachable_step (s : State) (e : Event) :
      reachable s → enabled s e = true → reachable (step s e).

(** A run of the component from a state: the events in order. *)
Fixpoint run `{Locale} (s : State) (es : list Event) : State :=
  match es with
  | [] => s
  | e :: es' => run (step s e) es'
  end.

Fixpoint runEnabled `{Locale} (s : State) (es : list Event) : bool :=
  match es with
  | [] => true
  | e :: es' => enabled s e && runEnabled (step s e) es'
  end.

(** ** Concrete states used to run the component *)

(** The first entry of the sample roster. *)
Definition rajeshKumar : Teacher.t :=
  Teacher.mk 1 "Dr. Rajesh Kumar" "Computer Science" "Data Structures".

(** A first review of teacher 1 is submitted at clock reading
    1700000000000, and the form is filled in for a second one. *)
Definition secondReviewReady : State :=
  run (H := codeUnitLocale) (mounted (H := codeUnitLocale) 7)
    [ SelectTeacher rajeshKumar; FeedbackTextChange "Great class";
      RatingClick 9; SubmitClick 1700000000000 1700000000000; SubmitMore;
      SelectTeacher rajeshKumar; FeedbackTextChange "Once more";
      RatingClick 8 ].


(** The mounted component after one click on the "Reviews" card: no
    feedback has been given, no filter is set, the sort key has gone
    from ["name"] to ["feedbacks"]. *)
Definition afterReviewsCard : State :=
  run (H := codeUnitLocale) (mounted (H := codeUnitLocale) 7)
    [ StatsCardClick "reviews" ].

(** ** The roster view as the specification describes it

    Three steps over a roster: the department filter, the search, the
    sort.  The sort is described by what it returns: the same teachers,
    in the order of the key, those with equal keys in the order they
    have in the roster. *)

(** What may be asked of a collation for a sort by it to be defined. *)
Class LocaleLaws `{Locale} : Prop := {
  localeCompare_total (a b : string) :
    localeCompare a b <= 0 ∨ localeCompare b a <= 0;
  localeCompare_trans (a b c : string) :
    localeCompare a b <= 0 → localeCompare b c <= 0 → localeCompare a c <= 0
}.

(** Step (1): everything when the filter is ["all"], else the teachers
    of exactly that department. *)
Definition spec_departmentFilter (s : State) (roster : list Teacher.t)
    : list Teacher.t :=
  if String.eqb (filterDepartment s) "all" then roster
  else List.filter
         (λ teacher, bool_decide (Teacher.department teacher = filterDepartment s))
         roster.

(** [q] occurs in [x] when case is ignored. *)
Definition caseInsensitiveSubstring (q x : string) : Prop :=
  ∃ before after : string,
    JSString.toLowerCase x
    = (before ++ JSString.toLowerCase q ++ after)%string.

(** Step (2), in effect only for a query that is not blank: the
    teachers kept are those of [matchesSearch], which is shown below to
    hold exactly when the query occurs, case ignored, in the name, the
    department or the subject. *)
Definition spec_search (s : State) (roster : list Teacher.t) : list Teacher.t :=
  if JSString.truthy (JSString.trim (searchQuery s))
  then List.filter (matchesSearch (searchQuery s)) roster
  else roster.

(** The average rating as a number: the tenths that
    [calculateAverageRating] writes. *)
Definition averageTenths (s : State) (teacherId : Z) : Z :=
  let teacherFeedbacks := feedbacksOf (feedbackData s) teacherId in
  let count := Z.of_nat (List.length teacherFeedbacks) in
  if count =? 0 then 0
  else
    let x := Float64.div (sumRatings teacherFeedbacks) count in
    if Float64.mant x <? 0
    then - Float64.tenths_pos (Float64.Dyadic (- Float64.mant x) (Float64.shift x))
    else Float64.tenths_pos x.

(** Step (3): [a] may stand before [b]. *)
Definition spec_precedes `{Locale} (s : State) (a b : Teacher.t) : bool :=
  if String.eqb (sortBy s) "rating"
  then averageTenths s (Teacher.id b) <=? averageTenths s (Teacher.id a)
  else if String.eqb (sortBy s) "feedbacks"
  then getFeedbackCount s (Teacher.id b) <=? getFeedbackCount s (Teacher.id a)
  else localeCompare (Teacher.name a) (Teacher.name b) <=? 0.

(** Equal sort keys. *)
Definition spec_sameKey `{Locale} (s : State) (a b : Teacher.t) : bool :=
  spec_precedes s a b && spec_precedes s b a.

(** [output] is the roster view of state [s] over [roster]: the
    teachers the two filters keep, each as often as kept, in the order
    of the sort key, equal keys in roster order. *)
Definition spec_filteredAndSortedRoster `{Locale}
    (roster : list Teacher.t) (s : State) (output : list Teacher.t) : Prop :=
  let kept := spec_search s (spec_departmentFilter s roster) in
  Permutation kept output
  ∧ StronglySorted (λ a b, spec_precedes s a b = true) output
  ∧ ∀ x, List.filter (spec_sameKey s x) output
         = List.filter (spec_sameKey s x) kept.

(** ** The average rating and the elapsed time as the specification
       describes them

    A mean "formatted to one decimal place" and a count of minutes
    written in a message.  The mean is a Number, the double nearest to
    the quotient, and its one decimal is the tenth nearest to that
    double.  Each is given here by what it is, not by a way of
    computing it. *)

(** The decimal numeral of a natural number. *)
Definition spec_decimal (k : Z) : string :=
  NilZero.string_of_uint (N.to_uint (Z.to_N k)).

(** [m / 2^e] is the double nearest to [a / b], for integers [0 <= a]
    and [0 < b] with [a / b < 2^53]: scaled by [2^e] the quotient has
    its 53 bits before the point, [m] is the integer nearest to it, the
    even one of two (IEEE 754 roundTiesToEven). *)
Definition spec_nearestDouble (a b m e : Z) : Prop :=
  0 <= e
  ∧ (a = 0 → m = 0)
  ∧ (0 < a → 2 ^ 52 * b <= a * 2 ^ e < 2 ^ 53 * b)
  ∧ 2 * Z.abs (m * b - a * 2 ^ e) <= b
  ∧ (2 * Z.abs (m * b - a * 2 ^ e) = b → Z.even m = true).

(** [n / 10] is the tenth nearest to [m / 2^e], the larger of two
    (Number.prototype.toFixed: "let n be an integer for which
    n / 10^f - x is as close to zero as possible; if there are two such
    n, pick the larger n"). *)
Definition spec_nearestTenth (m e n : Z) : Prop :=
  2 ^ e * (2 * n - 1) <= 20 * m < 2 ^ e * (2 * n + 1).

(** [n] tenths written with one decimal, [0 <= n]. *)
Definition spec_oneDecimal (n : Z) : string :=
  spec_decimal (n / 10) ++ "." ++ spec_decimal (n mod 10).

(** The message for [m] elapsed whole minutes. *)
Definition spec_timeAgo (m : Z) : string :=
  if m <? 1 then "Just now"
  else if m <? 60 then spec_decimal m ++ "m ago"
  else if m <? 1440 then spec_decimal (m / 60) ++ "h ago"
  else spec_decimal (m / 1440) ++ "d ago".

(** ** The rest of the component: totals, widgets, displayed lists *)

(** [totalFeedbackCount] (lines 165-167):
    [Object.values(feedbackData).reduce((sum, feedbacks) => sum + feedbacks.length, 0)].
    The fold visits every entry of the record once; a sum does not
    depend on the order of the visit. *)
Definition totalFeedbackCount (s : State) : Z :=
  map_fold (λ (_ : Z) (feedbacks : list Feedback.t) (sum : Z),
              sum + Z.of_nat (List.length feedbacks))
           0 (feedbackData s).

(** The sum of [getFeedbackCount] over a list of teachers. *)
Definition sumFeedbackCounts (s : State) (roster : list Teacher.t) : Z :=
  fold_right (λ teacher sum, getFeedbackCount s (Teacher.id teacher) + sum) 0 roster.

(** [String.prototype.split] with a separator of one code unit. *)
Fixpoint splitAt (separator : ascii) (s : string) : list string :=
  match s with
  | EmptyString => [EmptyString]
  | String c s' =>
      if Ascii.eqb c separator then EmptyString :: splitAt separator s'
      else match splitAt separator s' with
           | piece :: pieces => String c piece :: pieces
           | [] => [String c EmptyString]
           end
  end.

(** The text in the round badge of a review (line 923):
    [fb.anonymousId.split(' ')[1]]; [None] is [undefined], for which
    nothing is drawn. *)
Definition badgeText (fb : Feedback.t) : option string :=
  nth_error (splitAt " " (Feedback.anonymousId fb)) 1.

(** The list under "Live Reviews" (lines 918-919): a copy of the
    selected teacher's list, reversed; [None] is the "No Reviews Yet"
    placeholder, drawn without a teacher, without an entry for the
    teacher, and for an empty list. *)
Definition liveReviews (s : State) : option (list Feedback.t) :=
  match selectedTeacher s with
  | None => None
  | Some teacher =>
      match feedbackData s !! Teacher.id teacher with
      | None => None
      | Some feedbacks =>
          if 0 <? Z.of_nat (List.length feedbacks) then Some (List.rev feedbacks)
          else None
      end
  end.

(** The "TOP RATED" tag of a roster card (line 782):
    [parseFloat(avgRating) > 0], false for NaN; [avgRating] is the
    numeral of [calculateAverageRating], which [parseFloat] reads as
    [Number] does. *)
Definition showsTopRated (s : State) (teacherId : Z) : bool :=
  match Number_tenths (calculateAverageRating s teacherId) with
  | Some n => 0 <? n
  | None => false
  end.

(** The readings of [Date.now()] along a run grow: each submission
    reads a value above [clock] and above those read before it. *)
Fixpoint clockAdvances (clock : Z) (es : list Event) : Prop :=
  match es with
  | [] => True
  | SubmitClick date_now _ :: es' => clock < date_now ∧ clockAdvances date_now es'
  | _ :: es' => clockAdvances clock es'
  end.

(** No stored id is above [clock]. *)
Definition idsUpTo (clock : Z) (s : State) : Prop :=
  ∀ teacherId fb,
    fb ∈ feedbacksOf (feedbackData s) teacherId → Feedback.id fb <= clock.

(** No id is stored twice: two entries with one id are one entry, at
    one index of one teacher's list. *)
Definition idsDistinct (s : State) : Prop :=
  ∀ (teacherId1 teacherId2 : Z) (i j : nat) (fb1 fb2 : Feedback.t),
    feedbacksOf (feedbackData s) teacherId1 !! i = Some fb1 →
    feedbacksOf (feedbackData s) teacherId2 !! j = Some fb2 →
    Feedback.id fb1 = Feedback.id fb2 →
    teacherId1 = teacherId2 ∧ i = j.

(** * Properties *)

(** ** Strings *)

Lemma truthy_true_iff (s : string) : JSString.truthy s = true ↔ s ≠ "".
Proof. destruct s; simpl; split; congruence. Qed.

(** The numeral of a natural number is the one the specification writes. *)
Lemma ofInteger_nonneg (z : Z) :
  0 <= z → JSString.ofInteger z = NilZero.string_of_uint (N.to_uint (Z.to_N z)).
Proof. intros Hz. destruct z as [|p|p]; [reflexivity | reflexivity | lia]. Qed.

(** ** [submitFeedback] *)

Lemma submitFeedback_no_teacher (date_now new_date : Z) (s : State) :
  selectedTeacher s = None →
  submitFeedback date_now new_date s = (Some "Please select a teacher", s).
Proof. intros Hsel. unfold submitFeedback. now rewrite Hsel. Qed.

Lemma submitFeedback_blank (date_now new_date : Z) (s : State) (t : Teacher.t) :
  selectedTeacher s = Some t →
  JSString.trim (feedbackText s) = "" →
  submitFeedback date_now new_date s = (Some "Please enter your feedback", s).
Proof.
  intros Hsel Hblank. unfold submitFeedback. rewrite Hsel, Hblank. reflexivity.
Qed.

Lemma submitFeedback_unrated (date_now new_date : Z) (s : State) (t : Teacher.t) :
  selectedTeacher s = Some t →
  JSString.trim (feedbackText s) ≠ "" →
  feedbackRating s = 0 →
  submitFeedback date_now new_date s = (Some "Please provide a rating", s).
Proof.
  intros Hsel Htext Hrating. unfold submitFeedback. rewrite Hsel.
  apply truthy_true_iff in Htext. rewrite Htext, Hrating. reflexivity.
Qed.

(** The accepting branch, as one equation. *)
Lemma submitFeedback_accepted (date_now new_date : Z) (s : State) (t : Teacher.t) :
  selectedTeacher s = Some t →
  JSString.trim (feedbackText s) ≠ "" →
  feedbackRating s ≠ 0 →
  submitFeedback date_now new_date s =
    (None,
     {| teachers := teachers s;
        currentView := "success";
        selectedTeacher := selectedTeacher s;
        anonymousId := anonymousId s;
        feedbackData :=
          <[Teacher.id t :=
              (feedbacksOf (feedbackData s) (Teacher.id t)
                 ++ [ {| Feedback.id := date_now;
                         Feedback.anonymousId := anonymousId s;
                         Feedback.comment := JSString.trim (feedbackText s);
                         Feedback.rating := feedbackRating s;
                         Feedback.timestamp := JSDate.toISOString new_date |} ])%list]>
            (feedbackData s);
        filterDepartment := filterDepartment s;
        sortBy := sortBy s;
        searchQuery := searchQuery s;
        showSearch := showSearch s;
        activeStatsCard := activeStatsCard s;
        feedbackText := "";
        feedbackRating := 0 |}).
Proof.
  intros Hsel Htext Hrating.
  apply truthy_true_iff in Htext. apply Z.eqb_neq in Hrating.
  destruct s; unfold submitFeedback; simpl in *.
  subst. rewrite Htext, Hrating. reflexivity.
Qed.

Lemma feedbacksOf_insert_eq (data : gmap Z (list Feedback.t)) (k : Z) (l : list Feedback.t) :
  feedbacksOf (<[k := l]> data) k = l.
Proof. unfold feedbacksOf. now rewrite lookup_insert_eq. Qed.

Lemma feedbacksOf_insert_ne (data : gmap Z (list Feedback.t)) (k k' : Z) (l : list Feedback.t) :
  k ≠ k' → feedbacksOf (<[k := l]> data) k' = feedbacksOf data k'.
Proof. intros Hne. unfold feedbacksOf. now rewrite lookup_insert_ne. Qed.

(** C2: when a precondition of the submission fails, [submitFeedback]
    alerts the message of the first failed requirement, checking the
    teacher selection, then the comment, then the rating, and returns
    the state it was given: the feedback record, the form fields and
    the view are untouched. *)
Theorem submitFeedback_rejects_in_order (date_now new_date : Z) (s : State) :
  (selectedTeacher s = None →
   submitFeedback date_now new_date s = (Some "Please select a teacher", s))
  ∧ (∀ t, selectedTeacher s = Some t →
          JSString.trim (feedbackText s) = "" →
          submitFeedback date_now new_date s
          = (Some "Please enter your feedback", s))
  ∧ (∀ t, selectedTeacher s = Some t →
          JSString.trim (feedbackText s) ≠ "" →
          feedbackRating s = 0 →
          submitFeedback date_now new_date s
          = (Some "Please provide a rating", s)).
Proof.
  split; [|split].
  - apply submitFeedback_no_teacher.
  - intros t. apply submitFeedback_blank.
  - intros t. apply submitFeedback_unrated.
Qed.

Lemma submitFeedback_rejects_in_order_witness :
  submitFeedback 5 6 initialState = (Some "Please select a teacher", initialState)
  ∧ submitFeedback 5 6 (setFeedbackText "   " (selectTeacher rajeshKumar initialState))
    = (Some "Please enter your feedback",
       setFeedbackText "   " (selectTeacher rajeshKumar initialState))
  ∧ submitFeedback 5 6 (setFeedbackText "Great class" (selectTeacher rajeshKumar initialState))
    = (Some "Please provide a rating",
       setFeedbackText "Great class" (selectTeacher rajeshKumar initialState)).
Proof.
  split; [|split].
  - apply (proj1 (submitFeedback_rejects_in_order 5 6 initialState)).
    reflexivity.
  - apply (proj1 (proj2 (submitFeedback_rejects_in_order 5 6
             (setFeedbackText "   " (selectTeacher rajeshKumar initialState))))
             rajeshKumar); reflexivity.
  - apply (proj2 (proj2 (submitFeedback_rejects_in_order 5 6
             (setFeedbackText "Great class" (selectTeacher rajeshKumar initialState))))
             rajeshKumar); [reflexivity | discriminate | reflexivity].
Defined.


(** ** Rendering only touches the roster array *)

Lemma filteredAndSortedTeachers_state `{Locale} (s : State) :
  snd (filteredAndSortedTeachers s)
  = setTeachers (teachers (snd (filteredAndSortedTeachers s))) s.
Proof.
  unfold filteredAndSortedTeachers. cbn [snd].
  destruct (filteredIsCopy s); [now destruct s | reflexivity].
Qed.

Lemma render_state `{Locale} (prev next : State) :
  render prev next = setTeachers (teachers (render prev next)) next.
Proof.
  unfold render. case_bool_decide.
  - now destruct next.
  - apply filteredAndSortedTeachers_state.
Qed.

Lemma step_state `{Locale} (s : State) (e : Event) :
  step s e = setTeachers (teachers (step s e)) (handle e s).
Proof. apply render_state. Qed.

Lemma run_reachable `{Locale} (s : State) (es : list Event) :
  reachable s → runEnabled s es = true → reachable (run s es).
Proof.
  revert s. induction es as [|e es IH]; intros s Hs Hen; simpl in *.
  - exact Hs.
  - apply andb_prop in Hen as [He Hes].
    apply IH; [now apply reachable_step | exact Hes].
Qed.

Lemma secondReviewReady_reachable :
  reachable (H := codeUnitLocale) secondReviewReady.
Proof.
  apply run_reachable.
  - apply reachable_mounted. lia.
  - vm_compute. reflexivity.
Qed.


(** ** Successful submission *)

(** C1 (as the code has it): with a teacher selected, a comment that is
    not blank and a rating in 1..10, [submitFeedback] alerts nothing,
    appends one Feedback to the end of the selected teacher's list and
    leaves the other lists alone; the Feedback carries [Date.now()] as
    id, the time of [new Date()] as timestamp, the session's
    anonymousId, the trimmed comment and the rating; the form fields go
    back to [""] and [0] and the view becomes ["success"].  The id is
    the clock reading: it differs from the ids already stored whenever
    those are earlier readings. *)
Theorem submitFeedback_appends (date_now new_date : Z) (s : State) (teacher : Teacher.t) :
  selectedTeacher s = Some teacher →
  JSString.trim (feedbackText s) ≠ "" →
  1 <= feedbackRating s <= 10 →
  let newFeedback :=
    {| Feedback.id := date_now;
       Feedback.anonymousId := anonymousId s;
       Feedback.comment := JSString.trim (feedbackText s);
       Feedback.rating := feedbackRating s;
       Feedback.timestamp := JSDate.toISOString new_date |} in
  let s' := snd (submitFeedback date_now new_date s) in
  fst (submitFeedback date_now new_date s) = None
  ∧ feedbacksOf (feedbackData s') (Teacher.id teacher)
    = (feedbacksOf (feedbackData s) (Teacher.id teacher) ++ [newFeedback])%list
  ∧ (∀ teacherId, teacherId ≠ Teacher.id teacher →
       feedbackData s' !! teacherId = feedbackData s !! teacherId)
  ∧ feedbackText s' = "" ∧ feedbackRating s' = 0
  ∧ currentView s' = "success"
  ∧ ((∀ teacherId fb, fb ∈ feedbacksOf (feedbackData s) teacherId →
                      Feedback.id fb < date_now) →
     ∀ teacherId fb, fb ∈ feedbacksOf (feedbackData s) teacherId →
                     Feedback.id fb ≠ Feedback.id newFeedback).
Proof.
  intros Hsel Htext Hrating newFeedback s'.
  assert (Hnz : feedbackRating s ≠ 0) by lia.
  pose proof (submitFeedback_accepted date_now new_date s teacher Hsel Htext Hnz) as Heq.
  subst s'. rewrite Heq. cbn [fst snd feedbackData feedbackText feedbackRating currentView].
  repeat split.
  - apply feedbacksOf_insert_eq.
  - intros teacherId Hne. now rewrite lookup_insert_ne.
  - intros Hclock teacherId fb Hin. specialize (Hclock teacherId fb Hin).
    subst newFeedback. cbn [Feedback.id]. lia.
Qed.

Lemma submitFeedback_appends_witness :
  let s := setFeedbackRating 9
             (setFeedbackText " Great class "
                (selectTeacher rajeshKumar initialState)) in
  let s' := snd (submitFeedback 1700000000000 1700000000001 s) in
  feedbacksOf (feedbackData s') 1
  = [ Feedback.mk 1700000000000 "" "Great class" 9 "2023-11-14T22:13:20.001Z" ]
  ∧ currentView s' = "success".
Proof.
  intros s s'.
  pose proof (submitFeedback_appends 1700000000000 1700000000001 s rajeshKumar
                eq_refl) as Happ.
  destruct Happ as (_ & Hlist & _ & _ & _ & Hview & _).
  - vm_compute. discriminate.
  - vm_compute. split; discriminate.
  - split; [exact Hlist | exact Hview].
Defined.

(** C1 (counterexample): the state is reached by submitting one review
    of teacher 1 and filling the form in again; a second submission at
    the same reading of [Date.now()] stores a Feedback whose id is the
    id of the one already in the list. *)
Lemma submitFeedback_id_collision :
  let s := secondReviewReady in
  let s' := snd (submitFeedback 1700000000000 1700000000000 s) in
  reachable (H := codeUnitLocale) s
  ∧ selectedTeacher s = Some rajeshKumar
  ∧ JSString.trim (feedbackText s) ≠ ""
  ∧ 1 <= feedbackRating s <= 10
  ∧ ∃ old new,
      feedbacksOf (feedbackData s) 1 = [old]
      ∧ feedbacksOf (feedbackData s') 1 = [old; new]
      ∧ Feedback.id new = Feedback.id old.
Proof.
  cbv zeta. split; [exact secondReviewReady_reachable|].
  split; [vm_compute; reflexivity|].
  split; [vm_compute; discriminate|].
  split; [vm_compute; split; discriminate|].
  eexists _, _. split; [|split].
  - vm_compute. reflexivity.
  - vm_compute. reflexivity.
  - reflexivity.
Qed.


(** The two outcomes of a call. *)
Lemma submitFeedback_cases (date_now new_date : Z) (s : State) :
  (∃ message, submitFeedback date_now new_date s = (Some message, s))
  ∨ (∃ teacher,
       selectedTeacher s = Some teacher
       ∧ JSString.trim (feedbackText s) ≠ ""
       ∧ feedbackRating s ≠ 0).
Proof.
  destruct (selectedTeacher s) as [teacher|] eqn:Hsel.
  - destruct (decide (JSString.trim (feedbackText s) = "")) as [Hblank|Htext].
    + left. eexists. now apply (submitFeedback_blank _ _ _ teacher).
    + destruct (decide (feedbackRating s = 0)) as [Hzero|Hnz].
      * left. eexists. now apply (submitFeedback_unrated _ _ _ teacher).
      * right. now exists teacher.
  - left. eexists. now apply submitFeedback_no_teacher.
Qed.

(** ** The rating guard *)

Lemma handle_feedbackRating_range `{Locale} (s : State) (e : Event) :
  enabled s e = true →
  0 <= feedbackRating s <= 10 →
  0 <= feedbackRating (handle e s) <= 10.
Proof.
  intros Hen Hr. destruct e; simpl in *; try exact Hr.
  - unfold handleStatsCardClick.
    repeat (destruct (String.eqb _ _)); simpl; exact Hr.
  - apply andb_prop in Hen as [Hen Hhi]. apply andb_prop in Hen as [_ Hlo]. lia.
  - destruct (submitFeedback_cases date_now new_date s)
      as [[message Heq] | (teacher & Hsel & Htext & Hnz)].
    + rewrite Heq. exact Hr.
    + rewrite (submitFeedback_accepted _ _ _ teacher Hsel Htext Hnz). simpl. lia.
Qed.

Lemma reachable_feedbackRating_range `{Locale} (s : State) :
  reachable s → 0 <= feedbackRating s <= 10.
Proof.
  induction 1 as [randomId Hid | s e Hreach IH Hen].
  - unfold mounted. rewrite filteredAndSortedTeachers_state. simpl. lia.
  - rewrite step_state. simpl. now apply handle_feedbackRating_range.
Qed.



(** ** Frame of a successful submission *)

(** C10: a call of [submitFeedback] that alerts nothing changes the
    feedback record, feedbackText, feedbackRating and currentView and
    nothing else: selectedTeacher (which stays set), anonymousId,
    filterDepartment, sortBy, searchQuery, showSearch and
    activeStatsCard keep their values, and so does the roster. *)
Theorem submitFeedback_frame (date_now new_date : Z) (s : State) :
  fst (submitFeedback date_now new_date s) = None →
  let s' := snd (submitFeedback date_now new_date s) in
  selectedTeacher s' = selectedTeacher s
  ∧ is_Some (selectedTeacher s')
  ∧ anonymousId s' = anonymousId s
  ∧ filterDepartment s' = filterDepartment s
  ∧ sortBy s' = sortBy s
  ∧ searchQuery s' = searchQuery s
  ∧ showSearch s' = showSearch s
  ∧ activeStatsCard s' = activeStatsCard s
  ∧ teachers s' = teachers s
  ∧ feedbackText s' = "" ∧ feedbackRating s' = 0 ∧ currentView s' = "success".
Proof.
  unfold submitFeedback.
  destruct (selectedTeacher s) as [teacher|] eqn:Hsel; [|discriminate].
  destruct (negb _); [discriminate|].
  destruct (feedbackRating s =? 0); [discriminate|].
  intros _. cbn. rewrite Hsel. repeat split; eauto.
Qed.

Lemma submitFeedback_frame_witness :
  let s := setFeedbackRating 9
             (setFeedbackText "Great class"
                (selectTeacher rajeshKumar initialState)) in
  selectedTeacher (snd (submitFeedback 5 6 s)) = Some rajeshKumar
  ∧ sortBy (snd (submitFeedback 5 6 s)) = "name".
Proof.
  intros s.
  destruct (submitFeedback_frame 5 6 s eq_refl)
    as (Hsel & _ & _ & _ & Hsort & _).
  split; [exact Hsel | exact Hsort].
Defined.

(** ** Stat cards *)

(** C9 (as the code has it): every click first records the card in
    activeStatsCard.  "faculty" then opens the search box, sets the
    department filter to ["all"] and empties the search text;
    "departments" closes the search box; "reviews" closes the search
    box and sets sortBy to ["feedbacks"]; any other card name does
    nothing more.  Every other component of the state keeps its value. *)
Theorem handleStatsCardClick_effects (s : State) :
  handleStatsCardClick "faculty" s
  = {| teachers := teachers s; currentView := currentView s;
       selectedTeacher := selectedTeacher s; anonymousId := anonymousId s;
       feedbackData := feedbackData s;
       filterDepartment := "all"; sortBy := sortBy s; searchQuery := "";
       showSearch := true; activeStatsCard := Some "faculty";
       feedbackText := feedbackText s; feedbackRating := feedbackRating s |}
  ∧ handleStatsCardClick "departments" s
    = {| teachers := teachers s; currentView := currentView s;
         selectedTeacher := selectedTeacher s; anonymousId := anonymousId s;
         feedbackData := feedbackData s;
         filterDepartment := filterDepartment s; sortBy := sortBy s;
         searchQuery := searchQuery s;
         showSearch := false; activeStatsCard := Some "departments";
         feedbackText := feedbackText s; feedbackRating := feedbackRating s |}
  ∧ handleStatsCardClick "reviews" s
    = {| teachers := teachers s; currentView := currentView s;
         selectedTeacher := selectedTeacher s; anonymousId := anonymousId s;
         feedbackData := feedbackData s;
         filterDepartment := filterDepartment s; sortBy := "feedbacks";
         searchQuery := searchQuery s;
         showSearch := false; activeStatsCard := Some "reviews";
         feedbackText := feedbackText s; feedbackRating := feedbackRating s |}
  ∧ ∀ cardType : string,
      let s' := handleStatsCardClick cardType s in
      activeStatsCard s' = Some cardType
      ∧ teachers s' = teachers s ∧ currentView s' = currentView s
      ∧ selectedTeacher s' = selectedTeacher s
      ∧ anonymousId s' = anonymousId s ∧ feedbackData s' = feedbackData s
      ∧ feedbackText s' = feedbackText s
      ∧ feedbackRating s' = feedbackRating s
      ∧ (cardType ≠ "faculty" → cardType ≠ "departments" →
         cardType ≠ "reviews" → s' = setActiveStatsCard (Some cardType) s).
Proof.
  split; [reflexivity|]. split; [reflexivity|]. split; [reflexivity|].
  intros cardType s'. subst s'. unfold handleStatsCardClick.
  destruct (String.eqb_spec cardType "faculty") as [->|Hfaculty].
  { repeat split; congruence. }
  destruct (String.eqb_spec cardType "departments") as [->|Hdepartments].
  { repeat split; congruence. }
  destruct (String.eqb_spec cardType "reviews") as [->|Hreviews].
  { repeat split; congruence. }
  repeat split.
Qed.

Lemma handleStatsCardClick_effects_witness :
  handleStatsCardClick "awards" initialState
  = setActiveStatsCard (Some "awards") initialState
  ∧ showSearch (handleStatsCardClick "faculty" initialState) = true.
Proof.
  destruct (handleStatsCardClick_effects initialState)
    as (Hfaculty & _ & _ & Hany).
  split.
  - apply (Hany "awards"); discriminate.
  - rewrite Hfaculty. reflexivity.
Defined.

(** C9 (counterexample): on the initial state a click on "departments"
    does more than close the search box, and a click on "faculty" more
    than the three listed updates: activeStatsCard changes as well. *)
Lemma handleStatsCardClick_also_marks_card :
  handleStatsCardClick "departments" initialState ≠ setShowSearch false initialState
  ∧ handleStatsCardClick "faculty" initialState
    ≠ setSearchQuery "" (setFilterDepartment "all" (setShowSearch true initialState))
  ∧ handleStatsCardClick "reviews" initialState
    ≠ setSortBy "feedbacks" (setShowSearch false initialState)
  ∧ activeStatsCard (handleStatsCardClick "departments" initialState)
    ≠ activeStatsCard initialState.
Proof.
  repeat split; intros Heq; try apply (f_equal activeStatsCard) in Heq;
    discriminate Heq.
Qed.


(** ** The feedback record only grows *)

Lemma handleStatsCardClick_frame (cardType : string) (s : State) :
  currentView (handleStatsCardClick cardType s) = currentView s
  ∧ selectedTeacher (handleStatsCardClick cardType s) = selectedTeacher s
  ∧ feedbackData (handleStatsCardClick cardType s) = feedbackData s.
Proof.
  unfold handleStatsCardClick.
  repeat (destruct (String.eqb cardType _)); repeat split.
Qed.

Lemma handle_feedbackData (e : Event) (s : State) :
  feedbackData (handle e s) = feedbackData s
  ∨ ∃ teacherId fb,
      feedbackData (handle e s)
      = <[teacherId := (feedbacksOf (feedbackData s) teacherId ++ [fb])%list]>
          (feedbackData s).
Proof.
  destruct e; simpl; try (left; reflexivity).
  - left. apply handleStatsCardClick_frame.
  - destruct (submitFeedback_cases date_now new_date s)
      as [[message Heq] | (teacher & Hsel & Htext & Hnz)].
    + left. now rewrite Heq.
    + right. rewrite (submitFeedback_accepted _ _ _ teacher Hsel Htext Hnz).
      simpl. eauto.
Qed.

Lemma step_feedbackData `{Locale} (s : State) (e : Event) :
  feedbackData (step s e) = feedbackData (handle e s).
Proof. now rewrite step_state. Qed.

Lemma step_feedbacks_prefix `{Locale} (s : State) (e : Event) (teacherId : Z) :
  feedbacksOf (feedbackData s) teacherId
  `prefix_of` feedbacksOf (feedbackData (step s e)) teacherId.
Proof.
  rewrite step_feedbackData.
  destruct (handle_feedbackData e s) as [Heq | (k & fb & Heq)]; rewrite Heq.
  - reflexivity.
  - destruct (decide (k = teacherId)) as [->|Hne].
    + rewrite feedbacksOf_insert_eq. now apply prefix_app_r.
    + now rewrite feedbacksOf_insert_ne.
Qed.

(** C6: every operation leaves the feedback record as it is or puts
    one new Feedback at the end of one teacher's list; so along any run
    each teacher's earlier list is an initial segment of the later one:
    entries are never edited, removed or reordered. *)
Theorem feedbackData_only_grows `{Locale} (s : State) :
  (∀ e : Event,
     feedbackData (step s e) = feedbackData s
     ∨ ∃ teacherId fb,
         feedbackData (step s e)
         = <[teacherId := (feedbacksOf (feedbackData s) teacherId ++ [fb])%list]>
             (feedbackData s))
  ∧ (∀ (es : list Event) (teacherId : Z),
       feedbacksOf (feedbackData s) teacherId
       `prefix_of` feedbacksOf (feedbackData (run s es)) teacherId).
Proof.
  split.
  - intros e. rewrite step_feedbackData. apply handle_feedbackData.
  - intros es. revert s. induction es as [|e es IH]; intros s teacherId; simpl.
    + reflexivity.
    + etransitivity; [apply (step_feedbacks_prefix s e) | apply IH].
Qed.

(** ** The feedback view always has its teacher *)

Lemma handle_enters_feedback (e : Event) (s : State) :
  currentView s ≠ "feedback" →
  currentView (handle e s) = "feedback" →
  ∃ teacher, e = SelectTeacher teacher
             ∧ selectedTeacher (handle e s) = Some teacher.
Proof.
  intros Hnot Hview. destruct e; simpl in Hview; try congruence.
  - rewrite (proj1 (handleStatsCardClick_frame _ _)) in Hview. congruence.
  - exists teacher. split; reflexivity.
  - destruct (submitFeedback_cases date_now new_date s)
      as [[message Heq] | (teacher & Hsel & Htext & Hnz)].
    + rewrite Heq in Hview. simpl in Hview. congruence.
    + rewrite (submitFeedback_accepted _ _ _ teacher Hsel Htext Hnz) in Hview.
      discriminate Hview.
Qed.

Lemma handle_keeps_teacher (e : Event) (s : State) :
  is_Some (selectedTeacher s) → is_Some (selectedTeacher (handle e s)).
Proof.
  intros Hsome. destruct e; simpl; try exact Hsome.
  - now rewrite (proj1 (proj2 (handleStatsCardClick_frame _ _))).
  - eauto.
  - destruct (submitFeedback_cases date_now new_date s)
      as [[message Heq] | (teacher & Hsel & Htext & Hnz)].
    + now rewrite Heq.
    + rewrite (submitFeedback_accepted _ _ _ teacher Hsel Htext Hnz). simpl.
      rewrite Hsel. eauto.
Qed.

(** C7: in every state reached from the mounted component by events
    the user can trigger, currentView = "feedback" comes with a
    selected teacher; and a step that enters the feedback view is the
    click on a roster card, which sets selectedTeacher in that step. *)
Theorem feedback_view_has_teacher `{Locale} (s : State) :
  (reachable s → currentView s = "feedback" → selectedTeacher s ≠ None)
  ∧ (∀ e : Event,
       currentView s ≠ "feedback" → currentView (step s e) = "feedback" →
       ∃ teacher, e = SelectTeacher teacher
                  ∧ selectedTeacher (step s e) = Some teacher).
Proof.
  split.
  - intros Hreach Hview.
    enough (Hinv : currentView s = "feedback" → is_Some (selectedTeacher s)).
    { destruct (Hinv Hview) as [t Ht]. congruence. }
    clear Hview.
    induction Hreach as [randomId Hid | s e Hreach IH Hen].
    + unfold mounted. rewrite filteredAndSortedTeachers_state. simpl. discriminate.
    + rewrite step_state. simpl. intros Hview.
      destruct (decide (currentView s = "feedback")) as [Hwas|Hnot].
      * apply handle_keeps_teacher, IH, Hwas.
      * destruct (handle_enters_feedback e s Hnot Hview) as (t & _ & Ht).
        rewrite Ht. eauto.
  - intros e Hnot Hview. rewrite step_state in *. simpl in *.
    now apply handle_enters_feedback.
Qed.

Lemma feedback_view_has_teacher_witness :
  let s := run (H := codeUnitLocale) (mounted (H := codeUnitLocale) 7)
             [SelectTeacher rajeshKumar] in
  currentView s = "feedback" ∧ selectedTeacher s ≠ None.
Proof.
  intros s. split; [reflexivity|].
  apply (proj1 (feedback_view_has_teacher (H := codeUnitLocale) s)).
  - apply run_reachable; [apply reachable_mounted; lia | vm_compute; reflexivity].
  - reflexivity.
Defined.


(** ** Division, [Math.floor] and [toFixed(1)] on doubles *)
Lemma div_pos_spec (a b : Z) :
  0 < a < 2 ^ 53 → 0 < b →
  let d := Float64.div_pos a b in
  0 <= Float64.shift d
  ∧ 2 ^ 52 * b <= a * 2 ^ Float64.shift d
  ∧ 2 * Z.abs (Float64.mant d * b - a * 2 ^ Float64.shift d) <= b.
Proof.
  intros [Ha Ha53] Hb. unfold Float64.div_pos.
  set (s0 := 52 + Z.log2 b - Z.log2 a).
  assert (Hla : 0 <= Z.log2 a < 53).
  { split; [apply Z.log2_nonneg | now apply Z.log2_lt_pow2]. }
  assert (Hlb : 0 <= Z.log2 b) by apply Z.log2_nonneg.
  assert (Hs0 : 0 <= s0) by (unfold s0; lia).
  destruct (Z.log2_spec a Ha) as [Ha_lo _].
  destruct (Z.log2_spec b Hb) as [_ Hb_hi].
  set (s := if a * 2 ^ s0 <? 2 ^ 52 * b then s0 + 1 else s0).
  assert (Hs : 0 <= s ∧ 2 ^ 52 * b <= a * 2 ^ s).
  { unfold s. destruct (Z.ltb_spec (a * 2 ^ s0) (2 ^ 52 * b)) as [Hlt|Hge].
    - split; [lia|].
      assert (Hpow : 2 ^ Z.log2 a * 2 ^ (s0 + 1) = 2 ^ 52 * 2 ^ Z.succ (Z.log2 b)).
      { rewrite <- !Z.pow_add_r by lia. f_equal. unfold s0. lia. }
      assert (0 < 2 ^ (s0 + 1)) by (apply Z.pow_pos_nonneg; lia).
      nia.
    - split; [lia | lia]. }
  destruct Hs as [Hs_nonneg Hs_lo]. cbn [Float64.shift Float64.mant].
  split; [exact Hs_nonneg|]. split; [exact Hs_lo|].
  set (num := a * 2 ^ s) in *.
  pose proof (Z.div_mod num b ltac:(lia)) as Hdm.
  pose proof (Z.mod_pos_bound num b Hb) as Hr.
  destruct ((b <? 2 * (num mod b)) || ((2 * (num mod b) =? b) && Z.odd (num / b))) eqn:Hup.
  - assert (b <= 2 * (num mod b)).
    { apply orb_prop in Hup as [Hup|Hup].
      - apply Z.ltb_lt in Hup. lia.
      - apply andb_prop in Hup as [Hup _]. apply Z.eqb_eq in Hup. lia. }
    lia.
  - apply orb_false_elim in Hup as [Hup _]. apply Z.ltb_ge in Hup. lia.
Qed.

Lemma floor_div_pos (a b : Z) :
  0 < a < 2 ^ 53 → 0 < b →
  Float64.floor (Float64.div_pos a b) = a / b.
Proof.
  intros Ha Hb.
  destruct (div_pos_spec a b Ha Hb) as (Hs & Hlo & Hnear).
  unfold Float64.floor.
  set (m := Float64.mant (Float64.div_pos a b)) in *.
  set (P := 2 ^ Float64.shift (Float64.div_pos a b)) in *.
  assert (HP : 0 < P) by (apply Z.pow_pos_nonneg; lia).
  pose proof (Z.div_mod a b ltac:(lia)) as Hdm.
  pose proof (Z.mod_pos_bound a b Hb) as Hr.
  set (q := a / b) in *. set (r := a mod b) in *.
  symmetry. apply Z.div_unique_pos with (r := m - q * P); [|lia].
  assert (H53 : 2 ^ 53 = 2 * 2 ^ 52) by reflexivity.
  split.
  - (* q * P <= m *)
    enough (2 * (q * P - m) * b <= b) by nia.
    nia.
  - (* m < (q + 1) * P *)
    destruct (Z.lt_ge_cases m ((q + 1) * P)) as [Hlt|Hge]; [lia|].
    exfalso.
    assert (2 * P * (b - r) <= b) by nia.
    assert (2 * P <= b) by nia.
    nia.
Qed.

Lemma floor_div_neg (a b : Z) :
  0 < a < 2 ^ 53 → 0 < b →
  - Float64.mant (Float64.div_pos a b) / 2 ^ Float64.shift (Float64.div_pos a b)
  = (- a) / b.
Proof.
  intros Ha Hb.
  destruct (div_pos_spec a b Ha Hb) as (Hs & Hlo & Hnear).
  set (m := Float64.mant (Float64.div_pos a b)) in *.
  set (P := 2 ^ Float64.shift (Float64.div_pos a b)) in *.
  assert (HP : 0 < P) by (apply Z.pow_pos_nonneg; lia).
  pose proof (Z.div_mod (- a) b ltac:(lia)) as Hdm.
  pose proof (Z.mod_pos_bound (- a) b Hb) as Hr.
  set (q := (- a) / b) in *. set (r := (- a) mod b) in *.
  symmetry. apply Z.div_unique_pos with (r := - m - q * P); [|lia].
  assert (H53 : 2 ^ 53 = 2 * 2 ^ 52) by reflexivity.
  split.
  - (* q * P <= - m *)
    destruct (Z.le_gt_cases (q * P) (- m)) as [Hle|Hgt]; [lia|].
    exfalso.
    assert (2 * (m + q * P) * b <= b) by nia.
    nia.
  - (* - m < (q + 1) * P *)
    destruct (Z.lt_ge_cases (- m) ((q + 1) * P)) as [Hlt|Hge]; [lia|].
    exfalso.
    assert (2 * P * (b - r) <= b) by nia.
    assert (2 * P <= b) by nia.
    nia.
Qed.

Lemma floor_div (a b : Z) :
  - 2 ^ 53 < a < 2 ^ 53 → 0 < b →
  Float64.floor (Float64.div a b) = a / b.
Proof.
  intros Ha Hb. unfold Float64.div.
  destruct (Z.eqb_spec a 0) as [->|Hnz].
  - reflexivity.
  - destruct (Z.ltb_spec a 0) as [Hneg|Hpos].
    + unfold Float64.floor. cbn [Float64.mant Float64.shift].
      rewrite floor_div_neg by lia. f_equal. lia.
    + apply floor_div_pos; lia.
Qed.

Lemma tenths_div_nearest (a b : Z) :
  0 <= a → 10 * a < 2 ^ 52 → 0 < b →
  let n := Float64.tenths_pos (Float64.div a b) in
  0 <= n ∧ 2 * Z.abs (10 * a - n * b) <= b.
Proof.
  intros Ha0 Ha Hb. unfold Float64.div.
  destruct (Z.eqb_spec a 0) as [->|Hnz].
  - change (Float64.tenths_pos (Float64.Dyadic 0 0)) with 0. cbv zeta. lia.
  - destruct (Z.ltb_spec a 0) as [Hneg|_]; [lia|].
    assert (Ha' : 0 < a < 2 ^ 53).
    { split; [lia|]. change (2 ^ 53) with (2 * 2 ^ 52). lia. }
    destruct (div_pos_spec a b Ha' Hb) as (Hs & Hlo & Hnear).
    unfold Float64.tenths_pos.
    set (m := Float64.mant (Float64.div_pos a b)) in *.
    set (s := Float64.shift (Float64.div_pos a b)) in *.
    rewrite Z.pow_add_r by lia. change (2 ^ 1) with 2.
    set (P := 2 ^ s) in *.
    assert (HP : 0 < P) by (apply Z.pow_pos_nonneg; lia).
    pose proof (Z.div_mod (20 * m + P) (P * 2) ltac:(lia)) as Hdm.
    pose proof (Z.mod_pos_bound (20 * m + P) (P * 2) ltac:(lia)) as Hr.
    set (n := (20 * m + P) / (P * 2)) in *.
    set (r := (20 * m + P) mod (P * 2)) in *.
    cbv zeta.
    assert (HPb : 10 * b < P).
    { assert (10 * a * b < 2 ^ 52 * b) by (apply Z.mul_lt_mono_pos_r; lia).
      assert (a * (10 * b) < a * P) by lia.
      now apply Z.mul_lt_mono_pos_l in H0. }
    assert (Hm : 0 <= m) by nia.
    split; [nia|].
    (* 2 |10 m - n P| <= P and 2 |m b - a P| <= b *)
    assert (H1 : (2 * Z.abs (10 * a - n * b) - b) * P <= 10 * b) by nia.
    nia.
Qed.

(** ** [calculateAverageRating] *)

Lemma fold_left_add_ratings (fbs : list Feedback.t) (acc : Z) :
  fold_left (λ acc fb, acc + Feedback.rating fb) fbs acc
  = acc + sumRatings fbs.
Proof.
  unfold sumRatings. revert acc.
  induction fbs as [|fb fbs IH]; intros acc; simpl.
  - lia.
  - rewrite IH, (IH (0 + Feedback.rating fb)). lia.
Qed.

Lemma sumRatings_cons (fb : Feedback.t) (fbs : list Feedback.t) :
  sumRatings (fb :: fbs) = Feedback.rating fb + sumRatings fbs.
Proof. unfold sumRatings at 1. simpl. now rewrite fold_left_add_ratings. Qed.

Lemma sumRatings_nonneg (fbs : list Feedback.t) :
  (∀ fb, fb ∈ fbs → 0 <= Feedback.rating fb) → 0 <= sumRatings fbs.
Proof.
  induction fbs as [|fb fbs IH]; intros Hpos.
  - reflexivity.
  - rewrite sumRatings_cons.
    assert (0 <= Feedback.rating fb) by (apply Hpos; left).
    assert (0 <= sumRatings fbs) by (apply IH; intros; apply Hpos; now right).
    lia.
Qed.

Lemma calculateAverageRating_empty (s : State) (teacherId : Z) :
  feedbacksOf (feedbackData s) teacherId = [] →
  calculateAverageRating s teacherId = "0.0".
Proof. intros Hnil. unfold calculateAverageRating. now rewrite Hnil. Qed.

(** With feedback: the numeral of a number of tenths nearest to
    sum / count. *)
Lemma calculateAverageRating_nearest (s : State) (teacherId : Z) :
  let fbs := feedbacksOf (feedbackData s) teacherId in
  let count := Z.of_nat (List.length fbs) in
  fbs ≠ [] →
  (∀ fb, fb ∈ fbs → 0 <= Feedback.rating fb) →
  10 * sumRatings fbs < 2 ^ 52 →
  ∃ n, calculateAverageRating s teacherId = Float64.fixed1_digits n
       ∧ 0 <= n
       ∧ 2 * Z.abs (10 * sumRatings fbs - n * count) <= count.
Proof.
  intros fbs count Hne Hpos Hsum. unfold calculateAverageRating.
  fold fbs. fold count.
  assert (Hcount : 0 < count).
  { subst count. destruct fbs; [congruence | simpl; lia]. }
  destruct (Z.eqb_spec count 0) as [Hz|_]; [lia|].
  pose proof (sumRatings_nonneg fbs Hpos) as Hnonneg.
  destruct (tenths_div_nearest (sumRatings fbs) count Hnonneg Hsum Hcount)
    as [Hn Hnear].
  exists (Float64.tenths_pos (Float64.div (sumRatings fbs) count)).
  split; [|split; assumption].
  unfold Float64.toFixed1.
  destruct (Z.ltb_spec (Float64.mant (Float64.div (sumRatings fbs) count)) 0)
    as [Hneg|_]; [|reflexivity].
  exfalso. revert Hneg. unfold Float64.div.
  destruct (Z.eqb_spec (sumRatings fbs) 0); [simpl; lia|].
  destruct (Z.ltb_spec (sumRatings fbs) 0); [lia|].
  intros Hneg.
  assert (Hrange : 0 < sumRatings fbs < 2 ^ 53).
  { split; [lia|]. change (2 ^ 53) with (2 * 2 ^ 52). lia. }
  destruct (div_pos_spec (sumRatings fbs) count Hrange Hcount) as (Hs & Hlo & Hmant).
  assert (0 < 2 ^ Float64.shift (Float64.div_pos (sumRatings fbs) count))
    by (apply Z.pow_pos_nonneg; lia).
  nia.
Qed.

(** ** The double of a quotient and its nearest tenth, by what they are *)

Lemma div_pos_nearestDouble (a b : Z) :
  0 < a < 2 ^ 53 → 0 < b →
  spec_nearestDouble a b (Float64.mant (Float64.div_pos a b))
                         (Float64.shift (Float64.div_pos a b)).
Proof.
  intros [Ha Ha53] Hb.
  destruct (div_pos_spec a b (conj Ha Ha53) Hb) as (Hs & Hlo & Hnear).
  revert Hs Hlo Hnear. unfold Float64.div_pos.
  set (s0 := 52 + Z.log2 b - Z.log2 a).
  set (s := if a * 2 ^ s0 <? 2 ^ 52 * b then s0 + 1 else s0).
  cbn [Float64.shift Float64.mant]. intros Hs Hlo Hnear.
  assert (Hla : 0 <= Z.log2 a < 53).
  { split; [apply Z.log2_nonneg | now apply Z.log2_lt_pow2]. }
  assert (Hlb : 0 <= Z.log2 b) by apply Z.log2_nonneg.
  assert (Hs0 : 0 <= s0) by (unfold s0; lia).
  assert (Hhi : a * 2 ^ s < 2 ^ 53 * b).
  { unfold s. destruct (Z.ltb_spec (a * 2 ^ s0) (2 ^ 52 * b)) as [Hlt|Hge].
    - rewrite Z.pow_add_r by lia. change (2 ^ 1) with 2.
      change (2 ^ 53) with (2 * 2 ^ 52). lia.
    - destruct (Z.log2_spec a Ha) as [_ Ha_hi].
      destruct (Z.log2_spec b Hb) as [Hb_lo _].
      assert (Hpow : 2 ^ Z.succ (Z.log2 a) * 2 ^ s0 = 2 ^ 53 * 2 ^ Z.log2 b).
      { rewrite <- !Z.pow_add_r by lia. f_equal. unfold s0. lia. }
      assert (0 < 2 ^ s0) by (apply Z.pow_pos_nonneg; lia).
      nia. }
  split; [exact Hs|]. split; [lia|]. split; [intros _; split; assumption|].
  split; [exact Hnear|].
  set (num := a * 2 ^ s) in *.
  pose proof (Z.div_mod num b ltac:(lia)) as Hdm.
  pose proof (Z.mod_pos_bound num b Hb) as Hr.
  destruct ((b <? 2 * (num mod b)) || ((2 * (num mod b) =? b) && Z.odd (num / b)))
    eqn:Hup; intros Htie.
  - assert (Hhalf : 2 * (num mod b) = b) by lia.
    apply orb_prop in Hup as [Hup|Hup]; [apply Z.ltb_lt in Hup; lia|].
    apply andb_prop in Hup as [_ Hodd].
    now rewrite Z.add_1_r, Z.even_succ.
  - assert (Hhalf : 2 * (num mod b) = b) by lia.
    apply orb_false_elim in Hup as [_ Hup].
    apply Z.eqb_eq in Hhalf. rewrite Hhalf in Hup. cbn [andb] in Hup.
    now rewrite <- Z.negb_odd, Hup.
Qed.

Lemma div_nearestDouble (a b : Z) :
  0 <= a < 2 ^ 53 → 0 < b →
  spec_nearestDouble a b (Float64.mant (Float64.div a b))
                         (Float64.shift (Float64.div a b)).
Proof.
  intros Ha Hb. unfold Float64.div.
  destruct (Z.eqb_spec a 0) as [->|Hnz].
  - cbn [Float64.mant Float64.shift]. unfold spec_nearestDouble.
    repeat split; first [lia | reflexivity].
  - destruct (Z.ltb_spec a 0) as [Hneg|_]; [lia|].
    apply div_pos_nearestDouble; lia.
Qed.

Lemma tenths_pos_nearestTenth (x : Float64.dyadic) :
  0 <= Float64.shift x →
  spec_nearestTenth (Float64.mant x) (Float64.shift x) (Float64.tenths_pos x).
Proof.
  intros Hs. unfold spec_nearestTenth, Float64.tenths_pos.
  rewrite Z.pow_add_r by lia. change (2 ^ 1) with 2.
  set (P := 2 ^ Float64.shift x).
  assert (HP : 0 < P) by (apply Z.pow_pos_nonneg; lia).
  pose proof (Z.div_mod (20 * Float64.mant x + P) (P * 2) ltac:(lia)) as Hdm.
  pose proof (Z.mod_pos_bound (20 * Float64.mant x + P) (P * 2) ltac:(lia)) as Hr.
  nia.
Qed.

(** The two descriptions leave one tenth. *)
Lemma spec_nearestTenth_unique (a b m e n m' e' n' : Z) :
  0 <= a → 0 < b →
  spec_nearestDouble a b m e → spec_nearestTenth m e n →
  spec_nearestDouble a b m' e' → spec_nearestTenth m' e' n' →
  n = n'.
Proof.
  intros Ha Hb (He & Hzero & Hnorm & Hnear & Htie) Hn
         (He' & Hzero' & Hnorm' & Hnear' & Htie') Hn'.
  unfold spec_nearestTenth in *.
  assert (HP : 0 < 2 ^ e) by (apply Z.pow_pos_nonneg; lia).
  assert (HP' : 0 < 2 ^ e') by (apply Z.pow_pos_nonneg; lia).
  destruct (Z.eq_dec a 0) as [Hz|Hnz].
  - rewrite (Hzero Hz) in Hn. rewrite (Hzero' Hz) in Hn'.
    set (P := 2 ^ e) in *. set (P' := 2 ^ e') in *.
    assert (n = 0) by nia. assert (n' = 0) by nia. lia.
  - specialize (Hnorm ltac:(lia)). specialize (Hnorm' ltac:(lia)).
    assert (Hee : e = e').
    { destruct (Z.lt_trichotomy e e') as [Hlt|[Heq|Hgt]]; [|exact Heq|]; exfalso.
      - assert (Hpow : 2 ^ e' = 2 ^ e * 2 ^ (e' - e)).
        { rewrite <- Z.pow_add_r by lia. f_equal. lia. }
        assert (2 ^ 1 <= 2 ^ (e' - e)) by (apply Z.pow_le_mono_r; lia).
        change (2 ^ 1) with 2 in *. change (2 ^ 53) with (2 * 2 ^ 52) in *. nia.
      - assert (Hpow : 2 ^ e = 2 ^ e' * 2 ^ (e - e')).
        { rewrite <- Z.pow_add_r by lia. f_equal. lia. }
        assert (2 ^ 1 <= 2 ^ (e - e')) by (apply Z.pow_le_mono_r; lia).
        change (2 ^ 1) with 2 in *. change (2 ^ 53) with (2 * 2 ^ 52) in *. nia. }
    subst e'. clear HP' He'.
    set (P := 2 ^ e) in *. set (A := a * P) in *.
    assert (Hmm : m = m').
    { assert (Hclose : - 1 <= m - m' <= 1) by nia.
      destruct (Z.eq_dec m m') as [|Hne]; [assumption|exfalso].
      assert (Hboth : 2 * Z.abs (m * b - A) = b ∧ 2 * Z.abs (m' * b - A) = b) by nia.
      destruct Hboth as [Ht Ht'].
      specialize (Htie Ht). specialize (Htie' Ht').
      assert (Hcases : m' = m + 1 ∨ m = m' + 1) by lia.
      destruct Hcases as [->| ->].
      - rewrite Z.add_1_r, Z.even_succ, <- Z.negb_even, Htie in Htie'. discriminate.
      - rewrite Z.add_1_r, Z.even_succ, <- Z.negb_even, Htie' in Htie. discriminate. }
    subst m'. nia.
Qed.

Lemma sumRatings_foldr (fbs : list Feedback.t) :
  sumRatings fbs = foldr Z.add 0 (map Feedback.rating fbs).
Proof.
  induction fbs as [|fb fbs IH]; [reflexivity|].
  rewrite sumRatings_cons, IH. reflexivity.
Qed.

Lemma fixed1_digits_oneDecimal (n : Z) :
  0 <= n → Float64.fixed1_digits n = spec_oneDecimal n.
Proof.
  intros Hn. unfold Float64.fixed1_digits, spec_oneDecimal, spec_decimal.
  pose proof (Z.div_pos n 10 Hn ltac:(lia)).
  pose proof (Z.mod_pos_bound n 10 ltac:(lia)).
  rewrite !ofInteger_nonneg by lia. reflexivity.
Qed.

(** With feedback: the double of the mean, its nearest tenth, and the
    numeral of that tenth. *)
Lemma calculateAverageRating_tenth (s : State) (teacherId : Z) :
  let fbs := feedbacksOf (feedbackData s) teacherId in
  let total := sumRatings fbs in
  let count := Z.of_nat (List.length fbs) in
  fbs ≠ [] →
  (∀ fb, fb ∈ fbs → 0 <= Feedback.rating fb) →
  10 * total < 2 ^ 52 →
  ∃ m e n : Z,
    spec_nearestDouble total count m e
    ∧ spec_nearestTenth m e n
    ∧ calculateAverageRating s teacherId = spec_oneDecimal n
    ∧ 2 * Z.abs (10 * total - n * count) <= count.
Proof.
  intros fbs total count Hne Hpos Hsum.
  assert (Hcount : 0 < count).
  { subst count. destruct fbs; [congruence | simpl; lia]. }
  pose proof (sumRatings_nonneg fbs Hpos) as Hnonneg. fold total in Hnonneg.
  assert (Hrange : 0 <= total < 2 ^ 53).
  { split; [lia|]. change (2 ^ 53) with (2 * 2 ^ 52). lia. }
  pose proof (div_nearestDouble total count Hrange Hcount) as Hdouble.
  destruct (tenths_div_nearest total count Hnonneg Hsum Hcount) as [Hn Hnear].
  set (x := Float64.div total count) in *.
  exists (Float64.mant x), (Float64.shift x), (Float64.tenths_pos x).
  split; [exact Hdouble|].
  split; [apply tenths_pos_nearestTenth; apply Hdouble|].
  split; [|exact Hnear].
  unfold calculateAverageRating. fold fbs count total x.
  destruct (Z.eqb_spec count 0) as [Hz|_]; [lia|].
  unfold Float64.toFixed1.
  destruct (Z.ltb_spec (Float64.mant x) 0) as [Hneg|_].
  - exfalso. destruct Hdouble as (He & Hzero & Hnorm & Hmant & _).
    assert (0 < 2 ^ Float64.shift x) by (apply Z.pow_pos_nonneg; lia).
    destruct (Z.eq_dec total 0) as [Hz|Hnz]; [specialize (Hzero Hz); lia|].
    specialize (Hnorm ltac:(lia)). nia.
  - now apply fixed1_digits_oneDecimal.
Qed.

(** C5: [calculateAverageRating] returns ["0.0"] for a teacher without
    feedback.  For a teacher with feedback it returns the mean of the
    ratings written with one decimal: the mean is the double nearest to
    the sum of the ratings over their count, the decimal is the tenth
    nearest to that double, the larger of two, and no other tenth fits
    this description.  That tenth is a tenth nearest to the exact
    quotient, and it is the nearest one whenever the quotient is not
    midway between two tenths.  For the ratings 6 and 8 the text is
    ["7.0"]; for 2, 2, 2 and 3 (mean 2.25) it is ["2.3"]; for twenty
    ratings that sum to 167 (mean 8.35, whose double is below it) it is
    ["8.3"]. *)
Theorem calculateAverageRating_mean (s : State) (teacherId : Z) :
  let ratings := map Feedback.rating (feedbacksOf (feedbackData s) teacherId) in
  let total := foldr Z.add 0 ratings in
  let count := Z.of_nat (List.length ratings) in
  (ratings = [] → calculateAverageRating s teacherId = "0.0")
  ∧ (ratings ≠ [] →
     (∀ r, r ∈ ratings → 0 <= r) →
     10 * total < 2 ^ 52 →
     ∃ m e n : Z,
       spec_nearestDouble total count m e
       ∧ spec_nearestTenth m e n
       ∧ calculateAverageRating s teacherId = spec_oneDecimal n
       ∧ (∀ m' e' n' : Z,
            spec_nearestDouble total count m' e' →
            spec_nearestTenth m' e' n' → n' = n)
       ∧ 2 * Z.abs (10 * total - n * count) <= count
       ∧ (∀ k : Z, 2 * Z.abs (10 * total - k * count) < count → k = n))
  ∧ (ratings = [6; 8] → calculateAverageRating s teacherId = "7.0")
  ∧ (ratings = [2; 2; 2; 3] → calculateAverageRating s teacherId = "2.3")
  ∧ (total = 167 → count = 20 → calculateAverageRating s teacherId = "8.3").
Proof.
  intros ratings total count.
  set (fbs := feedbacksOf (feedbackData s) teacherId) in *.
  assert (Htotal : total = sumRatings fbs).
  { subst total ratings. now rewrite sumRatings_foldr. }
  assert (Hlen : count = Z.of_nat (List.length fbs)).
  { subst count ratings. now rewrite List.length_map. }
  assert (Hcalc : ∀ t c : Z,
            total = t → count = c → c ≠ 0 →
            calculateAverageRating s teacherId
            = Float64.toFixed1 (Float64.div t c)).
  { intros t c Ht Hc Hnz. unfold calculateAverageRating. fold fbs.
    rewrite <- Htotal, <- Hlen, Ht, Hc.
    destruct (Z.eqb_spec c 0); [contradiction | reflexivity]. }
  split; [|split; [|split; [|split]]].
  - intros Hnil. apply calculateAverageRating_empty. fold fbs.
    subst ratings. now destruct fbs.
  - intros Hne Hpos Hsum.
    assert (Hne' : fbs ≠ []).
    { intros Hnil. apply Hne. subst ratings. now rewrite Hnil. }
    assert (Hpos' : ∀ fb, fb ∈ fbs → 0 <= Feedback.rating fb).
    { intros fb Hin. apply Hpos. subst ratings. now apply list_elem_of_fmap_2. }
    rewrite Htotal in Hsum.
    destruct (calculateAverageRating_tenth s teacherId Hne' Hpos' Hsum)
      as (m & e & n & Hdouble & Htenth & Htext & Hnear).
    fold fbs in Hdouble, Hnear. rewrite <- Htotal, <- Hlen in Hdouble, Hnear.
    assert (Hcount : 0 < count).
    { rewrite Hlen. destruct fbs; [congruence | simpl; lia]. }
    assert (Hnonneg : 0 <= total).
    { rewrite Htotal. now apply sumRatings_nonneg. }
    exists m, e, n. split; [exact Hdouble|]. split; [exact Htenth|].
    split; [exact Htext|]. split; [|split; [exact Hnear|]].
    + intros m' e' n' Hdouble' Htenth'.
      exact (spec_nearestTenth_unique total count m' e' n' m e n
               Hnonneg Hcount Hdouble' Htenth' Hdouble Htenth).
    + intros k Hk. nia.
  - intros Hratings.
    rewrite (Hcalc 14 2); [reflexivity | | | discriminate].
    + subst total. now rewrite Hratings.
    + subst count. now rewrite Hratings.
  - intros Hratings.
    rewrite (Hcalc 9 4); [reflexivity | | | discriminate].
    + subst total. now rewrite Hratings.
    + subst count. now rewrite Hratings.
  - intros Ht Hc. rewrite (Hcalc 167 20 Ht Hc); [reflexivity | discriminate].
Qed.

Lemma calculateAverageRating_mean_witness :
  let s := setFeedbackData
             (λ _, {[ 1 := [ Feedback.mk 10 "Anonymous 7" "Good" 6 "2023-11-14T22:13:20.000Z";
                             Feedback.mk 20 "Anonymous 7" "Better" 8 "2023-11-14T22:13:21.000Z";
                             Feedback.mk 30 "Anonymous 7" "Best" 9 "2023-11-14T22:13:22.000Z" ] ]})
             initialState in
  calculateAverageRating s 2 = "0.0" ∧ calculateAverageRating s 1 = "7.7".
Proof.
  intros s. split.
  - apply (proj1 (calculateAverageRating_mean s 2)). reflexivity.
  - destruct (proj1 (proj2 (calculateAverageRating_mean s 1)))
      as (m & e & n & _ & _ & Htext & Hunique & _).
    + vm_compute. discriminate.
    + intros r Hin. vm_compute in Hin.
      repeat (apply elem_of_cons in Hin as [->|Hin]; [lia|]).
      now apply elem_of_nil in Hin.
    + vm_compute. reflexivity.
    + rewrite Htext, <- (Hunique 8631899285793451 50 77); [reflexivity|..].
      * change (spec_nearestDouble 23 3 8631899285793451 50).
        unfold spec_nearestDouble.
        change (2 ^ 50) with 1125899906842624.
        change (2 ^ 52) with 4503599627370496.
        change (2 ^ 53) with 9007199254740992.
        repeat split; lia.
      * unfold spec_nearestTenth. change (2 ^ 50) with 1125899906842624. lia.
Defined.


(** ** [Array.prototype.sort] *)

Section SortFacts.
Context {A : Type} (cmp : A → A → Z).

Lemma insert_sorted_perm (x : A) (l : list A) :
  Permutation (x :: l) (insert_sorted cmp x l).
Proof.
  induction l as [|y l IH]; simpl.
  - reflexivity.
  - destruct (cmp x y <=? 0); [reflexivity|].
    rewrite perm_swap. now apply perm_skip.
Qed.

Lemma sort_perm (l : list A) : Permutation l (sort cmp l).
Proof.
  induction l as [|x l IH]; simpl.
  - reflexivity.
  - rewrite <- insert_sorted_perm. now apply perm_skip.
Qed.

Hypothesis cmp_trans :
  ∀ a b c, cmp a b <= 0 → cmp b c <= 0 → cmp a c <= 0.

Lemma insert_sorted_stable (z x : A) (l : list A) :
  List.filter (λ y, (cmp z y <=? 0) && (cmp y z <=? 0)) (insert_sorted cmp x l)
  = List.filter (λ y, (cmp z y <=? 0) && (cmp y z <=? 0)) (x :: l).
Proof.
  induction l as [|y l IH]; [reflexivity|].
  cbn [insert_sorted].
  destruct (Z.leb_spec (cmp x y) 0) as [Hle|Hgt]; [reflexivity|].
  cbn [List.filter] in *. rewrite IH.
  destruct ((cmp z x <=? 0) && (cmp x z <=? 0)) eqn:Hx;
    destruct ((cmp z y <=? 0) && (cmp y z <=? 0)) eqn:Hy; try reflexivity.
  exfalso.
  apply andb_prop in Hx as [_ Hxz]. apply andb_prop in Hy as [Hzy _].
  apply Z.leb_le in Hxz, Hzy.
  pose proof (cmp_trans x z y Hxz Hzy). lia.
Qed.

Lemma sort_stable (z : A) (l : list A) :
  List.filter (λ y, (cmp z y <=? 0) && (cmp y z <=? 0)) (sort cmp l)
  = List.filter (λ y, (cmp z y <=? 0) && (cmp y z <=? 0)) l.
Proof.
  induction l as [|x l IH]; [reflexivity|].
  cbn [sort]. rewrite insert_sorted_stable. cbn [List.filter].
  now rewrite IH.
Qed.

Hypothesis cmp_total : ∀ a b, cmp a b <= 0 ∨ cmp b a <= 0.

Lemma insert_sorted_sorted (x : A) (l : list A) :
  StronglySorted (λ a b, cmp a b <= 0) l →
  StronglySorted (λ a b, cmp a b <= 0) (insert_sorted cmp x l).
Proof.
  induction 1 as [|y l Hsorted IH Hall]; cbn [insert_sorted].
  - repeat constructor.
  - destruct (Z.leb_spec (cmp x y) 0) as [Hle|Hgt].
    + constructor; [now constructor|].
      constructor; [exact Hle|].
      eapply List.Forall_impl; [|exact Hall]. intros c Hc. cbn in Hc.
      now apply cmp_trans with y.
    + constructor; [exact IH|].
      rewrite <- insert_sorted_perm. constructor; [|exact Hall].
      destruct (cmp_total x y); lia.
Qed.

Lemma sort_sorted (l : list A) :
  StronglySorted (λ a b, cmp a b <= 0) (sort cmp l).
Proof.
  induction l as [|x l IH]; cbn [sort].
  - constructor.
  - now apply insert_sorted_sorted.
Qed.

(** An array already in order is returned as it is. *)
Lemma sort_sorted_id (l : list A) :
  StronglySorted (λ a b, cmp a b <= 0) l → sort cmp l = l.
Proof.
  induction 1 as [|x l Hsorted IH Hall]; [reflexivity|].
  cbn [sort]. rewrite IH. destruct l as [|y l]; [reflexivity|].
  cbn [insert_sorted]. apply List.Forall_inv in Hall.
  destruct (Z.leb_spec (cmp x y) 0); [reflexivity | lia].
Qed.

End SortFacts.

(** ** Numerals: [Number] after [toFixed(1)] *)

Lemma N_to_uint_nonnil (n : N) : N.to_uint n ≠ Nil.
Proof.
  destruct n as [|p]; [discriminate|]. apply DecimalPos.Unsigned.to_uint_nonnil.
Qed.

Lemma uint_of_ofInteger (z : Z) :
  0 <= z →
  ∃ d, NilZero.uint_of_string (JSString.ofInteger z) = Some d
       ∧ Z.of_N (N.of_uint d) = z.
Proof.
  intros Hz. exists (N.to_uint (Z.to_N z)). rewrite ofInteger_nonneg by exact Hz.
  split.
  - apply NilZero.usu, N_to_uint_nonnil.
  - rewrite DecimalN.Unsigned.of_to. lia.
Qed.

Lemma ofInteger_head (z : Z) :
  0 <= z →
  ∃ c r, JSString.ofInteger z = String c r ∧ c ≠ "-"%char.
Proof.
  intros Hz. rewrite ofInteger_nonneg by exact Hz.
  pose proof (N_to_uint_nonnil (Z.to_N z)) as Hnil.
  destruct (N.to_uint (Z.to_N z)); [congruence|..];
    cbn; eexists _, _; (split; [reflexivity | discriminate]).
Qed.

Lemma ofInteger_digit (k : Z) :
  0 <= k < 10 → ∃ c, JSString.ofInteger k = String c "".
Proof.
  intros Hk.
  assert (Hcases : k = 0 ∨ k = 1 ∨ k = 2 ∨ k = 3 ∨ k = 4 ∨ k = 5 ∨ k = 6
                   ∨ k = 7 ∨ k = 8 ∨ k = 9) by lia.
  repeat (destruct Hcases as [->|Hcases]; [eexists; reflexivity|]).
  subst. eexists; reflexivity.
Qed.

Lemma append_cons (c : ascii) (a b : string) :
  (String c a ++ b)%string = String c (a ++ b).
Proof. reflexivity. Qed.

Lemma append_nil_l (b : string) : ("" ++ b)%string = b.
Proof. reflexivity. Qed.

Lemma substring_app_l (a b : string) :
  substring 0 (String.length a) (a ++ b) = a.
Proof.
  induction a as [|c a IH].
  - rewrite append_nil_l. now destruct b.
  - rewrite append_cons. simpl. f_equal. exact IH.
Qed.

Lemma substring_app_r (a b : string) (n : nat) :
  substring (String.length a) n (a ++ b) = substring 0 n b.
Proof.
  induction a as [|c a IH]; [reflexivity|].
  rewrite append_cons. simpl. exact IH.
Qed.

Lemma length_app (a b : string) :
  String.length (a ++ b) = (String.length a + String.length b)%nat.
Proof.
  induction a as [|c a IH]; [reflexivity|].
  rewrite append_cons. simpl. f_equal. exact IH.
Qed.

Lemma app_assoc_string (a b c : string) : ((a ++ b) ++ c = a ++ (b ++ c))%string.
Proof.
  induction a as [|x a IH]; [reflexivity|].
  rewrite !append_cons. f_equal. exact IH.
Qed.

Lemma Number_tenths_fixed1_digits (n : Z) :
  0 <= n →
  Number_tenths (Float64.fixed1_digits n) = Some n
  ∧ Number_tenths ("-" ++ Float64.fixed1_digits n) = Some (- n).
Proof.
  intros Hn. unfold Float64.fixed1_digits.
  pose proof (Z.div_mod n 10 ltac:(lia)) as Hdm.
  pose proof (Z.mod_pos_bound n 10 ltac:(lia)) as Hr.
  assert (Hq : 0 <= n / 10) by (apply Z.div_pos; lia).
  destruct (uint_of_ofInteger (n / 10) Hq) as (di & Hdi & Hvi).
  destruct (uint_of_ofInteger (n mod 10) ltac:(lia)) as (df & Hdf & Hvf).
  destruct (ofInteger_head (n / 10) Hq) as (c & r & Hhead & Hc).
  destruct (ofInteger_digit (n mod 10) Hr) as (cf & Hdigit).
  set (ip := JSString.ofInteger (n / 10)) in *.
  set (fp := JSString.ofInteger (n mod 10)) in *.
  assert (Hbody : ∀ body : string, body = (ip ++ "." ++ fp)%string →
     String.eqb (substring (String.length body - 2) 1 body) "." = true
     ∧ substring 0 (String.length body - 2) body = ip
     ∧ substring (String.length body - 1) 1 body = fp).
  { intros body ->.
    assert (Hlen : String.length (ip ++ "." ++ fp) = (String.length ip + 2)%nat).
    { rewrite length_app, Hdigit. reflexivity. }
    rewrite Hlen.
    replace (String.length ip + 2 - 2)%nat with (String.length ip) by lia.
    replace (String.length ip + 2 - 1)%nat with (String.length (ip ++ ".")).
    2:{ rewrite length_app. change (String.length ".") with 1%nat. lia. }
    split; [|split].
    - rewrite substring_app_r, Hdigit. reflexivity.
    - apply substring_app_l.
    - change (ip ++ "." ++ fp)%string with (ip ++ ("." ++ fp))%string.
      rewrite <- app_assoc_string, substring_app_r, Hdigit. reflexivity. }
  split.
  - unfold Number_tenths.
    destruct (Hbody (ip ++ "." ++ fp)%string eq_refl) as (Hdot & Hip & Hfp).
    assert (Hnoneg : (ip ++ "." ++ fp)%string = String c (r ++ "." ++ fp)).
    { now rewrite Hhead. }
    rewrite Hnoneg in *.
    destruct (Ascii.eqb_spec c "-") as [->|_]; [congruence|].
    assert (Hmatch : ∀ (T : Type) (x y : T),
              match c with "-"%char => x | _ => y end = y).
    { intros T x y. destruct c as [[] [] [] [] [] [] [] []]; try reflexivity.
      congruence. }
    rewrite !Hmatch, Hdot, Hip, Hfp, Hdi, Hdf. f_equal. lia.
  - change ("-" ++ (ip ++ "." ++ fp))%string with (String "-" (ip ++ "." ++ fp)).
    unfold Number_tenths. cbv beta iota zeta.
    destruct (Hbody (ip ++ "." ++ fp)%string eq_refl) as (Hdot & Hip & Hfp).
    rewrite Hdot, Hip, Hfp, Hdi, Hdf. f_equal. lia.
Qed.

(** ** The roster view *)

Lemma tenths_pos_nonneg (x : Float64.dyadic) :
  0 <= Float64.mant x → 0 <= Float64.tenths_pos x.
Proof.
  intros Hm. unfold Float64.tenths_pos.
  pose proof (Z.pow_nonneg 2 (Float64.shift x) ltac:(lia)).
  pose proof (Z.pow_nonneg 2 (Float64.shift x + 1) ltac:(lia)) as Hd.
  destruct (Z.eq_dec (2 ^ (Float64.shift x + 1)) 0) as [->|Hnz].
  - now rewrite Z.div_0_r.
  - apply Z.div_pos; lia.
Qed.

Lemma Number_calculateAverageRating (s : State) (teacherId : Z) :
  Number_tenths (calculateAverageRating s teacherId)
  = Some (averageTenths s teacherId).
Proof.
  unfold calculateAverageRating, averageTenths.
  destruct (Z.of_nat _ =? 0); [reflexivity|].
  unfold Float64.toFixed1.
  set (x := Float64.div _ _).
  destruct (Z.ltb_spec (Float64.mant x) 0) as [Hneg|Hpos].
  - apply Number_tenths_fixed1_digits, tenths_pos_nonneg. cbn. lia.
  - now apply Number_tenths_fixed1_digits, tenths_pos_nonneg.
Qed.

Lemma compareTeachers_precedes `{Locale} (s : State) (a b : Teacher.t) :
  (compareTeachers s a b <=? 0) = spec_precedes s a b.
Proof.
  unfold compareTeachers, spec_precedes.
  destruct (String.eqb (sortBy s) "rating").
  - rewrite !Number_calculateAverageRating.
    apply eq_true_iff_eq. rewrite !Z.leb_le. lia.
  - destruct (String.eqb (sortBy s) "feedbacks"); [|reflexivity].
    apply eq_true_iff_eq. rewrite !Z.leb_le. lia.
Qed.

Lemma compareTeachers_trans `{LocaleLaws} (s : State) (a b c : Teacher.t) :
  compareTeachers s a b <= 0 → compareTeachers s b c <= 0 →
  compareTeachers s a c <= 0.
Proof.
  rewrite <- !Z.leb_le, !compareTeachers_precedes. unfold spec_precedes.
  destruct (String.eqb (sortBy s) "rating"); [rewrite !Z.leb_le; lia|].
  destruct (String.eqb (sortBy s) "feedbacks"); [rewrite !Z.leb_le; lia|].
  rewrite !Z.leb_le. apply localeCompare_trans.
Qed.

Lemma compareTeachers_total `{LocaleLaws} (s : State) (a b : Teacher.t) :
  compareTeachers s a b <= 0 ∨ compareTeachers s b a <= 0.
Proof.
  rewrite <- !Z.leb_le, !compareTeachers_precedes. unfold spec_precedes.
  destruct (String.eqb (sortBy s) "rating"); [rewrite !Z.leb_le; lia|].
  destruct (String.eqb (sortBy s) "feedbacks"); [rewrite !Z.leb_le; lia|].
  rewrite !Z.leb_le. apply localeCompare_total.
Qed.

(** The value of the memo is the filtered roster, sorted. *)
Lemma filteredAndSortedTeachers_value `{Locale} (s : State) :
  fst (filteredAndSortedTeachers s)
  = sort (compareTeachers s) (spec_search s (spec_departmentFilter s (teachers s))).
Proof.
  unfold filteredAndSortedTeachers, spec_search, spec_departmentFilter. cbn [fst].
  f_equal. destruct (String.eqb (filterDepartment s) "all"); cbn [negb].
  - reflexivity.
  - rewrite (List.filter_ext
               (λ teacher, String.eqb (Teacher.department teacher) (filterDepartment s))
               (λ teacher, bool_decide (Teacher.department teacher = filterDepartment s))).
    + reflexivity.
    + intros t.
      destruct (String.eqb_spec (Teacher.department t) (filterDepartment s)).
      * now rewrite bool_decide_eq_true_2.
      * now rewrite bool_decide_eq_false_2.
Qed.

Lemma StronglySorted_ext {A : Type} (R R' : A → A → Prop) (l : list A) :
  (∀ a b, R a b → R' a b) → StronglySorted R l → StronglySorted R' l.
Proof.
  intros Himpl. induction 1 as [|x l Hsorted IH Hall]; constructor.
  - exact IH.
  - eapply List.Forall_impl; [|exact Hall]. intros b. apply Himpl.
Qed.

(** Over the current contents of the roster array the memo computes the
    roster view of the specification. *)
Lemma filteredAndSortedTeachers_spec `{LocaleLaws} (s : State) :
  spec_filteredAndSortedRoster (teachers s) s (fst (filteredAndSortedTeachers s)).
Proof.
  rewrite filteredAndSortedTeachers_value. unfold spec_filteredAndSortedRoster.
  cbv zeta. split; [|split].
  - apply sort_perm.
  - eapply StronglySorted_ext;
      [|apply sort_sorted;
        [apply compareTeachers_trans | apply compareTeachers_total]].
    intros a b Hle. cbn in Hle. rewrite <- compareTeachers_precedes.
    now apply Z.leb_le.
  - intros x.
    rewrite (List.filter_ext (spec_sameKey s x)
               (λ y, (compareTeachers s x y <=? 0) && (compareTeachers s y x <=? 0))).
    2:{ intros y. unfold spec_sameKey. now rewrite !compareTeachers_precedes. }
    rewrite (List.filter_ext (spec_sameKey s x)
               (λ y, (compareTeachers s x y <=? 0) && (compareTeachers s y x <=? 0))).
    2:{ intros y. unfold spec_sameKey. now rewrite !compareTeachers_precedes. }
    apply sort_stable, compareTeachers_trans.
Qed.

(** ** The search *)

Lemma startsWith_spec (s p : string) :
  JSString.startsWith s p = true ↔ ∃ after : string, s = (p ++ after)%string.
Proof.
  revert s. induction p as [|a p IH]; intros s.
  - destruct s; simpl; split; eauto.
  - destruct s as [|b s]; simpl.
    + split; [discriminate|]. intros [after Heq]. discriminate Heq.
    + rewrite andb_true_iff, IH. split.
      * intros [Hab [after ->]]. apply Ascii.eqb_eq in Hab as ->.
        now exists after.
      * intros [after Heq]. rewrite append_cons in Heq.
        injection Heq as -> ->. split; [apply Ascii.eqb_refl | eauto].
Qed.

Lemma includes_spec (s q : string) :
  JSString.includes s q = true
  ↔ ∃ before after : string, s = (before ++ q ++ after)%string.
Proof.
  split.
  - induction s as [|c s IH]; cbn [JSString.includes]; rewrite orb_true_iff.
    + intros [Hstart|Hfalse]; [|discriminate].
      apply startsWith_spec in Hstart as [after ->]. now exists ""%string, after.
    + intros [Hstart|Hrest].
      * apply startsWith_spec in Hstart as [after Heq]. now exists ""%string, after.
      * destruct (IH Hrest) as (before & after & ->).
        now exists (String c before), after.
  - intros (before & after & ->).
    induction before as [|c before IH].
    + rewrite append_nil_l.
      assert (Hstart : JSString.startsWith (q ++ after) q = true)
        by (apply startsWith_spec; eauto).
      destruct (q ++ after)%string; cbn [JSString.includes]; now rewrite Hstart.
    + rewrite append_cons. cbn [JSString.includes]. rewrite IH. apply orb_true_r.
Qed.

Lemma matchesSearch_spec (query : string) (teacher : Teacher.t) :
  matchesSearch query teacher = true
  ↔ caseInsensitiveSubstring query (Teacher.name teacher)
    ∨ caseInsensitiveSubstring query (Teacher.department teacher)
    ∨ caseInsensitiveSubstring query (Teacher.subject teacher).
Proof.
  unfold matchesSearch, caseInsensitiveSubstring.
  rewrite !orb_true_iff, !includes_spec. tauto.
Qed.

Lemma compareCodeUnits_trans (a b c : string) :
  compareCodeUnits a b <= 0 → compareCodeUnits b c <= 0 →
  compareCodeUnits a c <= 0.
Proof.
  revert b c. induction a as [|x a IH]; intros [|y b] [|z c]; simpl; try lia.
  repeat match goal with
         | |- context [?u <? ?v] => destruct (Z.ltb_spec u v)
         end; try lia.
  apply IH.
Qed.

Lemma compareCodeUnits_total (a b : string) :
  compareCodeUnits a b <= 0 ∨ compareCodeUnits b a <= 0.
Proof.
  revert b. induction a as [|x a IH]; intros [|y b]; simpl; try lia.
  repeat match goal with
         | |- context [?u <? ?v] => destruct (Z.ltb_spec u v)
         end; try lia.
  apply IH.
Qed.

Lemma codeUnitLocale_laws : LocaleLaws (H := codeUnitLocale).
Proof.
  split.
  - apply compareCodeUnits_total.
  - apply compareCodeUnits_trans.
Qed.

Lemma afterReviewsCard_reachable :
  reachable (H := codeUnitLocale) afterReviewsCard.
Proof.
  apply run_reachable.
  - apply reachable_mounted. lia.
  - vm_compute. reflexivity.
Qed.

(** C4: the run that shows the roster view leaving the order of the
    original roster.  The first render sorts by name with no filter set,
    so the array sorted in place is the roster itself; after the click
    on the "Reviews" card every teacher has the key 0 and the memo
    returns the teachers in name order, 3 1 5 4 6 2.  The roster view
    of the specification over the sample roster is the sample roster,
    1 2 3 4 5 6; the value computed is not a roster view of it. *)
Theorem filteredAndSortedTeachers_reorders_roster :
  let L := codeUnitLocale in
  let s := afterReviewsCard in
  reachable s
  ∧ (sortBy s, filterDepartment s, searchQuery s) = ("feedbacks", "all", "")%string
  ∧ (∀ teacher, getFeedbackCount s (Teacher.id teacher) = 0)
  ∧ map Teacher.id (fst (filteredAndSortedTeachers s)) = [3; 1; 5; 4; 6; 2]
  ∧ ¬ spec_filteredAndSortedRoster sampleTeachers s
        (fst (filteredAndSortedTeachers s))
  ∧ spec_filteredAndSortedRoster sampleTeachers s sampleTeachers
  ∧ map Teacher.id (teachers s) = [3; 1; 5; 4; 6; 2].
Proof.
  intros L s. split; [exact afterReviewsCard_reachable|].
  split; [reflexivity|]. split; [intros teacher; reflexivity|].
  split; [vm_compute; reflexivity|].
  split; [|split].
  - intros (_ & _ & Hstable). specialize (Hstable rajeshKumar).
    vm_compute in Hstable. discriminate Hstable.
  - split; [|split].
    + reflexivity.
    + repeat constructor.
    + intros x. reflexivity.
  - vm_compute. reflexivity.
Qed.

(** On the sample roster the department filter keeps the two teachers
    of "Computer Science", whatever the sort key. *)
Lemma sample_department_filter `{Locale} (s : State) :
  teachers s = sampleTeachers →
  filterDepartment s = "Computer Science"%string →
  searchQuery s = ""%string →
  ∀ teacher, teacher ∈ fst (filteredAndSortedTeachers s)
             ↔ teacher ∈ sampleTeachers
               ∧ Teacher.department teacher = "Computer Science"%string.
Proof.
  intros Hroster Hdept Hquery teacher.
  rewrite filteredAndSortedTeachers_value.
  rewrite <- (sort_perm (compareTeachers s)).
  unfold spec_search, spec_departmentFilter. rewrite Hquery, Hdept, Hroster.
  cbn [JSString.trim JSString.truthy]. 
  change (JSString.truthy (JSString.trim "")) with false. cbn iota.
  change (String.eqb "Computer Science" "all") with false. cbn iota.
  rewrite !list_elem_of_In, List.filter_In, bool_decide_eq_true. tauto.
Qed.


(** ** Dates: the constructor after [toISOString] *)

Section Dates.
Import JSDate.
#[local] Ltac Zify.zify_post_hook ::= Z.to_euclidean_division_equations.

Lemma digitValue_digit (r : Z) : 0 <= r < 10 → digitValue (digit r) = Some r.
Proof.
  intros Hr.
  assert (Hcases : r = 0 ∨ r = 1 ∨ r = 2 ∨ r = 3 ∨ r = 4 ∨ r = 5 ∨ r = 6
                   ∨ r = 7 ∨ r = 8 ∨ r = 9) by lia.
  repeat (destruct Hcases as [->|Hcases]; [reflexivity|]).
  subst. reflexivity.
Qed.

Lemma pad_succ (w : nat) (n : Z) :
  pad (S w) n = (pad w (n / 10) ++ String (digit (n mod 10)) "")%string.
Proof. reflexivity. Qed.

Lemma digits_succ (w : nat) (acc r : Z) (rest : string) :
  0 <= r < 10 →
  digits (S w) acc (String (digit r) rest) = digits w (10 * acc + r) rest.
Proof. intros Hr. cbn [digits]. now rewrite digitValue_digit. Qed.

Lemma digits_pad (w k : nat) (acc n : Z) (rest : string) :
  0 <= n < 10 ^ Z.of_nat w →
  digits (w + k) acc (pad w n ++ rest)
  = digits k (acc * 10 ^ Z.of_nat w + n) rest.
Proof.
  revert k n rest. induction w as [|w IH]; intros k n rest Hn.
  - cbn in Hn. assert (n = 0) as -> by lia. cbn [pad Nat.add].
    rewrite append_nil_l. f_equal. change (10 ^ Z.of_nat 0) with 1. lia.
  - rewrite Nat2Z.inj_succ, Z.pow_succ_r in * by lia.
    pose proof (Z.div_mod n 10 ltac:(lia)) as Hdm.
    pose proof (Z.mod_pos_bound n 10 ltac:(lia)) as Hr.
    rewrite pad_succ, app_assoc_string, append_cons, append_nil_l.
    replace (S w + k)%nat with (w + S k)%nat by lia.
    rewrite IH by lia. rewrite digits_succ by lia. f_equal. lia.
Qed.

Lemma digits_pad_all (w : nat) (n : Z) (rest : string) :
  0 <= n < 10 ^ Z.of_nat w →
  digits w 0 (pad w n ++ rest) = Some (n, rest).
Proof.
  intros Hn. pose proof (digits_pad w 0 0 n rest Hn) as Heq.
  rewrite Nat.add_0_r in Heq. rewrite Heq. cbn [digits]. f_equal.
Qed.

Lemma pad_head (w : nat) (n : Z) :
  0 <= n →
  ∃ (a : Z) (tail : string), 0 <= a < 10 ∧ pad (S w) n = String (digit a) tail.
Proof.
  revert n. induction w as [|w IH]; intros n Hn.
  - exists (n mod 10), ""%string. split; [apply Z.mod_pos_bound; lia | reflexivity].
  - destruct (IH (n / 10) ltac:(apply Z.div_pos; lia)) as (a & tail & Ha & Heq).
    exists a, (tail ++ String (digit (n mod 10)) "")%string. split; [exact Ha|].
    rewrite pad_succ, Heq. apply append_cons.
Qed.

Lemma year_yearString (y : Z) (rest : string) :
  - 10 ^ 6 < y < 10 ^ 6 →
  year (yearString y ++ rest) = Some (y, rest).
Proof.
  intros Hy. unfold yearString.
  destruct ((0 <=? y) && (y <=? 9999)) eqn:Hfour.
  - apply andb_prop in Hfour as [Hlo Hhi].
    apply Z.leb_le in Hlo, Hhi.
    destruct (pad_head 3 y Hlo) as (a & tail & Ha & Hhead).
    assert (Hyear : year (pad 4 y ++ rest) = digits 4 0 (pad 4 y ++ rest)).
    { rewrite Hhead, append_cons.
      assert (Hcases : a = 0 ∨ a = 1 ∨ a = 2 ∨ a = 3 ∨ a = 4 ∨ a = 5 ∨ a = 6
                       ∨ a = 7 ∨ a = 8 ∨ a = 9) by lia.
      repeat (destruct Hcases as [->|Hcases]; [reflexivity|]).
      subst. reflexivity. }
    rewrite Hyear. apply digits_pad_all. change (10 ^ Z.of_nat 4) with 10000. lia.
  - assert (Hrange : 0 <= Z.abs y < 10 ^ Z.of_nat 6).
    { change (10 ^ Z.of_nat 6) with (10 ^ 6). lia. }
    destruct (Z.ltb_spec y 0) as [Hneg|Hpos].
    + rewrite app_assoc_string, append_cons, append_nil_l.
      cbn [year]. rewrite digits_pad_all by exact Hrange.
      destruct (Z.eqb_spec (Z.abs y) 0); [lia|]. f_equal. f_equal. lia.
    + rewrite app_assoc_string, append_cons, append_nil_l.
      cbn [year]. rewrite digits_pad_all by exact Hrange.
      f_equal. f_equal. lia.
Qed.

Lemma counting_loop (check : Z → bool) (n : nat) :
  nat_rect (λ _, (Z * bool)%type) (0, true)
    (λ _ p, (fst p + 1, snd p && check (fst p))) n
  = (Z.of_nat n, forallb check (map Z.of_nat (seq 0 n))).
Proof.
  induction n as [|n IH].
  - reflexivity.
  - cbn [nat_rect]. rewrite IH. cbn [fst snd].
    rewrite seq_S, map_app, forallb_app. cbn [seq map forallb Nat.add].
    rewrite andb_true_r. f_equal. lia.
Qed.

Lemma counting_loop_all (check : Z → bool) (n : Z) :
  0 <= n →
  snd (Z.iter n (λ p : Z * bool, (fst p + 1, snd p && check (fst p))) (0, true))
  = true →
  ∀ k, 0 <= k < n → check k = true.
Proof.
  intros Hn Hloop k Hk.
  rewrite iter_nat_of_Z in Hloop by exact Hn.
  rewrite counting_loop in Hloop. cbn [snd] in Hloop.
  rewrite forallb_forall in Hloop. apply Hloop.
  apply in_map_iff. exists (Z.to_nat k). split; [lia|].
  apply in_seq. lia.
Qed.

(** The numerator of the year of an era grows with the day. *)
Lemma yearOfEra_numerator_mono (a b : Z) :
  0 <= a <= b → b <= 146096 →
  a - a / 1460 + a / 36524 - a / 146096
  <= b - b / 1460 + b / 36524 - b / 146096.
Proof.
  intros Hab Hb. destruct (Z.eq_dec a b) as [->|Hne]; [lia|].
  assert (H1 : b / 1460 - a / 1460 <= b - a).
  { pose proof (Z.div_mod a 1460 ltac:(lia)).
    pose proof (Z.mod_pos_bound a 1460 ltac:(lia)).
    pose proof (Z.div_mod b 1460 ltac:(lia)).
    pose proof (Z.mod_pos_bound b 1460 ltac:(lia)). lia. }
  assert (H2 : b / 146096 - a / 146096 <= b / 36524 - a / 36524).
  { destruct (Z.eq_dec b 146096) as [->|Hlt].
    - rewrite (Z.div_small a 146096) by lia.
      change (146096 / 146096) with 1. change (146096 / 36524) with 4.
      assert (a / 36524 < 4) by (apply Z.div_lt_upper_bound; lia). lia.
    - rewrite (Z.div_small a 146096), (Z.div_small b 146096) by lia.
      assert (a / 36524 <= b / 36524) by (apply Z.div_le_mono; lia). lia. }
  lia.
Qed.

(** Each of the 400 years of an era: its first and its last day are
    given this year, and it has 365 or 366 days. *)
Lemma year_starts_check :
  snd (Z.iter 400
         (λ p : Z * bool,
            (fst p + 1,
             snd p &&
             (λ k : Z,
                let start := 365 * k + k / 4 - k / 100 in
                let next := 365 * (k + 1) + (k + 1) / 4 - (k + 1) / 100 + (k + 1) / 400 in
                let last := next - 1 in
                ((start - start / 1460 + start / 36524 - start / 146096) / 365 =? k)
                && ((last - last / 1460 + last / 36524 - last / 146096) / 365 =? k)
                && (next - start =? if isLeap (k + 1) then 366 else 365))
               (fst p)))
         (0, true)) = true.
Proof. vm_compute. reflexivity. Qed.

(** Each day of a year that starts in March: its month and day of
    month lead back to it and are a date of the calendar. *)
Lemma day_of_year_check :
  snd (Z.iter 366
         (λ p : Z * bool,
            (fst p + 1,
             snd p &&
             (λ doy : Z,
                let mp := (5 * doy + 2) / 153 in
                let d := doy - (153 * mp + 2) / 5 + 1 in
                let m := if mp <? 10 then mp + 3 else mp - 9 in
                (1 <=? m) && (m <=? 12) && (1 <=? d)
                && ((153 * (if 2 <? m then m - 3 else m + 9) + 2) / 5 + d - 1 =? doy)
                && (if doy <? 365 then d <=? daysInMonth 1 m
                    else (m =? 2) && (d =? 29)))
               (fst p)))
         (0, true)) = true.
Proof. vm_compute. reflexivity. Qed.



Lemma year_starts (k : Z) :
  0 <= k < 400 →
  let start := 365 * k + k / 4 - k / 100 in
  let next := 365 * (k + 1) + (k + 1) / 4 - (k + 1) / 100 + (k + 1) / 400 in
  (start - start / 1460 + start / 36524 - start / 146096) / 365 = k
  ∧ (next - 1 - (next - 1) / 1460 + (next - 1) / 36524 - (next - 1) / 146096) / 365 = k
  ∧ next - start = if isLeap (k + 1) then 366 else 365.
Proof.
  intros Hk.
  pose proof (counting_loop_all _ 400 ltac:(lia) year_starts_check k Hk) as Hcheck.
  cbv beta zeta in Hcheck |- *.
  apply andb_prop in Hcheck as [Hcheck Hlen].
  apply andb_prop in Hcheck as [Hfirst Hlast].
  apply Z.eqb_eq in Hfirst, Hlast, Hlen. auto.
Qed.

Lemma day_of_year (doy : Z) :
  0 <= doy < 366 →
  let mp := (5 * doy + 2) / 153 in
  let d := doy - (153 * mp + 2) / 5 + 1 in
  let m := if mp <? 10 then mp + 3 else mp - 9 in
  1 <= m <= 12 ∧ 1 <= d
  ∧ (153 * (if 2 <? m then m - 3 else m + 9) + 2) / 5 + d - 1 = doy
  ∧ (doy < 365 → d <= daysInMonth 1 m)
  ∧ (doy = 365 → m = 2 ∧ d = 29).
Proof.
  intros Hdoy.
  pose proof (counting_loop_all _ 366 ltac:(lia) day_of_year_check doy Hdoy) as Hcheck.
  cbv beta zeta in Hcheck |- *.
  repeat (apply andb_prop in Hcheck as [Hcheck ?]).
  repeat match goal with
         | H : (_ <=? _) = true |- _ => apply Z.leb_le in H
         | H : (_ =? _) = true |- _ => apply Z.eqb_eq in H
         end.
  split; [lia|]. split; [lia|]. split; [lia|].
  destruct (Z.ltb_spec doy 365) as [Hlt|Hge].
  - split; [intros _; now apply Z.leb_le | lia].
  - split; [lia|]. intros _.
    match goal with
    | H : (_ && _) = true |- _ => apply andb_prop in H as [Hm Hd]
    end.
    apply Z.eqb_eq in Hm, Hd. auto.
Qed.

Lemma daysInMonth_common (y m : Z) : daysInMonth 1 m <= daysInMonth y m.
Proof.
  unfold daysInMonth. change (isLeap 1) with false.
  destruct (m =? 2); [destruct (isLeap y); lia|].
  destruct (_ || _); lia.
Qed.

Lemma civil_cycle (doe : Z) :
  0 <= doe < 146097 →
  ∃ y m d,
    civil (doe - 719468) = (y, m, d)
    ∧ dayFromCivil y m d = doe - 719468
    ∧ 0 <= y <= 400 ∧ 1 <= m <= 12 ∧ 1 <= d <= daysInMonth y m.
Proof.
  intros Hdoe.
  unfold civil. cbv zeta.
  replace (doe - 719468 + 719468) with doe by lia.
  rewrite (Z.div_small doe 146097) by exact Hdoe.
  replace (doe - 0 * 146097) with doe by lia.
  remember ((doe - doe / 1460 + doe / 36524 - doe / 146096) / 365) as yoe eqn:Hyoe_def.
  pose proof (yearOfEra_numerator_mono 0 doe ltac:(lia) ltac:(lia)) as Hmin.
  pose proof (yearOfEra_numerator_mono doe 146096 ltac:(lia) ltac:(lia)) as Hmax.
  change (0 - 0 / 1460 + 0 / 36524 - 0 / 146096) with 0 in Hmin.
  change (146096 - 146096 / 1460 + 146096 / 36524 - 146096 / 146096)
    with 145999 in Hmax.
  assert (Hyoe : 0 <= yoe <= 399).
  { rewrite Hyoe_def. split; [apply Z.div_pos; lia|].
    change 399 with (145999 / 365). apply Z.div_le_mono; lia. }
  destruct (year_starts yoe ltac:(lia)) as (Hfirst & Hlast & Hlen).
  set (start := 365 * yoe + yoe / 4 - yoe / 100) in *.
  set (next := 365 * (yoe + 1) + (yoe + 1) / 4 - (yoe + 1) / 100 + (yoe + 1) / 400) in *.
  assert (Hstart : 0 <= start <= 146096 ∧ start < next <= 146097).
  { split; [subst start; clear - Hyoe; lia|].
    split; [destruct (isLeap (yoe + 1)); lia|].
    subst next. clear - Hyoe. lia. }
  assert (Hlo : start <= doe).
  { destruct (Z.le_gt_cases start doe) as [Hle|Hgt]; [exact Hle|]. exfalso.
    assert (Hpos : 1 <= yoe).
    { destruct (Z.eq_dec yoe 0) as [Hz|]; [|lia].
      subst start. rewrite Hz in Hgt. change (365 * 0 + 0 / 4 - 0 / 100) with 0 in Hgt.
      lia. }
    destruct (year_starts (yoe - 1) ltac:(lia)) as (_ & Hprev & _).
    replace (yoe - 1 + 1) with yoe in Hprev by lia.
    rewrite (Z.div_small yoe 400), Z.add_0_r in Hprev by lia.
    fold start in Hprev.
    pose proof (yearOfEra_numerator_mono doe (start - 1) ltac:(lia) ltac:(lia)) as Hmono.
    apply (Z.div_le_mono _ _ 365 ltac:(lia)) in Hmono.
    rewrite <- Hyoe_def in Hmono. lia. }
  assert (Hhi : doe < next).
  { destruct (Z.lt_ge_cases doe next) as [Hlt|Hge]; [exact Hlt|]. exfalso.
    assert (Hnotlast : yoe + 1 < 400) by lia.
    destruct (year_starts (yoe + 1) ltac:(lia)) as (Hnext & _ & _).
    assert (Hsame : 365 * (yoe + 1) + (yoe + 1) / 4 - (yoe + 1) / 100 = next).
    { subst next. rewrite (Z.div_small (yoe + 1) 400) by lia. lia. }
    rewrite Hsame in Hnext.
    pose proof (yearOfEra_numerator_mono next doe ltac:(lia) ltac:(lia)) as Hmono.
    apply (Z.div_le_mono _ _ 365 ltac:(lia)) in Hmono.
    rewrite <- Hyoe_def in Hmono. lia. }
  set (doy := doe - start).
  assert (Hdoy : 0 <= doy < 366).
  { subst doy. destruct (isLeap (yoe + 1)); lia. }
  destruct (day_of_year doy Hdoy) as (Hm & Hd & Hback & Hcommon & Hleapday).
  cbv zeta in Hm, Hd, Hback, Hcommon, Hleapday.
  set (mp := (5 * doy + 2) / 153) in *.
  set (d := doy - (153 * mp + 2) / 5 + 1) in *.
  set (m := if mp <? 10 then mp + 3 else mp - 9) in *.
  eexists _, m, d. split; [reflexivity|].
  rewrite Z.mul_0_l, Z.add_0_r.
  assert (Hcarry : (if m <=? 2 then yoe + (if m <=? 2 then 1 else 0) - 1
                    else yoe + (if m <=? 2 then 1 else 0)) = yoe).
  { destruct (m <=? 2); lia. }
  split; [|split; [|split; [exact Hm|split; [exact Hd|]]]].
  - unfold dayFromCivil. rewrite Hcarry.
    rewrite (Z.div_small yoe 400) by lia.
    rewrite Hback. subst doy start. lia.
  - destruct (m <=? 2); lia.
  - destruct (Z.eq_dec doy 365) as [Hlast_day|Hother].
    + destruct (Hleapday Hlast_day) as [Hfeb Hday].
      rewrite Hfeb, Hday. change (2 <=? 2) with true.
      assert (Hleap : isLeap (yoe + 1) = true).
      { destruct (isLeap (yoe + 1)); [reflexivity|]. subst doy. lia. }
      unfold daysInMonth. change (2 =? 2) with true. cbn iota.
      rewrite Hleap. lia.
    + etransitivity; [apply Hcommon; lia | apply daysInMonth_common].
Qed.

Lemma civil_era (day : Z) :
  let z := day + 719468 in
  civil day
  = let '(y, m, d) := civil (z mod 146097 - 719468) in
    (y + z / 146097 * 400, m, d).
Proof.
  cbv zeta. unfold civil. cbv zeta.
  set (z := day + 719468).
  pose proof (Z.mod_pos_bound z 146097 ltac:(lia)) as Hdoe.
  replace (z mod 146097 - 719468 + 719468) with (z mod 146097) by lia.
  rewrite (Z.div_small (z mod 146097) 146097) by exact Hdoe.
  replace (z mod 146097 - 0 * 146097) with (z mod 146097) by lia.
  replace (z - z / 146097 * 146097) with (z mod 146097)
    by (rewrite Z.mod_eq; lia).
  f_equal. f_equal. ring.
Qed.

Lemma dayFromCivil_era (y m d e : Z) :
  dayFromCivil (y + e * 400) m d = dayFromCivil y m d + e * 146097.
Proof.
  unfold dayFromCivil.
  destruct (2 <? m); destruct (m <=? 2).
  all: try replace (y + e * 400 - 1) with (y - 1 + e * 400) by lia.
  all: rewrite Z.div_add by lia.
  all: try replace (y - 1 + e * 400 - ((y - 1) / 400 + e) * 400)
         with (y - 1 - (y - 1) / 400 * 400) by ring.
  all: try replace (y + e * 400 - (y / 400 + e) * 400)
         with (y - y / 400 * 400) by ring.
  all: ring.
Qed.

Lemma daysInMonth_era (y m e : Z) :
  daysInMonth (y + e * 400) m = daysInMonth y m.
Proof.
  unfold daysInMonth, isLeap.
  replace (e * 400) with (e * 100 * 4) at 1 by lia.
  replace (e * 400) with (e * 4 * 100) at 1 by lia.
  now rewrite !Z_mod_plus_full.
Qed.

Lemma civil_roundtrip (day : Z) :
  ∃ y m d,
    civil day = (y, m, d)
    ∧ dayFromCivil y m d = day
    ∧ 1 <= m <= 12 ∧ 1 <= d <= daysInMonth y m
    ∧ (day + 719468) / 146097 * 400 <= y <= (day + 719468) / 146097 * 400 + 400.
Proof.
  pose proof (civil_era day) as Hera. cbv zeta in Hera.
  set (z := day + 719468) in *.
  pose proof (Z.mod_pos_bound z 146097 ltac:(lia)) as Hdoe.
  destruct (civil_cycle (z mod 146097) Hdoe) as (y & m & d & Hc & Hday & Hy & Hm & Hd).
  rewrite Hc in Hera.
  exists (y + z / 146097 * 400), m, d.
  split; [exact Hera|]. split; [|split; [exact Hm|split]].
  - rewrite dayFromCivil_era, Hday.
    pose proof (Z.div_mod z 146097 ltac:(lia)). lia.
  - now rewrite daysInMonth_era.
  - lia.
Qed.

Lemma expect_head (c : ascii) (rest : string) :
  expect c (String c rest) = Some rest.
Proof. cbn [expect]. now rewrite Ascii.eqb_refl. Qed.

(** The constructor reads back what [toISOString] wrote. *)
Lemma parse_toISOString (t : Z) :
  - 8640000000000000 <= t <= 8640000000000000 →
  parse (toISOString t) = Some t.
Proof.
  intros Ht. unfold toISOString, msPerDay.
  pose proof (Z.div_mod t 86400000 ltac:(lia)) as Hdm.
  pose proof (Z.mod_pos_bound t 86400000 ltac:(lia)) as Hms.
  set (day := t / 86400000) in *. set (ms := t mod 86400000) in *.
  destruct (civil_roundtrip day) as (y & mo & d & Hcivil & Hday & Hmo & Hd & Hy).
  rewrite Hcivil.
  assert (Hyear : - 10 ^ 6 < y < 10 ^ 6).
  { assert (- 100000000 <= day <= 100000000) by lia.
    pose proof (Z.div_mod (day + 719468) 146097 ltac:(lia)).
    pose proof (Z.mod_pos_bound (day + 719468) 146097 ltac:(lia)).
    change (10 ^ 6) with 1000000. lia. }
  assert (Hdmax : daysInMonth y mo <= 31).
  { unfold daysInMonth. repeat (destruct (_ : bool)); lia. }
  pose proof (Z.div_mod ms 3600000 ltac:(lia)) as Hh.
  pose proof (Z.mod_pos_bound ms 3600000 ltac:(lia)) as Hh'.
  pose proof (Z.div_mod ms 60000 ltac:(lia)) as Hmi.
  pose proof (Z.mod_pos_bound ms 60000 ltac:(lia)) as Hmi'.
  pose proof (Z.div_mod (ms / 60000) 60 ltac:(lia)) as Hmi2.
  pose proof (Z.mod_pos_bound (ms / 60000) 60 ltac:(lia)) as Hmi2'.
  pose proof (Z.div_mod ms 1000 ltac:(lia)) as Hs.
  pose proof (Z.mod_pos_bound ms 1000 ltac:(lia)) as Hs'.
  pose proof (Z.div_mod (ms / 1000) 60 ltac:(lia)) as Hs2.
  pose proof (Z.mod_pos_bound (ms / 1000) 60 ltac:(lia)) as Hs2'.
  set (h := ms / 3600000) in *.
  set (mi := ms / 60000 mod 60) in *.
  set (sec := ms / 1000 mod 60) in *.
  set (msec := ms mod 1000) in *.
  assert (Hhour : 0 <= h <= 23) by lia.
  unfold parse.
  rewrite year_yearString by exact Hyear. cbn [mbind option_bind].
  rewrite append_cons, append_nil_l, expect_head. cbn [mbind option_bind].
  rewrite (digits_pad_all 2) by (change (10 ^ Z.of_nat 2) with 100; lia).
  cbn [mbind option_bind].
  rewrite append_cons, append_nil_l, expect_head. cbn [mbind option_bind].
  rewrite (digits_pad_all 2) by (change (10 ^ Z.of_nat 2) with 100; lia).
  cbn [mbind option_bind].
  rewrite append_cons, append_nil_l, expect_head. cbn [mbind option_bind].
  rewrite (digits_pad_all 2) by (change (10 ^ Z.of_nat 2) with 100; lia).
  cbn [mbind option_bind].
  rewrite append_cons, append_nil_l, expect_head. cbn [mbind option_bind].
  rewrite (digits_pad_all 2) by (change (10 ^ Z.of_nat 2) with 100; lia).
  cbn [mbind option_bind].
  rewrite append_cons, append_nil_l, expect_head. cbn [mbind option_bind].
  rewrite (digits_pad_all 2) by (change (10 ^ Z.of_nat 2) with 100; lia).
  cbn [mbind option_bind].
  rewrite append_cons, append_nil_l, expect_head. cbn [mbind option_bind].
  rewrite (digits_pad_all 3) by (change (10 ^ Z.of_nat 3) with 1000; lia).
  cbn [mbind option_bind].
  rewrite expect_head. cbn [mbind option_bind].
  change (String.eqb "" "") with true. cbn [andb].
  assert (Hvalid :
    (1 <=? mo) && (mo <=? 12) && (1 <=? d) && (d <=? daysInMonth y mo)
    && ((h <=? 23) || (h =? 24) && (mi =? 0) && (sec =? 0) && (msec =? 0))
    && (mi <=? 59) && (sec <=? 59) = true).
  { repeat (apply andb_true_intro; split); try (apply Z.leb_le; lia).
    apply orb_true_intro. left. apply Z.leb_le. lia. }
  rewrite Hvalid.
  enough (Heq : dayFromCivil y mo d * msPerDay
                + h * 3600000 + mi * 60000 + sec * 1000 + msec = t).
  { rewrite Heq. unfold timeClip, maxTime.
    destruct (Z.leb_spec (Z.abs t) 8640000000000000); [reflexivity | lia]. }
  assert (Hmin : ms / 60000 = h * 60 + mi).
  { subst h mi. 
    pose proof (Z.div_mod (ms / 60000) 60 ltac:(lia)).
    enough (ms / 60000 / 60 = ms / 3600000) by lia.
    rewrite Z.div_div by lia. reflexivity. }
  assert (Hsec : ms / 1000 = (ms / 60000) * 60 + sec).
  { subst sec.
    enough (ms / 1000 / 60 = ms / 60000) by lia.
    rewrite Z.div_div by lia. reflexivity. }
  unfold msPerDay. lia.
Qed.

End Dates.

(** ** [timeAgo] *)

Lemma sub_exact (a b : Z) :
  - 2 ^ 53 < a - b < 2 ^ 53 → Float64.sub a b = a - b.
Proof.
  intros Hrange. unfold Float64.sub.
  destruct (Z.ltb_spec (Z.abs (a - b)) (2 ^ 53)); [reflexivity | lia].
Qed.

(** The constructor reads back what [toISOString] wrote, on every host. *)
Lemma construct_toISOString `{JSDate.Host} (t : Z) :
  - JSDate.maxTime <= t <= JSDate.maxTime →
  JSDate.construct (JSDate.toISOString t) = Some t.
Proof.
  intros Ht. unfold JSDate.construct.
  now rewrite parse_toISOString by exact Ht.
Qed.

(** The tiers, for a timestamp that the constructor reads as [time]. *)
Lemma timeAgo_of_time `{JSDate.Host} (now : Z) (timestamp : string) (time : Z) :
  JSDate.construct timestamp = Some time →
  - 2 ^ 53 < now - time < 2 ^ 53 →
  timeAgo now timestamp = spec_timeAgo ((now - time) / 60000).
Proof.
  intros Hread Hrange. unfold timeAgo, spec_timeAgo. rewrite Hread.
  change (1000 * 60) with 60000.
  rewrite sub_exact, floor_div by lia.
  pose proof (Z.div_mod (now - time) 60000 ltac:(lia)) as Hdm.
  pose proof (Z.mod_pos_bound (now - time) 60000 ltac:(lia)) as Hr.
  set (m := (now - time) / 60000) in *.
  assert (Hm : - 2 ^ 53 < m < 2 ^ 53) by lia.
  rewrite !floor_div by lia.
  destruct (Z.ltb_spec m 1) as [|Hone]; [reflexivity|].
  pose proof (Z.div_pos m 60 ltac:(lia) ltac:(lia)).
  pose proof (Z.div_pos m 1440 ltac:(lia) ltac:(lia)).
  unfold spec_decimal. rewrite <- !ofInteger_nonneg by lia. reflexivity.
Qed.

(** C8: for the timestamp of an instant [time] (the string that
    [toISOString] writes for it, which is what a Feedback stores),
    [timeAgo] evaluated at [now] takes m = floor((now - time) / 60000),
    the elapsed whole minutes, and returns "Just now" when m < 1,
    "{m}m ago" when m < 60, "{h}h ago" with h = floor(m / 60) when
    m < 1440, and "{d}d ago" with d = floor(m / 1440) otherwise; 90
    seconds after the instant it returns "1m ago", 30 seconds after it
    "Just now".  This holds on every host; the two instants are less
    than 2^53 ms apart. *)
Theorem timeAgo_tiers `{JSDate.Host} (time now : Z) :
  - JSDate.maxTime <= time <= JSDate.maxTime →
  - 2 ^ 53 < now - time < 2 ^ 53 →
  let timestamp := JSDate.toISOString time in
  let m := (now - time) / 60000 in
  timeAgo now timestamp
  = (if m <? 1 then "Just now"
     else if m <? 60 then spec_decimal m ++ "m ago"
     else if m <? 1440 then spec_decimal (m / 60) ++ "h ago"
     else spec_decimal (m / 1440) ++ "d ago")
  ∧ timeAgo (time + 90000) timestamp = "1m ago"
  ∧ timeAgo (time + 30000) timestamp = "Just now".
Proof.
  intros Hvalid Hrange timestamp m.
  pose proof (construct_toISOString time Hvalid) as Hread. fold timestamp in Hread.
  split; [|split].
  - now apply timeAgo_of_time.
  - rewrite (timeAgo_of_time _ _ time Hread) by lia.
    replace (time + 90000 - time) with 90000 by lia. reflexivity.
  - rewrite (timeAgo_of_time _ _ time Hread) by lia.
    replace (time + 30000 - time) with 30000 by lia. reflexivity.
Qed.

Lemma timeAgo_tiers_witness :
  JSDate.toISOString 1700000000000 = "2023-11-14T22:13:20.000Z"
  ∧ timeAgo (H := JSDate.strictHost) (1700000000000 + 5 * 3600000)
      "2023-11-14T22:13:20.000Z" = "5h ago"
  ∧ timeAgo (H := JSDate.strictHost) (1700000000000 + 90000)
      "2023-11-14T22:13:20.000Z" = "1m ago"
  ∧ timeAgo (H := JSDate.strictHost) (1700000000000 + 30000)
      "2023-11-14T22:13:20.000Z" = "Just now".
Proof.
  split; [vm_compute; reflexivity|].
  destruct (timeAgo_tiers (H := JSDate.strictHost)
              1700000000000 (1700000000000 + 5 * 3600000)
              ltac:(vm_compute; split; discriminate)
              ltac:(vm_compute; split; reflexivity))
    as (Htiers & Hninety & Hthirty).
  change (JSDate.toISOString 1700000000000)
    with "2023-11-14T22:13:20.000Z" in Htiers, Hninety, Hthirty.
  split; [exact Htiers | split; [exact Hninety | exact Hthirty]].
Defined.

(** ** What the record holds in a reachable state *)

Lemma handle_anonymousId (e : Event) (s : State) :
  anonymousId (handle e s) = anonymousId s.
Proof.
  destruct e; simpl; try reflexivity.
  - unfold handleStatsCardClick.
    repeat (destruct (String.eqb cardType _)); reflexivity.
  - destruct (submitFeedback_cases date_now new_date s)
      as [[message Heq] | (teacher & Hsel & Htext & Hnz)].
    + now rewrite Heq.
    + now rewrite (submitFeedback_accepted _ _ _ teacher Hsel Htext Hnz).
Qed.

(** Every stored Feedback has a rating in 1..10, a comment that is not
    empty, and the pseudonym of the session. *)
Lemma reachable_feedback_wellformed `{Locale} (s : State) :
  reachable s →
  ∀ teacherId fb,
    fb ∈ feedbacksOf (feedbackData s) teacherId →
    1 <= Feedback.rating fb <= 10
    ∧ Feedback.comment fb ≠ ""
    ∧ Feedback.anonymousId fb = anonymousId s.
Proof.
  induction 1 as [randomId Hid | s e Hreach IH Hen]; intros teacherId fb.
  - unfold mounted. rewrite filteredAndSortedTeachers_state. simpl.
    unfold feedbacksOf. rewrite lookup_empty. simpl. intros Hin.
    now apply elem_of_nil in Hin.
  - rewrite step_state. simpl. rewrite handle_anonymousId.
    pose proof (reachable_feedbackRating_range s Hreach) as Hrange.
    destruct e; simpl; try apply IH.
    + rewrite (proj2 (proj2 (handleStatsCardClick_frame _ _))). apply IH.
    + destruct (submitFeedback_cases date_now new_date s)
        as [[message Heq] | (teacher & Hsel & Htext & Hnz)].
      * rewrite Heq. apply IH.
      * rewrite (submitFeedback_accepted _ _ _ teacher Hsel Htext Hnz). simpl.
        destruct (decide (Teacher.id teacher = teacherId)) as [->|Hne].
        -- rewrite feedbacksOf_insert_eq. intros Hin.
           apply elem_of_app in Hin as [Hold|Hnew]; [exact (IH _ _ Hold)|].
           apply list_elem_of_singleton in Hnew as ->. simpl.
           repeat split; try lia; assumption.
        -- rewrite feedbacksOf_insert_ne by exact Hne. apply IH.
Qed.

(** In a reachable state the average of a teacher with feedback is the
    numeral of a nearest number of tenths, as long as the entries are
    fewer than 2^45. *)
Lemma reachable_average `{Locale} (s : State) (teacherId : Z) :
  reachable s →
  let fbs := feedbacksOf (feedbackData s) teacherId in
  let count := Z.of_nat (List.length fbs) in
  fbs ≠ [] → count < 2 ^ 45 →
  ∃ n, calculateAverageRating s teacherId = Float64.fixed1_digits n
       ∧ 10 <= n <= 100
       ∧ 2 * Z.abs (10 * sumRatings fbs - n * count) <= count.
Proof.
  intros Hreach fbs count Hne Hcount.
  pose proof (reachable_feedback_wellformed s Hreach teacherId) as Hwf.
  fold fbs in Hwf.
  assert (Hsum : count <= sumRatings fbs <= 10 * count).
  { subst count. clear Hne Hcount.
    induction fbs as [|fb fbs' IH]; [simpl; unfold sumRatings; simpl; lia|].
    rewrite sumRatings_cons. cbn [List.length]. rewrite Nat2Z.inj_succ.
    destruct (Hwf fb ltac:(left)) as (Hr & _).
    assert (Z.of_nat (List.length fbs') <= sumRatings fbs'
            <= 10 * Z.of_nat (List.length fbs')).
    { apply IH. intros fb' Hin. apply Hwf. now right. }
    lia. }
  destruct (calculateAverageRating_nearest s teacherId Hne) as (n & Heq & Hn & Hnear).
  - intros fb Hin. destruct (Hwf fb Hin) as (Hr & _). lia.
  - fold fbs. change (2 ^ 52) with (128 * 2 ^ 45). lia.
  - exists n. fold fbs count in Hnear. split; [exact Heq|]. split; [|exact Hnear].
    assert (0 < count).
    { subst count. destruct fbs; [congruence | simpl; lia]. }
    nia.
Qed.


(** * Further properties of the component *)

(** ** The roster view: who is in it *)

Lemma view_elem `{Locale} (s : State) (teacher : Teacher.t) :
  teacher ∈ fst (filteredAndSortedTeachers s)
  ↔ teacher ∈ spec_search s (spec_departmentFilter s (teachers s)).
Proof.
  rewrite filteredAndSortedTeachers_value.
  now rewrite <- (sort_perm (compareTeachers s)).
Qed.

Lemma spec_search_elem (s : State) (l : list Teacher.t) (teacher : Teacher.t) :
  teacher ∈ spec_search s l
  ↔ teacher ∈ l
    ∧ (JSString.trim (searchQuery s) = ""
       ∨ matchesSearch (searchQuery s) teacher = true).
Proof.
  unfold spec_search.
  destruct (JSString.truthy (JSString.trim (searchQuery s))) eqn:Htruthy.
  - apply truthy_true_iff in Htruthy.
    rewrite !list_elem_of_In, List.filter_In. tauto.
  - assert (JSString.trim (searchQuery s) = "") as ->.
    { destruct (JSString.trim (searchQuery s)); [reflexivity | discriminate]. }
    tauto.
Qed.

Lemma spec_departmentFilter_elem (s : State) (l : list Teacher.t) (teacher : Teacher.t) :
  teacher ∈ spec_departmentFilter s l
  ↔ teacher ∈ l
    ∧ (filterDepartment s = "all"
       ∨ Teacher.department teacher = filterDepartment s).
Proof.
  unfold spec_departmentFilter.
  destruct (String.eqb_spec (filterDepartment s) "all") as [Hall|Hdept].
  - tauto.
  - rewrite !list_elem_of_In, List.filter_In, bool_decide_eq_true. tauto.
Qed.

Lemma spec_search_length (s : State) (l : list Teacher.t) :
  (List.length (spec_search s l) <= List.length l)%nat.
Proof.
  unfold spec_search. destruct (JSString.truthy _); [apply List.filter_length_le | lia].
Qed.

Lemma spec_departmentFilter_length (s : State) (l : list Teacher.t) :
  (List.length (spec_departmentFilter s l) <= List.length l)%nat.
Proof.
  unfold spec_departmentFilter.
  destruct (String.eqb _ _); [lia | apply List.filter_length_le].
Qed.

(** X1: a teacher is on a roster card exactly when the teacher is in
    the roster array, passes the department filter (always, for
    ["all"]) and, for a search text that is not blank, has the text,
    case ignored, in the name, the department or the subject; so the
    cards are never more than the roster ("Showing n of m"). *)
Theorem roster_view_members `{Locale} (s : State) :
  (∀ teacher : Teacher.t,
     teacher ∈ fst (filteredAndSortedTeachers s)
     ↔ teacher ∈ teachers s
       ∧ (filterDepartment s = "all"
          ∨ Teacher.department teacher = filterDepartment s)
       ∧ (JSString.trim (searchQuery s) = ""
          ∨ caseInsensitiveSubstring (searchQuery s) (Teacher.name teacher)
          ∨ caseInsensitiveSubstring (searchQuery s) (Teacher.department teacher)
          ∨ caseInsensitiveSubstring (searchQuery s) (Teacher.subject teacher)))
  ∧ (List.length (fst (filteredAndSortedTeachers s))
     <= List.length (teachers s))%nat.
Proof.
  split.
  - intros teacher.
    rewrite view_elem, spec_search_elem, spec_departmentFilter_elem,
      matchesSearch_spec. tauto.
  - rewrite filteredAndSortedTeachers_value.
    rewrite <- (Permutation_length (sort_perm (compareTeachers s) _)).
    etransitivity; [apply spec_search_length | apply spec_departmentFilter_length].
Qed.

(** ** The roster view: its order *)

(** X2: over the current contents of the roster array, the cards are
    the teachers kept by the two filters, each once per occurrence, in
    the order of the sort key - for "rating" the higher average first,
    for "feedbacks" the higher count first, otherwise by name under the
    collation - and teachers with equal keys in the order of the
    array. *)
Theorem roster_view_order `{LocaleLaws} (s : State) :
  spec_filteredAndSortedRoster (teachers s) s (fst (filteredAndSortedTeachers s))
  ∧ (∀ a b : Teacher.t,
       spec_precedes s a b = true ↔
       if String.eqb (sortBy s) "rating"
       then averageTenths s (Teacher.id b) <= averageTenths s (Teacher.id a)
       else if String.eqb (sortBy s) "feedbacks"
       then getFeedbackCount s (Teacher.id b) <= getFeedbackCount s (Teacher.id a)
       else localeCompare (Teacher.name a) (Teacher.name b) <= 0)
  ∧ (∀ teacherId : Z,
       Number_tenths (calculateAverageRating s teacherId)
       = Some (averageTenths s teacherId)).
Proof.
  split; [apply filteredAndSortedTeachers_spec|]. split.
  - intros a b. unfold spec_precedes.
    destruct (String.eqb (sortBy s) "rating"); [apply Z.leb_le|].
    destruct (String.eqb (sortBy s) "feedbacks"); apply Z.leb_le.
  - apply Number_calculateAverageRating.
Qed.

Lemma roster_view_order_witness :
  spec_filteredAndSortedRoster (H := codeUnitLocale)
    (teachers afterReviewsCard) afterReviewsCard
    (fst (filteredAndSortedTeachers (H := codeUnitLocale) afterReviewsCard)).
Proof.
  apply (proj1 (roster_view_order (H0 := codeUnitLocale_laws) afterReviewsCard)).
Defined.

(** ** The memo and the roster array *)

Lemma compareTeachers_setTeachers `{Locale} (l : list Teacher.t) (s : State) :
  compareTeachers (setTeachers l s) = compareTeachers s.
Proof. reflexivity. Qed.

Lemma handle_teachers (e : Event) (s : State) :
  teachers (handle e s) = teachers s.
Proof.
  destruct e; simpl; try reflexivity.
  - unfold handleStatsCardClick.
    repeat (destruct (String.eqb cardType _)); reflexivity.
  - destruct (submitFeedback_cases date_now new_date s)
      as [[message Heq] | (teacher & Hsel & Htext & Hnz)].
    + now rewrite Heq.
    + now rewrite (submitFeedback_accepted _ _ _ teacher Hsel Htext Hnz).
Qed.

Lemma filteredAndSortedTeachers_teachers `{Locale} (s : State) :
  teachers (snd (filteredAndSortedTeachers s))
  = if filteredIsCopy s then teachers s
    else sort (compareTeachers s) (teachers s).
Proof.
  unfold filteredAndSortedTeachers. cbn [snd]. unfold filteredIsCopy.
  destruct (negb (String.eqb (filterDepartment s) "all")); [reflexivity|].
  destruct (JSString.truthy (JSString.trim (searchQuery s))); reflexivity.
Qed.

Lemma filteredAndSortedTeachers_perm `{Locale} (s : State) :
  Permutation (teachers s) (teachers (snd (filteredAndSortedTeachers s))).
Proof.
  rewrite filteredAndSortedTeachers_teachers.
  destruct (filteredIsCopy s); [reflexivity | apply sort_perm].
Qed.

Lemma step_teachers_perm `{Locale} (s : State) (e : Event) :
  Permutation (teachers s) (teachers (step s e)).
Proof.
  unfold step, render. case_bool_decide.
  - now rewrite handle_teachers.
  - rewrite <- filteredAndSortedTeachers_perm. now rewrite handle_teachers.
Qed.

(** X3: computing the memo a second time changes nothing: the value
    is the same and the roster array, once in the order of the sort,
    stays as it is. *)
Theorem filteredAndSortedTeachers_again `{LocaleLaws} (s : State) :
  let s1 := snd (filteredAndSortedTeachers s) in
  fst (filteredAndSortedTeachers s1) = fst (filteredAndSortedTeachers s)
  ∧ snd (filteredAndSortedTeachers s1) = s1.
Proof.
  cbv zeta.
  assert (Hsorted : ∀ l, sort (compareTeachers s) (sort (compareTeachers s) l)
                         = sort (compareTeachers s) l).
  { intros l. apply sort_sorted_id, sort_sorted.
    - apply compareTeachers_trans.
    - apply compareTeachers_total. }
  unfold filteredAndSortedTeachers. cbn [fst snd].
  unfold filteredIsCopy.
  destruct (negb (String.eqb (filterDepartment s) "all")) eqn:Hdept; cbn [orb].
  - rewrite Hdept. cbn [orb]. split; reflexivity.
  - destruct (JSString.truthy (JSString.trim (searchQuery s))) eqn:Hquery.
    + rewrite Hdept, Hquery. split; reflexivity.
    + cbn [filterDepartment searchQuery setTeachers teachers].
      rewrite Hdept, Hquery. cbn [orb].
      rewrite compareTeachers_setTeachers, Hsorted.
      split; [reflexivity|].
      unfold setTeachers. cbn. reflexivity.
Qed.

Lemma filteredAndSortedTeachers_again_witness :
  fst (filteredAndSortedTeachers (H := codeUnitLocale)
         (snd (filteredAndSortedTeachers (H := codeUnitLocale) initialState)))
  = fst (filteredAndSortedTeachers (H := codeUnitLocale) initialState).
Proof.
  apply (proj1 (filteredAndSortedTeachers_again (H0 := codeUnitLocale_laws)
                  initialState)).
Defined.

(** X4: an event that leaves the two filters, the sort key, the search
    text and the feedback record as they are - typing a comment,
    choosing a rating, opening a teacher, going back - changes neither
    the roster array nor the cards computed from it. *)
Theorem step_keeps_view `{Locale} (s : State) (e : Event) :
  memoDeps (handle e s) = memoDeps s →
  teachers (step s e) = teachers s
  ∧ fst (filteredAndSortedTeachers (step s e))
    = fst (filteredAndSortedTeachers s).
Proof.
  intros Hdeps. unfold step, render.
  rewrite bool_decide_eq_true_2 by exact Hdeps.
  pose proof (handle_teachers e s) as Hteachers.
  split; [exact Hteachers|].
  unfold memoDeps in Hdeps. injection Hdeps as Hdept Hsort Hquery Hdata.
  unfold filteredAndSortedTeachers. cbn [fst].
  rewrite Hteachers, Hdept, Hquery.
  f_equal. unfold compareTeachers, calculateAverageRating, getFeedbackCount.
  now rewrite Hsort, Hdata.
Qed.

Lemma step_keeps_view_witness :
  fst (filteredAndSortedTeachers (H := codeUnitLocale)
         (step (H := codeUnitLocale) afterReviewsCard (SelectTeacher rajeshKumar)))
  = fst (filteredAndSortedTeachers (H := codeUnitLocale) afterReviewsCard).
Proof.
  apply (proj2 (step_keeps_view (H := codeUnitLocale) afterReviewsCard
                  (SelectTeacher rajeshKumar) eq_refl)).
Defined.

(** ** What stays true of the roster, the selection and the record *)

Lemma handle_selectedTeacher (e : Event) (s : State) :
  selectedTeacher (handle e s) = selectedTeacher s
  ∨ ∃ teacher, e = SelectTeacher teacher
               ∧ selectedTeacher (handle e s) = Some teacher.
Proof.
  destruct e; simpl; try (left; reflexivity).
  - left. apply handleStatsCardClick_frame.
  - right. eauto.
  - left. destruct (submitFeedback_cases date_now new_date s)
      as [[message Heq] | (teacher & Hsel & Htext & Hnz)].
    + now rewrite Heq.
    + now rewrite (submitFeedback_accepted _ _ _ teacher Hsel Htext Hnz).
Qed.

Lemma handle_feedbackData_keys (e : Event) (s : State) (teacherId : Z) :
  is_Some (feedbackData (handle e s) !! teacherId) →
  is_Some (feedbackData s !! teacherId)
  ∨ ∃ teacher, selectedTeacher s = Some teacher ∧ Teacher.id teacher = teacherId.
Proof.
  destruct e; simpl; try (left; assumption).
  - rewrite (proj2 (proj2 (handleStatsCardClick_frame _ _))). now left.
  - destruct (submitFeedback_cases date_now new_date s)
      as [[message Heq] | (teacher & Hsel & Htext & Hnz)].
    + rewrite Heq. now left.
    + rewrite (submitFeedback_accepted _ _ _ teacher Hsel Htext Hnz). simpl.
      destruct (decide (Teacher.id teacher = teacherId)) as [Heq|Hne].
      * right. eauto.
      * rewrite lookup_insert_ne by exact Hne. now left.
Qed.

Lemma reachable_roster `{Locale} (s : State) :
  reachable s →
  Permutation sampleTeachers (teachers s)
  ∧ (∀ teacher, selectedTeacher s = Some teacher → teacher ∈ sampleTeachers)
  ∧ (∀ teacherId, is_Some (feedbackData s !! teacherId) →
       ∃ teacher, teacher ∈ sampleTeachers ∧ Teacher.id teacher = teacherId).
Proof.
  induction 1 as [randomId Hid | s e Hreach (Hperm & Hsel & Hkeys) Hen].
  - unfold mounted, setAnonymousId. cbn [teachers selectedTeacher feedbackData].
    split; [apply (filteredAndSortedTeachers_perm initialState)|].
    rewrite filteredAndSortedTeachers_state.
    cbn [setTeachers selectedTeacher feedbackData initialState].
    split; [discriminate|].
    intros teacherId [fbs Hfbs]. rewrite lookup_empty in Hfbs. discriminate.
  - split; [|split].
    + rewrite Hperm. apply step_teachers_perm.
    + rewrite step_state. simpl. intros teacher Hteacher.
      destruct (handle_selectedTeacher e s) as [Hsame | (t & -> & Hnew)].
      * apply Hsel. congruence.
      * rewrite Hnew in Hteacher. injection Hteacher as <-.
        simpl in Hen. apply andb_prop in Hen as [_ Hin].
        apply bool_decide_eq_true in Hin.
        apply view_elem, spec_search_elem in Hin as [Hin _].
        apply spec_departmentFilter_elem in Hin as [Hin _].
        now rewrite Hperm.
    + rewrite step_state. simpl. intros teacherId Hsome.
      destruct (handle_feedbackData_keys e s teacherId Hsome)
        as [Hold | (teacher & Hteacher & Hid)].
      * now apply Hkeys.
      * exists teacher. split; [now apply Hsel | exact Hid].
Qed.

(** X5: the in-place sort only reorders: in every reachable state the
    roster array holds the six teachers of the sample, each once; the
    selected teacher, if any, is one of them; and the feedback record
    has entries only under their ids. *)
Theorem reachable_roster_invariant `{Locale} (s : State) :
  reachable s →
  Permutation sampleTeachers (teachers s)
  ∧ List.length (teachers s) = 6%nat
  ∧ NoDup (map Teacher.id (teachers s))
  ∧ (∀ teacher, selectedTeacher s = Some teacher → teacher ∈ teachers s)
  ∧ (∀ teacherId, is_Some (feedbackData s !! teacherId) →
       ∃ teacher, teacher ∈ teachers s ∧ Teacher.id teacher = teacherId).
Proof.
  intros Hreach. destruct (reachable_roster s Hreach) as (Hperm & Hsel & Hkeys).
  split; [exact Hperm|]. split; [|split; [|split]].
  - now rewrite <- Hperm.
  - rewrite <- Hperm. apply (bool_decide_unpack _). vm_compute. exact I.
  - intros teacher Hteacher. rewrite <- Hperm. now apply Hsel.
  - intros teacherId Hsome. destruct (Hkeys teacherId Hsome) as (t & Hin & Hid).
    exists t. split; [now rewrite <- Hperm | exact Hid].
Qed.

Lemma reachable_roster_invariant_witness :
  List.length (teachers afterReviewsCard) = 6%nat.
Proof.
  apply (reachable_roster_invariant (H := codeUnitLocale) afterReviewsCard
           afterReviewsCard_reachable).
Defined.

(** ** Counting feedback *)

Lemma totalFeedbackCount_delete (s : State) (teacherId : Z) :
  totalFeedbackCount s
  = totalFeedbackCount (setFeedbackData (delete teacherId) s)
    + getFeedbackCount s teacherId.
Proof.
  unfold totalFeedbackCount, getFeedbackCount, feedbacksOf. cbn [setFeedbackData feedbackData].
  destruct (feedbackData s !! teacherId) as [feedbacks|] eqn:Hlookup.
  - rewrite (map_fold_delete_L _ _ teacherId feedbacks (feedbackData s));
      [reflexivity | intros; lia | exact Hlookup].
  - rewrite delete_id by exact Hlookup. cbn. lia.
Qed.

Lemma totalFeedbackCount_insert (s : State) (teacherId : Z) (feedbacks : list Feedback.t) :
  totalFeedbackCount (setFeedbackData (λ prev, <[teacherId := feedbacks]> prev) s)
  = totalFeedbackCount s - getFeedbackCount s teacherId
    + Z.of_nat (List.length feedbacks).
Proof.
  rewrite (totalFeedbackCount_delete s teacherId).
  unfold totalFeedbackCount. cbn [setFeedbackData feedbackData].
  rewrite <- (insert_delete_eq (feedbackData s)).
  rewrite map_fold_insert_L;
    [lia | intros; lia | apply lookup_delete_eq].
Qed.

Lemma getFeedbackCount_nonneg (s : State) (teacherId : Z) :
  0 <= getFeedbackCount s teacherId.
Proof. unfold getFeedbackCount. lia. Qed.

(** X6: a submission that is accepted raises the review count of the
    selected teacher by one, leaves every other teacher's count alone
    and raises the total by one; a submission that is rejected changes
    no count. *)
Theorem counts_after_submitFeedback (date_now new_date : Z) (s : State) :
  let s' := snd (submitFeedback date_now new_date s) in
  (∀ teacher, selectedTeacher s = Some teacher →
     JSString.trim (feedbackText s) ≠ "" → feedbackRating s ≠ 0 →
     getFeedbackCount s' (Teacher.id teacher)
     = getFeedbackCount s (Teacher.id teacher) + 1
     ∧ (∀ teacherId, teacherId ≠ Teacher.id teacher →
          getFeedbackCount s' teacherId = getFeedbackCount s teacherId)
     ∧ totalFeedbackCount s' = totalFeedbackCount s + 1)
  ∧ (fst (submitFeedback date_now new_date s) ≠ None →
     (∀ teacherId, getFeedbackCount s' teacherId = getFeedbackCount s teacherId)
     ∧ totalFeedbackCount s' = totalFeedbackCount s).
Proof.
  cbv zeta. split.
  - intros teacher Hsel Htext Hnz.
    rewrite (submitFeedback_accepted _ _ _ teacher Hsel Htext Hnz). cbn [snd].
    split; [|split].
    + unfold getFeedbackCount. cbn [feedbackData].
      rewrite feedbacksOf_insert_eq, List.length_app. cbn. lia.
    + intros teacherId Hne. unfold getFeedbackCount. cbn [feedbackData].
      now rewrite feedbacksOf_insert_ne by congruence.
    + pose proof (totalFeedbackCount_insert s (Teacher.id teacher)
        (feedbacksOf (feedbackData s) (Teacher.id teacher)
           ++ [ {| Feedback.id := date_now;
                   Feedback.anonymousId := anonymousId s;
                   Feedback.comment := JSString.trim (feedbackText s);
                   Feedback.rating := feedbackRating s;
                   Feedback.timestamp := JSDate.toISOString new_date |} ])%list)
        as Htotal.
      unfold totalFeedbackCount in *. cbn [setFeedbackData feedbackData] in *.
      rewrite Htotal. unfold getFeedbackCount. rewrite List.length_app. cbn. lia.
  - intros Halert.
    destruct (submitFeedback_cases date_now new_date s)
      as [[message Heq] | (teacher & Hsel & Htext & Hnz)].
    + rewrite Heq. cbn [snd]. split; reflexivity.
    + rewrite (submitFeedback_accepted _ _ _ teacher Hsel Htext Hnz) in Halert.
      now contradict Halert.
Qed.

Lemma counts_after_submitFeedback_witness :
  let s := setFeedbackRating 9
             (setFeedbackText "Great class"
                (selectTeacher rajeshKumar initialState)) in
  totalFeedbackCount (snd (submitFeedback 5 6 s)) = totalFeedbackCount s + 1.
Proof.
  intros s.
  apply (proj1 (counts_after_submitFeedback 5 6 s) rajeshKumar).
  - reflexivity.
  - vm_compute. discriminate.
  - discriminate.
Defined.

Lemma sumFeedbackCounts_delete (s : State) (teacherId : Z) (roster : list Teacher.t) :
  teacherId ∉ map Teacher.id roster →
  sumFeedbackCounts (setFeedbackData (delete teacherId) s) roster
  = sumFeedbackCounts s roster.
Proof.
  induction roster as [|teacher roster IH]; intros Hnotin; [reflexivity|].
  cbn [sumFeedbackCounts fold_right map] in *.
  apply not_elem_of_cons in Hnotin as [Hne Hnotin].
  fold (sumFeedbackCounts (setFeedbackData (delete teacherId) s) roster).
  fold (sumFeedbackCounts s roster).
  rewrite IH by exact Hnotin. f_equal.
  unfold getFeedbackCount, feedbacksOf. cbn [setFeedbackData feedbackData].
  now rewrite lookup_delete_ne by congruence.
Qed.

Lemma totalFeedbackCount_roster (roster : list Teacher.t) :
  NoDup (map Teacher.id roster) →
  ∀ s : State,
    (∀ teacherId, is_Some (feedbackData s !! teacherId) →
                  teacherId ∈ map Teacher.id roster) →
    totalFeedbackCount s = sumFeedbackCounts s roster.
Proof.
  induction roster as [|teacher roster IH]; intros Hnodup s Hkeys.
  - unfold totalFeedbackCount. replace (feedbackData s) with (∅ : gmap Z (list Feedback.t)).
    + reflexivity.
    + symmetry. apply map_empty. intros k.
      destruct (feedbackData s !! k) eqn:Hk; [|reflexivity].
      exfalso. eapply not_elem_of_nil, (Hkeys k). eauto.
  - cbn [map] in Hnodup. apply NoDup_cons in Hnodup as [Hnotin Hnodup].
    rewrite (totalFeedbackCount_delete s (Teacher.id teacher)).
    rewrite (IH Hnodup (setFeedbackData (delete (Teacher.id teacher)) s)).
    + rewrite sumFeedbackCounts_delete by exact Hnotin.
      cbn [sumFeedbackCounts fold_right]. fold (sumFeedbackCounts s roster). lia.
    + intros k Hsome. cbn [setFeedbackData feedbackData] in Hsome.
      destruct (decide (k = Teacher.id teacher)) as [->|Hne].
      * rewrite lookup_delete_eq in Hsome. destruct Hsome as [? ?]. discriminate.
      * rewrite lookup_delete_ne in Hsome by congruence.
        specialize (Hkeys k Hsome). cbn [map] in Hkeys.
        apply elem_of_cons in Hkeys as [?|?]; [congruence | assumption].
Qed.

(** X7: in every reachable state the number on the "Live Reviews" card
    is the sum of the review counts written on the six roster cards; a
    teacher without an entry in the record counts 0, and just after
    mounting the total is 0. *)
Theorem totalFeedbackCount_is_sum `{Locale} (s : State) :
  (reachable s → totalFeedbackCount s = sumFeedbackCounts s (teachers s))
  ∧ (∀ teacherId, feedbackData s !! teacherId = None →
       getFeedbackCount s teacherId = 0)
  ∧ (∀ randomId, totalFeedbackCount (mounted randomId) = 0).
Proof.
  split; [|split].
  - intros Hreach.
    destruct (reachable_roster s Hreach) as (Hperm & _ & Hkeys).
    apply totalFeedbackCount_roster.
    + rewrite <- Hperm. apply (bool_decide_unpack _). vm_compute. exact I.
    + intros teacherId Hsome. destruct (Hkeys teacherId Hsome) as (t & Hin & <-).
      apply list_elem_of_fmap_2. now rewrite <- Hperm.
  - intros teacherId Hnone. unfold getFeedbackCount, feedbacksOf. now rewrite Hnone.
  - intros randomId. unfold mounted, setAnonymousId, totalFeedbackCount.
    cbn [feedbackData]. rewrite filteredAndSortedTeachers_state. reflexivity.
Qed.

Lemma totalFeedbackCount_is_sum_witness :
  totalFeedbackCount secondReviewReady
  = sumFeedbackCounts secondReviewReady (teachers secondReviewReady).
Proof.
  apply (proj1 (totalFeedbackCount_is_sum (H := codeUnitLocale) secondReviewReady)).
  exact secondReviewReady_reachable.
Defined.

(** ** [departments] *)

Lemma filter_twice {A : Type} (f g : A → bool) (l : list A) :
  List.filter f (List.filter g l) = List.filter (λ x, f x && g x) l.
Proof.
  induction l as [|x l IH]; [reflexivity|]. cbn [List.filter].
  destruct (g x); cbn [List.filter]; rewrite ?andb_true_r, ?andb_false_r.
  - destruct (f x); now rewrite IH.
  - exact IH.
Qed.

Lemma departments_fold (l : list string) (acc : list string) :
  fold_left (λ (acc : list string) d,
               if bool_decide (d ∈ acc) then acc else (acc ++ [d])%list) l acc
  = (acc ++ List.filter (λ d, negb (bool_decide (d ∈ acc)))
              (fold_left (λ (acc : list string) d,
                            if bool_decide (d ∈ acc) then acc else (acc ++ [d])%list)
                         l []))%list.
Proof.
  revert acc. induction l as [|x l IH]; intros acc.
  - cbn. now rewrite app_nil_r.
  - cbn [fold_left].
    assert (Hnil : bool_decide (x ∈ @nil string) = false)
      by apply bool_decide_eq_false_2, not_elem_of_nil.
    rewrite Hnil. rewrite app_nil_l.
    rewrite (IH [x]), (IH (if bool_decide (x ∈ acc) then acc else _)).
    set (rest := fold_left _ l []).
    change ([x] ++ List.filter (λ d, negb (bool_decide (d ∈ [x]))) rest)%list
      with (x :: List.filter (λ d, negb (bool_decide (d ∈ [x]))) rest).
    cbn [List.filter].
    destruct (decide (x ∈ acc)) as [Hin|Hnotin].
    + rewrite (bool_decide_eq_true_2 _ Hin). cbn [negb].
      f_equal. rewrite filter_twice. apply List.filter_ext. intros d.
      apply eq_true_iff_eq.
      rewrite andb_true_iff, !negb_true_iff, !bool_decide_eq_false,
        list_elem_of_singleton.
      split; [|tauto]. intros Hd. split; [exact Hd | congruence].
    + rewrite (bool_decide_eq_false_2 _ Hnotin). cbn [negb].
      rewrite <- app_assoc. f_equal. change ([x] ++ ?r)%list with (x :: r). f_equal.
      rewrite filter_twice. apply List.filter_ext. intros d.
      apply eq_true_iff_eq.
      rewrite andb_true_iff, !negb_true_iff, !bool_decide_eq_false,
        elem_of_app, list_elem_of_singleton.
      tauto.
Qed.

Lemma distinctDepartments_cons (teacher : Teacher.t) (roster : list Teacher.t) :
  distinctDepartments (teacher :: roster)
  = Teacher.department teacher
    :: List.filter (λ d, negb (bool_decide (d = Teacher.department teacher)))
         (distinctDepartments roster).
Proof.
  unfold distinctDepartments. cbn [map fold_left].
  rewrite bool_decide_eq_false_2 by apply not_elem_of_nil.
  rewrite departments_fold. cbn [app]. f_equal.
  apply List.filter_ext. intros d. f_equal.
  apply bool_decide_ext. apply list_elem_of_singleton.
Qed.

Lemma distinctDepartments_elem (roster : list Teacher.t) (d : string) :
  d ∈ distinctDepartments roster
  ↔ ∃ teacher, teacher ∈ roster ∧ Teacher.department teacher = d.
Proof.
  induction roster as [|teacher roster IH].
  - unfold distinctDepartments. cbn. split.
    + intros Hin. now apply elem_of_nil in Hin.
    + intros (t & Hin & _). now apply elem_of_nil in Hin.
  - rewrite distinctDepartments_cons, elem_of_cons, list_elem_of_In, List.filter_In,
      <- list_elem_of_In, IH, negb_true_iff, bool_decide_eq_false.
    split.
    + intros [->|((t & Hin & Hd) & _)].
      * exists teacher. split; [left|reflexivity].
      * exists t. split; [now right | exact Hd].
    + intros (t & Hin & Hd). apply elem_of_cons in Hin as [->|Hin].
      * now left.
      * destruct (decide (d = Teacher.department teacher)); [now left|].
        right. split; [eauto | assumption].
Qed.

Lemma distinctDepartments_NoDup (roster : list Teacher.t) :
  NoDup (distinctDepartments roster).
Proof.
  induction roster as [|teacher roster IH].
  - unfold distinctDepartments. cbn. constructor.
  - rewrite distinctDepartments_cons. constructor.
    + rewrite list_elem_of_In, List.filter_In, negb_true_iff, bool_decide_eq_false.
      tauto.
    + apply NoDup_ListNoDup, List.NoDup_filter, NoDup_ListNoDup, IH.
Qed.

(** X8: the list of departments names every department once, in the
    order of its first teacher: for every array, a name is listed
    exactly when some teacher has it, no name is listed twice, and the
    list starts with the department of the first teacher, followed by
    the departments of the rest without it.  The component's list, made
    once from the roster as initialised, has the five departments of
    the sample in roster order, and in every reachable state, however
    the array has been reordered since, it names exactly the
    departments of the teachers in the array. *)
Theorem departments_distinct `{Locale} (s : State) (roster : list Teacher.t) :
  NoDup (distinctDepartments roster)
  ∧ (∀ d : string,
       d ∈ distinctDepartments roster
       ↔ ∃ teacher, teacher ∈ roster ∧ Teacher.department teacher = d)
  ∧ (∀ teacher rest,
       roster = teacher :: rest →
       distinctDepartments roster
       = Teacher.department teacher
         :: List.filter (λ d, negb (bool_decide (d = Teacher.department teacher)))
              (distinctDepartments rest))
  ∧ departments
    = ["Computer Science"; "Mathematics"; "Physics"; "Chemistry"; "English"]
  ∧ (reachable s →
     ∀ d : string,
       d ∈ departments
       ↔ ∃ teacher, teacher ∈ teachers s ∧ Teacher.department teacher = d).
Proof.
  split; [apply distinctDepartments_NoDup|].
  split; [apply distinctDepartments_elem|].
  split; [intros teacher rest ->; apply distinctDepartments_cons|].
  split; [vm_compute; reflexivity|].
  intros Hreach d. destruct (reachable_roster s Hreach) as (Hperm & _).
  unfold departments. rewrite distinctDepartments_elem.
  cbn [teachers initialState].
  split; intros (t & Hin & Hd); exists t; (split; [|exact Hd]).
  - now rewrite <- Hperm.
  - now rewrite Hperm.
Qed.

Lemma departments_distinct_witness :
  ∃ teacher, teacher ∈ teachers afterReviewsCard
             ∧ Teacher.department teacher = "Physics".
Proof.
  apply (proj2 (proj2 (proj2 (proj2
           (departments_distinct (H := codeUnitLocale) afterReviewsCard []))))
           afterReviewsCard_reachable "Physics").
  apply (bool_decide_unpack _). vm_compute. exact I.
Defined.

(** ** Clearing the filters *)

(** X9: "Clear All" puts the two filters, the sort key, the search box
    and the card highlight back to their initial values, whatever they
    were; the chips and the button are no longer drawn, a second click
    would change nothing, and the cards are again the whole roster, in
    the order of the names.  The cross in the search box empties the
    search text only: the department filter and the sort key stay. *)
Theorem clearAllFilters_resets `{Locale} (s : State) :
  let s' := clearAllFilters s in
  (filterDepartment s', sortBy s', searchQuery s', showSearch s', activeStatsCard s')
  = (filterDepartment initialState, sortBy initialState, searchQuery initialState,
     showSearch initialState, activeStatsCard initialState)
  ∧ filtersShown s' = false
  ∧ clearAllFilters s' = s'
  ∧ fst (filteredAndSortedTeachers s')
    = sort (λ a b, localeCompare (Teacher.name a) (Teacher.name b)) (teachers s)
  ∧ Permutation (teachers s) (fst (filteredAndSortedTeachers s'))
  ∧ (filterDepartment (clearSearch s), sortBy (clearSearch s))
    = (filterDepartment s, sortBy s)
  ∧ (∀ teacher,
       teacher ∈ fst (filteredAndSortedTeachers (clearSearch s))
       ↔ teacher ∈ teachers s
         ∧ (filterDepartment s = "all"
            ∨ Teacher.department teacher = filterDepartment s)).
Proof.
  cbv zeta. split; [reflexivity|]. split; [reflexivity|].
  split; [reflexivity|]. split; [reflexivity|]. split.
  - change (fst (filteredAndSortedTeachers (clearAllFilters s)))
      with (sort (compareTeachers (clearAllFilters s)) (teachers s)).
    apply sort_perm.
  - split; [reflexivity|]. intros teacher.
    rewrite view_elem, spec_search_elem, spec_departmentFilter_elem.
    cbn [clearSearch searchQuery filterDepartment teachers setActiveStatsCard
         setShowSearch setSearchQuery].
    change (JSString.trim "") with "". tauto.
Qed.

(** ** The view router *)

Lemma step_currentView `{Locale} (s : State) (e : Event) :
  currentView (step s e) = currentView (handle e s).
Proof. now rewrite step_state. Qed.

Lemma viewIs_spec (v : View) (s : State) : viewIs v s = true ↔ renderView s = v.
Proof. unfold viewIs. destruct (renderView s), v; split; congruence. Qed.

Lemma renderView_step `{Locale} (s : State) (e : Event) :
  renderView (step s e) = renderView (handle e s).
Proof. unfold renderView. now rewrite step_currentView. Qed.

Lemma submitFeedback_view (date_now new_date : Z) (s : State) :
  renderView (snd (submitFeedback date_now new_date s)) = renderView s
  ∨ renderView (snd (submitFeedback date_now new_date s)) = SuccessView.
Proof.
  destruct (submitFeedback_cases date_now new_date s)
    as [[message Heq] | (teacher & Hsel & Htext & Hnz)].
  - left. now rewrite Heq.
  - right. now rewrite (submitFeedback_accepted _ _ _ teacher Hsel Htext Hnz).
Qed.

(** X10: the screens change only along four arrows.  From the home
    screen an event leads to the home screen or, by the click on a
    roster card, to the feedback screen; from the feedback screen it
    stays there, goes home by "Back to Faculty", or goes to the success
    screen by a submission; on the success screen the one control is
    "Submit More Reviews", which leads home. *)
Theorem view_router_arrows `{Locale} (s : State) (e : Event) :
  enabled s e = true →
  match renderView s with
  | HomeView =>
      renderView (step s e) = HomeView
      ∨ ∃ teacher, e = SelectTeacher teacher ∧ renderView (step s e) = FeedbackView
  | FeedbackView =>
      renderView (step s e) = FeedbackView
      ∨ (e = BackToFaculty ∧ renderView (step s e) = HomeView)
      ∨ ∃ date_now new_date,
          e = SubmitClick date_now new_date ∧ renderView (step s e) = SuccessView
  | SuccessView => e = SubmitMore ∧ renderView (step s e) = HomeView
  end.
Proof.
  intros Hen. rewrite renderView_step.
  destruct e; cbn [enabled] in Hen;
    repeat match type of Hen with
           | (_ && _) = true => apply andb_prop in Hen as [Hen _]
           end;
    apply viewIs_spec in Hen; rewrite Hen; cbn [handle].
  - left. unfold renderView in *.
    now rewrite (proj1 (handleStatsCardClick_frame cardType s)).
  - now left.
  - now left.
  - now left.
  - now left.
  - now left.
  - now left.
  - now left.
  - now left.
  - right. exists teacher. split; reflexivity.
  - right. left. split; reflexivity.
  - now left.
  - now left.
  - destruct (submitFeedback_view date_now new_date s) as [Hsame|Hsuccess].
    + left. congruence.
    + right. right. eauto.
  - split; reflexivity.
Qed.

Lemma view_router_arrows_witness :
  renderView (step (H := codeUnitLocale) (mounted (H := codeUnitLocale) 7)
                (SelectTeacher rajeshKumar)) = FeedbackView.
Proof.
  pose proof (view_router_arrows (H := codeUnitLocale)
                (mounted (H := codeUnitLocale) 7) (SelectTeacher rajeshKumar))
    as Harrow.
  destruct Harrow as [Hhome | (teacher & _ & Hfeedback)].
  - vm_compute. reflexivity.
  - vm_compute in Hhome. discriminate Hhome.
  - exact Hfeedback.
Defined.

(** ** The submit button and the guards of [submitFeedback] *)

Lemma reachable_feedback_teacher `{Locale} (s : State) :
  reachable s → currentView s = "feedback" → is_Some (selectedTeacher s).
Proof.
  induction 1 as [randomId Hid | s e Hreach IH Hen].
  - unfold mounted. rewrite filteredAndSortedTeachers_state. discriminate.
  - rewrite step_state. cbn [setTeachers currentView selectedTeacher].
    intros Hview.
    destruct (decide (currentView s = "feedback")) as [Hwas|Hnot].
    + apply handle_keeps_teacher, IH, Hwas.
    + destruct (handle_enters_feedback e s Hnot Hview) as (t & _ & Ht).
      rewrite Ht. eauto.
Qed.

(** X11: the alerts of [submitFeedback] cannot be reached from the
    screen: in every reachable state in which the "Submit Review"
    button is drawn and not disabled, the click stores the review and
    shows the success screen. *)
Theorem submit_button_never_alerts `{Locale}
    (s : State) (date_now new_date : Z) :
  reachable s →
  enabled s (SubmitClick date_now new_date) = true →
  fst (submitFeedback date_now new_date s) = None
  ∧ renderView (step s (SubmitClick date_now new_date)) = SuccessView
  ∧ totalFeedbackCount (step s (SubmitClick date_now new_date))
    = totalFeedbackCount s + 1.
Proof.
  intros Hreach Hen. cbn [enabled] in Hen.
  apply andb_prop in Hen as [Hview Hform].
  apply viewIs_spec in Hview.
  assert (Hcurrent : currentView s = "feedback").
  { unfold renderView in Hview.
    destruct (String.eqb_spec (currentView s) "feedback"); [assumption|].
    destruct (String.eqb (currentView s) "success"); discriminate. }
  destruct (reachable_feedback_teacher s Hreach Hcurrent) as [teacher Hsel].
  apply negb_true_iff, orb_false_elim in Hform as [Htext Hrating].
  apply negb_false_iff, truthy_true_iff in Htext.
  apply Z.eqb_neq in Hrating.
  pose proof (submitFeedback_accepted date_now new_date s teacher Hsel Htext Hrating)
    as Haccepted.
  split; [now rewrite Haccepted|]. split.
  - rewrite renderView_step. cbn [handle]. now rewrite Haccepted.
  - rewrite step_state. cbn [handle].
    unfold totalFeedbackCount at 1. cbn [setTeachers feedbackData].
    fold (totalFeedbackCount (snd (submitFeedback date_now new_date s))).
    rewrite Haccepted. cbn [snd].
    pose proof (totalFeedbackCount_insert s (Teacher.id teacher)
      (feedbacksOf (feedbackData s) (Teacher.id teacher)
         ++ [ {| Feedback.id := date_now;
                 Feedback.anonymousId := anonymousId s;
                 Feedback.comment := JSString.trim (feedbackText s);
                 Feedback.rating := feedbackRating s;
                 Feedback.timestamp := JSDate.toISOString new_date |} ])%list)
      as Htotal.
    unfold totalFeedbackCount in *. cbn [setFeedbackData feedbackData] in *.
    rewrite Htotal. unfold getFeedbackCount. rewrite List.length_app. cbn. lia.
Qed.

Lemma submit_button_never_alerts_witness :
  fst (submitFeedback 1700000000000 1700000000000 secondReviewReady) = None.
Proof.
  apply (submit_button_never_alerts (H := codeUnitLocale) secondReviewReady
           1700000000000 1700000000000 secondReviewReady_reachable).
  vm_compute. reflexivity.
Defined.

(** ** The list under "Live Reviews" *)

Lemma liveReviews_spec (s : State) :
  liveReviews s
  = match selectedTeacher s with
    | None => None
    | Some teacher =>
        match feedbacksOf (feedbackData s) (Teacher.id teacher) with
        | [] => None
        | feedbacks => Some (List.rev feedbacks)
        end
    end.
Proof.
  unfold liveReviews, feedbacksOf.
  destruct (selectedTeacher s) as [teacher|]; [|reflexivity].
  destruct (feedbackData s !! Teacher.id teacher) as [[|fb fbs]|]; reflexivity.
Qed.

Lemma liveReviews_submitted `{Locale}
    (date_now new_date : Z) (s s2 : State) (teacher : Teacher.t) :
  selectedTeacher s = Some teacher →
  JSString.trim (feedbackText s) ≠ "" →
  feedbackRating s ≠ 0 →
  selectedTeacher s2 = Some teacher →
  feedbackData s2 = feedbackData (step s (SubmitClick date_now new_date)) →
  liveReviews s2
  = Some ({| Feedback.id := date_now;
             Feedback.anonymousId := anonymousId s;
             Feedback.comment := JSString.trim (feedbackText s);
             Feedback.rating := feedbackRating s;
             Feedback.timestamp := JSDate.toISOString new_date |}
          :: List.rev (feedbacksOf (feedbackData s) (Teacher.id teacher))).
Proof.
  intros Hsel Htext Hnz Hsel2 Hdata2.
  rewrite liveReviews_spec, Hsel2, Hdata2, step_feedbackData. cbn [handle].
  rewrite (submitFeedback_accepted _ _ _ teacher Hsel Htext Hnz).
  cbn [snd feedbackData]. rewrite feedbacksOf_insert_eq.
  rewrite <- List.rev_unit.
  destruct (feedbacksOf (feedbackData s) (Teacher.id teacher) ++ _)%list
    eqn:Happ; [|reflexivity].
  now apply app_eq_nil in Happ as [_ ?].
Qed.

(** X12: the list under "Live Reviews" is the selected teacher's list
    with the newest entry first, and the placeholder stands exactly
    when no teacher is selected or the teacher has no review.  After an
    accepted submission the new review is at the top, before all
    earlier ones, and it is still there when the user has gone home and
    opened the same teacher again. *)
Theorem liveReviews_newest_first `{Locale}
    (date_now new_date : Z) (s : State) (teacher : Teacher.t) :
  selectedTeacher s = Some teacher →
  JSString.trim (feedbackText s) ≠ "" →
  feedbackRating s ≠ 0 →
  let newFeedback :=
    {| Feedback.id := date_now;
       Feedback.anonymousId := anonymousId s;
       Feedback.comment := JSString.trim (feedbackText s);
       Feedback.rating := feedbackRating s;
       Feedback.timestamp := JSDate.toISOString new_date |} in
  let earlier := List.rev (feedbacksOf (feedbackData s) (Teacher.id teacher)) in
  let s1 := step s (SubmitClick date_now new_date) in
  (liveReviews s = None ↔ feedbacksOf (feedbackData s) (Teacher.id teacher) = [])
  ∧ (feedbacksOf (feedbackData s) (Teacher.id teacher) ≠ [] →
     liveReviews s = Some earlier)
  ∧ liveReviews s1 = Some (newFeedback :: earlier)
  ∧ liveReviews (run s1 [SubmitMore; SelectTeacher teacher])
    = Some (newFeedback :: earlier).
Proof.
  intros Hsel Htext Hnz newFeedback earlier s1.
  split; [|split; [|split]].
  - rewrite liveReviews_spec, Hsel.
    destruct (feedbacksOf (feedbackData s) (Teacher.id teacher)); split; congruence.
  - intros Hsome. rewrite liveReviews_spec, Hsel. subst earlier.
    destruct (feedbacksOf (feedbackData s) (Teacher.id teacher)); congruence.
  - apply (liveReviews_submitted date_now new_date s s1 teacher Hsel Htext Hnz);
      [|reflexivity].
    subst s1. rewrite step_state. cbn [setTeachers selectedTeacher handle].
    now rewrite (submitFeedback_accepted _ _ _ teacher Hsel Htext Hnz).
  - apply (liveReviews_submitted date_now new_date s _ teacher Hsel Htext Hnz).
    + cbn [run]. rewrite step_state. reflexivity.
    + cbn [run]. rewrite step_feedbackData.
      cbn [handle selectTeacher setCurrentView setSelectedTeacher feedbackData].
      rewrite step_feedbackData. reflexivity.
Qed.

Lemma liveReviews_newest_first_witness :
  option_map (map Feedback.comment)
    (liveReviews
       (step (H := codeUnitLocale) secondReviewReady
          (SubmitClick 1700000000500 1700000000500)))
  = Some ["Once more"; "Great class"].
Proof.
  destruct (liveReviews_newest_first (H := codeUnitLocale)
              1700000000500 1700000000500 secondReviewReady rajeshKumar)
    as (_ & _ & Hshown & _).
  - vm_compute. reflexivity.
  - vm_compute. discriminate.
  - vm_compute. discriminate.
  - cbv zeta in Hshown. rewrite Hshown. vm_compute. reflexivity.
Defined.

(** ** The session's pseudonym *)

Lemma splitAt_digits (d : uint) :
  splitAt " " (NilEmpty.string_of_uint d) = [NilEmpty.string_of_uint d].
Proof.
  induction d; cbn [NilEmpty.string_of_uint splitAt]; try reflexivity;
    rewrite IHd; reflexivity.
Qed.

Lemma splitAt_ofInteger (n : Z) :
  0 <= n → splitAt " " (JSString.ofInteger n) = [JSString.ofInteger n].
Proof.
  intros Hn. rewrite ofInteger_nonneg by exact Hn.
  pose proof (N_to_uint_nonnil (Z.to_N n)) as Hnil.
  unfold NilZero.string_of_uint.
  destruct (N.to_uint (Z.to_N n)) eqn:Hd; [congruence|..];
    rewrite <- Hd; apply splitAt_digits.
Qed.

Lemma badgeText_pseudonym (fb : Feedback.t) (n : Z) :
  0 <= n →
  Feedback.anonymousId fb = "Anonymous " ++ JSString.ofInteger n →
  badgeText fb = Some (JSString.ofInteger n).
Proof.
  intros Hn Hid. unfold badgeText. rewrite Hid.
  change ("Anonymous " ++ JSString.ofInteger n)
    with (String "A" (String "n" (String "o" (String "n" (String "y"
            (String "m" (String "o" (String "u" (String "s" (String " "
               (JSString.ofInteger n))))))))))).
  cbn [splitAt Ascii.eqb Bool.eqb]. rewrite splitAt_ofInteger by exact Hn.
  reflexivity.
Qed.

Lemma reachable_anonymousId `{Locale} (s : State) :
  reachable s →
  ∃ randomId, 1 <= randomId <= 1000
              ∧ anonymousId s = "Anonymous " ++ JSString.ofInteger randomId.
Proof.
  induction 1 as [randomId Hid | s e Hreach IH Hen].
  - exists randomId. split; [exact Hid | reflexivity].
  - rewrite step_state. cbn [setTeachers anonymousId].
    now rewrite handle_anonymousId.
Qed.

(** X13: the pseudonym of the session is "Anonymous n" with n in
    1..1000 and no event changes it; every stored review carries it,
    and the round badge beside a review shows the number n. *)
Theorem session_pseudonym `{Locale} (s : State) :
  reachable s →
  ∃ randomId,
    1 <= randomId <= 1000
    ∧ anonymousId s = "Anonymous " ++ JSString.ofInteger randomId
    ∧ (∀ e, anonymousId (step s e) = anonymousId s)
    ∧ ∀ teacherId fb,
        fb ∈ feedbacksOf (feedbackData s) teacherId →
        Feedback.anonymousId fb = anonymousId s
        ∧ badgeText fb = Some (JSString.ofInteger randomId).
Proof.
  intros Hreach.
  destruct (reachable_anonymousId s Hreach) as (randomId & Hrange & Hid).
  exists randomId. split; [exact Hrange|]. split; [exact Hid|]. split.
  - intros e. rewrite step_state. cbn [setTeachers anonymousId].
    apply handle_anonymousId.
  - intros teacherId fb Hin.
    destruct (reachable_feedback_wellformed s Hreach teacherId fb Hin)
      as (_ & _ & Hfb).
    split; [exact Hfb|]. apply badgeText_pseudonym; [lia | congruence].
Qed.

Lemma session_pseudonym_witness :
  ∃ randomId, anonymousId secondReviewReady
              = "Anonymous " ++ JSString.ofInteger randomId.
Proof.
  destruct (session_pseudonym (H := codeUnitLocale) secondReviewReady
              secondReviewReady_reachable) as (randomId & _ & Hid & _).
  exists randomId. exact Hid.
Defined.

(** ** What a roster card shows *)

(** X14: a roster card without reviews reads "0.0" and carries no tag.
    In a reachable state a card with reviews (fewer than 2^45) reads a
    numeral between 1.0 and 10.0, a tenth nearest to the mean of the
    ratings, and carries the "TOP RATED" tag - whatever the ratings
    are: the tag tells reviewed teachers from the others, not high
    averages from low ones. *)
Theorem top_rated_tag `{Locale} (s : State) (teacherId : Z) :
  reachable s →
  getFeedbackCount s teacherId < 2 ^ 45 →
  (showsTopRated s teacherId = true ↔ 0 < getFeedbackCount s teacherId)
  ∧ (getFeedbackCount s teacherId = 0 →
     calculateAverageRating s teacherId = "0.0")
  ∧ (0 < getFeedbackCount s teacherId →
     ∃ n, calculateAverageRating s teacherId = spec_oneDecimal n
          ∧ 10 <= n <= 100
          ∧ 2 * Z.abs (10 * sumRatings (feedbacksOf (feedbackData s) teacherId)
                       - n * getFeedbackCount s teacherId)
            <= getFeedbackCount s teacherId).
Proof.
  intros Hreach Hcount. unfold getFeedbackCount in *.
  set (fbs := feedbacksOf (feedbackData s) teacherId) in *.
  assert (Hsome : 0 < Z.of_nat (List.length fbs) →
            ∃ n, calculateAverageRating s teacherId = Float64.fixed1_digits n
                 ∧ 10 <= n <= 100
                 ∧ 2 * Z.abs (10 * sumRatings fbs - n * Z.of_nat (List.length fbs))
                   <= Z.of_nat (List.length fbs)).
  { intros Hpos. apply (reachable_average s teacherId Hreach); [|exact Hcount].
    fold fbs. destruct fbs; [simpl in Hpos; lia | discriminate]. }
  assert (Hnone : Z.of_nat (List.length fbs) = 0 →
            calculateAverageRating s teacherId = "0.0").
  { intros Hzero. apply calculateAverageRating_empty. fold fbs.
    destruct fbs; [reflexivity | simpl in Hzero; lia]. }
  split; [|split].
  - unfold showsTopRated. split.
    + intros Hshown.
      destruct (Z.eq_dec (Z.of_nat (List.length fbs)) 0) as [Hzero|Hnz]; [|lia].
      rewrite (Hnone Hzero) in Hshown. vm_compute in Hshown. discriminate.
    + intros Hpos. destruct (Hsome Hpos) as (n & Htext & Hn & _).
      rewrite Htext, (proj1 (Number_tenths_fixed1_digits n ltac:(lia))).
      apply Z.ltb_lt. lia.
  - exact Hnone.
  - intros Hpos. destruct (Hsome Hpos) as (n & Htext & Hn & Hnear).
    exists n. rewrite Htext, fixed1_digits_oneDecimal by lia. auto.
Qed.

Lemma top_rated_tag_witness :
  showsTopRated secondReviewReady 1 = true
  ∧ showsTopRated secondReviewReady 2 = false.
Proof.
  destruct (top_rated_tag (H := codeUnitLocale) secondReviewReady 1
              secondReviewReady_reachable ltac:(vm_compute; reflexivity))
    as (Hfirst & _).
  destruct (top_rated_tag (H := codeUnitLocale) secondReviewReady 2
              secondReviewReady_reachable ltac:(vm_compute; reflexivity))
    as (Hsecond & _).
  split.
  - apply Hfirst. vm_compute. reflexivity.
  - apply not_true_is_false. intros Hshown.
    apply Hsecond in Hshown. vm_compute in Hshown. discriminate.
Defined.

(** ** The ids of the stored reviews *)

Lemma lookup_snoc_cases {A : Type} (l : list A) (x y : A) (i : nat) :
  (l ++ [x])%list !! i = Some y →
  l !! i = Some y ∨ (i = List.length l ∧ y = x).
Proof.
  intros Hlook. destruct (decide (i < List.length l)%nat) as [Hlt|Hge].
  - left. now rewrite lookup_app_l in Hlook.
  - right. rewrite lookup_app_r in Hlook by lia.
    destruct (i - List.length l)%nat as [|k] eqn:Hk; [|destruct k; discriminate].
    injection Hlook as <-. split; [lia | reflexivity].
Qed.

Lemma submitFeedback_ids (date_now new_date clock : Z) (s : State) :
  clock < date_now →
  idsUpTo clock s → idsDistinct s →
  idsUpTo date_now (snd (submitFeedback date_now new_date s))
  ∧ idsDistinct (snd (submitFeedback date_now new_date s)).
Proof.
  intros Hclock Hupto Hdistinct.
  destruct (submitFeedback_cases date_now new_date s)
    as [[message Heq] | (teacher & Hsel & Htext & Hnz)].
  - rewrite Heq. cbn [snd]. split; [|exact Hdistinct].
    intros t fb Hin. specialize (Hupto t fb Hin). lia.
  - rewrite (submitFeedback_accepted _ _ _ teacher Hsel Htext Hnz). cbn [snd].
    set (new := {| Feedback.id := date_now;
                   Feedback.anonymousId := anonymousId s;
                   Feedback.comment := JSString.trim (feedbackText s);
                   Feedback.rating := feedbackRating s;
                   Feedback.timestamp := JSDate.toISOString new_date |}).
    set (k := Teacher.id teacher).
    assert (Hlist : ∀ t i fb,
              feedbacksOf (<[k := (feedbacksOf (feedbackData s) k ++ [new])%list]>
                             (feedbackData s)) t !! i = Some fb →
              feedbacksOf (feedbackData s) t !! i = Some fb
              ∨ (t = k ∧ i = List.length (feedbacksOf (feedbackData s) k) ∧ fb = new)).
    { intros t i fb. destruct (decide (k = t)) as [<-|Hne].
      - rewrite feedbacksOf_insert_eq. intros Hlook.
        apply lookup_snoc_cases in Hlook as [Hold|[Hi Hfb]]; [now left|].
        right. auto.
      - rewrite feedbacksOf_insert_ne by exact Hne. now left. }
    assert (Hold : ∀ t i fb, feedbacksOf (feedbackData s) t !! i = Some fb →
                     Feedback.id fb <= clock).
    { intros t i fb Hlook. apply (Hupto t). eapply list_elem_of_lookup_2, Hlook. }
    split.
    + intros t fb Hin. cbn [feedbackData] in Hin.
      apply list_elem_of_lookup_1 in Hin as [i Hlook].
      apply Hlist in Hlook as [Hlook|(_ & _ & ->)].
      * specialize (Hold _ _ _ Hlook). lia.
      * cbn. lia.
    + intros t1 t2 i j fb1 fb2 Hlook1 Hlook2 Hid. cbn [feedbackData] in Hlook1, Hlook2.
      apply Hlist in Hlook1 as [Hlook1|(-> & -> & ->)];
        apply Hlist in Hlook2 as [Hlook2|(-> & -> & ->)].
      * exact (Hdistinct _ _ _ _ _ _ Hlook1 Hlook2 Hid).
      * specialize (Hold _ _ _ Hlook1). cbn in Hid. lia.
      * specialize (Hold _ _ _ Hlook2). cbn in Hid. lia.
      * split; reflexivity.
Qed.

Lemma handle_ids_unchanged (e : Event) (s : State) :
  (∀ date_now new_date, e ≠ SubmitClick date_now new_date) →
  feedbackData (handle e s) = feedbackData s.
Proof.
  intros Hother. destruct e; cbn [handle]; try reflexivity.
  - apply handleStatsCardClick_frame.
  - now destruct (Hother date_now new_date).
Qed.

Lemma run_ids `{Locale} (es : list Event) (clock : Z) (s : State) :
  clockAdvances clock es →
  idsUpTo clock s → idsDistinct s →
  idsDistinct (run s es).
Proof.
  revert clock s. induction es as [|e es IH]; intros clock s Hadv Hupto Hdistinct.
  - exact Hdistinct.
  - cbn [run].
    destruct e; cbn [clockAdvances] in Hadv;
      try (apply (IH clock); [exact Hadv | |];
           unfold idsUpTo, idsDistinct in *;
           rewrite step_feedbackData, handle_ids_unchanged by (intros; discriminate);
           assumption).
    destruct Hadv as [Hclock Hadv].
    destruct (submitFeedback_ids date_now new_date clock s Hclock Hupto Hdistinct)
      as [Hupto' Hdistinct'].
    apply (IH date_now); [exact Hadv | |];
      unfold idsUpTo, idsDistinct in *;
      rewrite step_feedbackData; cbn [handle]; assumption.
Qed.

(** X15: as long as every submission reads a later value of
    [Date.now()] than the one before it, no two stored reviews have the
    same id, in one teacher's list or across teachers: equal ids are at
    the same place of the same list.  (The ids are the keys of the
    rows under "Live Reviews".) *)
Theorem ids_distinct_while_clock_advances `{Locale}
    (randomId clock : Z) (es : list Event) :
  clockAdvances clock es →
  idsDistinct (run (mounted randomId) es).
Proof.
  intros Hadv. apply (run_ids es clock); [exact Hadv | |].
  - intros t fb. unfold mounted. rewrite filteredAndSortedTeachers_state.
    cbn [setAnonymousId setTeachers feedbackData initialState].
    unfold feedbacksOf. rewrite lookup_empty. cbn. intros Hin.
    now apply elem_of_nil in Hin.
  - intros t1 t2 i j fb1 fb2. unfold mounted.
    rewrite filteredAndSortedTeachers_state.
    cbn [setAnonymousId setTeachers feedbackData initialState].
    unfold feedbacksOf. rewrite lookup_empty. cbn. discriminate.
Qed.

Lemma ids_distinct_while_clock_advances_witness :
  idsDistinct
    (run (H := codeUnitLocale) (mounted (H := codeUnitLocale) 7)
       [ SelectTeacher rajeshKumar; FeedbackTextChange "Great class";
         RatingClick 9; SubmitClick 1700000000000 1700000000000; SubmitMore;
         SelectTeacher rajeshKumar; FeedbackTextChange "Once more";
         RatingClick 8; SubmitClick 1700000000500 1700000000500 ]).
Proof.
  apply (ids_distinct_while_clock_advances (H := codeUnitLocale) 7 0).
  cbn [clockAdvances]. repeat split; lia.
Defined.

(** ** The age shown beside a review *)

(** X16: the review just stored stands first under "Live Reviews", and
    the age written beside it at a later reading [now] of the clock is
    the message for the whole minutes between the submission and
    [now]: "Just now" during the first minute.  This holds on every
    host; the submission's clock reading is a time value and [now] is
    less than 2^53 ms from it. *)
Theorem new_review_age `{Locale} `{JSDate.Host}
    (date_now new_date now : Z) (s : State) (teacher : Teacher.t) :
  selectedTeacher s = Some teacher →
  JSString.trim (feedbackText s) ≠ "" →
  feedbackRating s ≠ 0 →
  - JSDate.maxTime <= new_date <= JSDate.maxTime →
  - 2 ^ 53 < now - new_date < 2 ^ 53 →
  ∃ newest earlier,
    liveReviews (step s (SubmitClick date_now new_date)) = Some (newest :: earlier)
    ∧ Feedback.comment newest = JSString.trim (feedbackText s)
    ∧ timeAgo now (Feedback.timestamp newest)
      = spec_timeAgo ((now - new_date) / 60000)
    ∧ (0 <= now - new_date < 60000 →
       timeAgo now (Feedback.timestamp newest) = "Just now").
Proof.
  intros Hsel Htext Hnz Hvalid Hrange.
  eexists _, _. split.
  - apply (liveReviews_submitted date_now new_date s _ teacher Hsel Htext Hnz);
      [|reflexivity].
    rewrite step_state. cbn [setTeachers selectedTeacher handle].
    now rewrite (submitFeedback_accepted _ _ _ teacher Hsel Htext Hnz).
  - cbn [Feedback.comment Feedback.timestamp].
    pose proof (timeAgo_of_time now _ new_date
                  (construct_toISOString new_date Hvalid) Hrange) as Hage.
    split; [reflexivity|]. split; [exact Hage|].
    intros Hfirst. rewrite Hage.
    rewrite (Z.div_small (now - new_date) 60000) by lia. reflexivity.
Qed.

Lemma new_review_age_witness :
  ∃ newest earlier,
    liveReviews (step (H := codeUnitLocale) secondReviewReady
                   (SubmitClick 1700000000500 1700000000500))
    = Some (newest :: earlier)
    ∧ timeAgo (H := JSDate.strictHost) 1700000090500 (Feedback.timestamp newest)
      = "1m ago".
Proof.
  destruct (new_review_age (H := codeUnitLocale) (H0 := JSDate.strictHost)
              1700000000500 1700000000500 1700000090500
              secondReviewReady rajeshKumar)
    as (newest & earlier & Hshown & _ & Hage & _).
  - vm_compute. reflexivity.
  - vm_compute. discriminate.
  - vm_compute. discriminate.
  - vm_compute. split; discriminate.
  - vm_compute. split; reflexivity.
  - exists newest, earlier. split; [exact Hshown|].
    rewrite Hage. vm_compute. reflexivity.
Defined.
